(** * SOGAS-V3: attendance hours engine and employee affectation history

    A shallow embedding of the route handlers of the SOGAS back end
    (Express + mysql2) that carry the business rules:

    - [Time]     : backend/routes/time/timeRoutes.js ([calculateHours]);
    - [Leaves]   : backend/routes/time/timeRoutes.js (POST /leaves);
    - [Employee] : backend/routes/employee/employeeRoutes.js
                   (POST /, PUT /:id, DELETE /:id);
    - [HR]       : backend/routes/hr/hrRoutes.js (POST /contracts).

    JavaScript numbers are modelled by rationals.  Every quantity that
    [calculateHours] derives from the two clock times is a multiple of 1/4
    of small magnitude, which binary floating point represents exactly, so
    the rational model and the IEEE computation agree on them.

    Each handler runs inside one transaction of the store; it is modelled
    as a function from the tables before the request to the HTTP status,
    the payload and the tables after the request, a rollback giving back
    the tables unchanged. *)

From Stdlib Require Import ZArith QArith Qround Qminmax Lia List String Ascii Bool.
Import ListNotations.

(* ================================================================== *)
(** * Part I.  Definitions                                            *)
(* ================================================================== *)

(** ** JavaScript primitives used by the handlers *)

Module JS.

(** [String.prototype.split] with a one-character separator. *)
Fixpoint split (sep : ascii) (s : string) : list string :=
  match s with
  | EmptyString => [EmptyString]
  | String c rest =>
      if Ascii.eqb c sep then EmptyString :: split sep rest
      else match split sep rest with
           | [] => [String c EmptyString]
           | w :: ws => String c w :: ws
           end
  end.

Definition is_digit (c : ascii) : bool :=
  ((48 <=? N_of_ascii c) && (N_of_ascii c <=? 57))%N.

Definition digit_value (c : ascii) : Z := Z.of_N (N_of_ascii c) - 48.

Fixpoint digits_value (acc : Z) (s : string) : option Z :=
  match s with
  | EmptyString => Some acc
  | String c rest =>
      if is_digit c then digits_value (10 * acc + digit_value c) rest
      else None
  end.

(** [Number(s)] on the strings made of decimal digits ([Number("")] is 0).
    [None] stands for every other string: JavaScript gives NaN there, or
    reads a sign, a fraction, an exponent or a radix prefix, none of which
    an HH:MM time contains.  The value is the integer that the digits
    write; JavaScript gives the same up to 2^53 and the nearest double
    beyond, which no time accepted by the schemas reaches. *)
Definition Number (s : string) : option Z := digits_value 0 s.

Definition Math_ceil (x : Q) : Q := inject_Z (Qceiling x).
Definition Math_min (x y : Q) : Q := Qmin x y.
Definition Math_max (x y : Q) : Q := Qmax x y.

(** [parseFloat(x.toFixed(2))]: the integer [n] with [n / 100] closest to
    [x], the larger one on a tie, computed on the absolute value when
    [x < 0] (ECMAScript, Number.prototype.toFixed). *)
Definition toFixed2 (x : Q) : Q :=
  if Qle_bool 0 x
  then inject_Z (Qfloor (x * 100 + (1 # 2))) / 100
  else - (inject_Z (Qfloor ((- x) * 100 + (1 # 2))) / 100).

(** Truthiness of an optional number, of an optional string. *)
Definition truthyZ (o : option Z) : bool :=
  match o with Some v => negb (v =? 0)%Z | None => false end.

Definition truthyS (o : option string) : bool :=
  match o with Some v => negb (String.eqb v EmptyString) | None => false end.

(** [o || d] for an optional number, for an optional string. *)
Definition orZ (o : option Z) (d : Z) : Z :=
  match o with Some v => if (v =? 0)%Z then d else v | None => d end.

Definition orS (o : option string) (d : string) : string :=
  match o with
  | Some v => if String.eqb v EmptyString then d else v
  | None => d
  end.

End JS.

(** ** timeRoutes.js: the hours engine *)

Module Time.

Import JS.

(** The check-in and check-out schemas accept
    [/^([0-1]?[0-9]|2[0-3]):[0-5][0-9]$/]. *)
Definition in_range (lo hi c : ascii) : bool :=
  ((N_of_ascii lo <=? N_of_ascii c) && (N_of_ascii c <=? N_of_ascii hi))%N.

Definition hour_re (h : string) : bool :=
  match h with
  | String d EmptyString => in_range "0" "9" d
  | String a (String b EmptyString) =>
      (in_range "0" "1" a && in_range "0" "9" b)
      || (Ascii.eqb a "2" && in_range "0" "3" b)
  | _ => false
  end.

Definition minute_re (m : string) : bool :=
  match m with
  | String a (String b EmptyString) => in_range "0" "5" a && in_range "0" "9" b
  | _ => false
  end.

Definition is_HHMM (s : string) : bool :=
  match split ":" s with
  | [h; m] => hour_re h && minute_re m
  | _ => false
  end.

Record HoursResult : Type := mkHours {
  totalHours : Q;
  heures_normales : Q;
  heures_sup_15 : Q;
  heures_sup_40 : Q;
  heures_supplementaires : Q;
  majoration_pourcentage : Q;
  panierRepas : bool
}.

(** [const [hours, minutes] = time.split(':').map(Number);
     return hours * 60 + minutes;] *)
Definition timeToMinutes (time : string) : option Z :=
  match map Number (split ":" time) with
  | Some hours :: Some minutes :: _ => Some (hours * 60 + minutes)%Z
  | _ => None
  end.

(** [calculateHours].  The three assignments of the special-day branches
    are the triple [(majoration, overtimeHours, normalHours)]; the ordinary
    day returns from inside its branch, as in the source.  The arithmetic
    is that of the rationals; the doubles of the source give the same
    figures on the times that the schemas accept, where the minute counts
    lie below 1440 and every hour figure is a multiple of a quarter. *)
Definition calculateHours (heure_entree heure_sortie : string)
    (isHoliday isSunday : bool) (majorationFeriee : Q) : option HoursResult :=
  match timeToMinutes heure_sortie, timeToMinutes heure_entree with
  | Some sortie, Some entree =>
      let totalMinutes := (sortie - entree)%Z in
      let totalHours := inject_Z totalMinutes / 60 in
      let totalHoursRounded := Math_ceil (totalHours * 4) / 4 in
      let baseNormalHours := 8 in
      let normalHours := Math_min totalHoursRounded baseNormalHours in
      let overtimeHours := Math_max 0 (totalHoursRounded - baseNormalHours) in
      let majoration := 0 in
      let panierRepas := Qle_bool 10 totalHoursRounded in
      let special '(majoration, overtimeHours, normalHours) :=
        Some {| totalHours := totalHoursRounded;
                heures_normales := toFixed2 normalHours;
                heures_sup_15 := 0;
                heures_sup_40 := 0;
                heures_supplementaires := toFixed2 overtimeHours;
                majoration_pourcentage := toFixed2 majoration;
                panierRepas := panierRepas |} in
      if isHoliday && isSunday then special (100, totalHoursRounded, 0)
      else if isHoliday then special (majorationFeriee, totalHoursRounded, 0)
      else if isSunday then special (60, totalHoursRounded, 0)
      else
        let overtime15 := Math_min overtimeHours 2 in
        let overtime40 := Math_max 0 (overtimeHours - 2) in
        Some {| totalHours := totalHoursRounded;
                heures_normales := toFixed2 normalHours;
                heures_sup_15 := toFixed2 overtime15;
                heures_sup_40 := toFixed2 overtime40;
                heures_supplementaires := toFixed2 (overtime15 + overtime40);
                majoration_pourcentage := 0;
                panierRepas := panierRepas |}
  | _, _ => None
  end.

End Time.

(** ** The relational store

    Only the tables and columns that the modelled handlers read or write.
    Dates are day numbers ([CURDATE()] is the handler's [today]); row
    identifiers are integers.  A statement that the store refuses raises
    an exception in the handler, whose [catch] rolls the transaction back:
    the tables are then the ones before the request, and the handlers
    below describe the requests whose statements the store accepts. *)

Module Store.

Definition Id := Z.
Definition Date := Z.

Bind Scope Z_scope with Id.
Bind Scope Z_scope with Date.

(** The six placement columns. *)
Record Placement : Type := mkPlacement {
  site_id : Id;
  department_id : Id;
  service_id : Id;
  team_id : Id;
  position : string;
  fonction : string
}.

(** Table [employees]. *)
Record Employee : Type := mkEmployee {
  id : Id;
  matricule : string;
  nom : string;
  prenom : string;
  placement : Placement;
  statut : string;
  user_id : option Id;
  position_id : option Id
}.

(** Table [employee_affectations].  [ancien] groups the six [*_ancien]
    columns, which the hiring route leaves NULL together ([None]) and the
    update route fills together; [nouveau] groups the six [*_nouveau]
    columns. *)
Record Affectation : Type := mkAffectation {
  employee_id : Id;
  date_debut : Date;
  date_fin : option Date;
  motif : string;
  commentaire : option string;
  created_by_user_id : Id;
  ancien : option Placement;
  nouveau : Placement
}.

(** Table [contracts]. *)
Record Contract : Type := mkContract {
  c_id : Id;
  c_employee_id : Id;
  c_type_contrat : string;
  c_date_debut : Date;
  c_date_fin_prevue : option Date;
  c_position_id : Id;
  c_salaire_de_base : Q;
  c_is_avenant : bool;
  c_parent_contract_id : option Id;
  c_statut : string
}.

(** Table [leave_requests]. *)
Record LeaveRequest : Type := mkLeaveRequest {
  l_id : Id;
  l_employee_id : Id;
  l_type_conge : string;
  l_date_debut : Date;
  l_date_fin : Date;
  l_nb_jours : Q;
  l_motif_employe : option string;
  l_statut_actuel : string
}.

(** Table [leave_validations]. *)
Record LeaveValidation : Type := mkLeaveValidation {
  v_request_id : Id;
  v_validateur_id : Id;
  v_niveau_validation : string;
  v_decision : string;
  v_commentaire : string
}.

Record Db : Type := mkDb {
  sites : list Id;
  departments : list Id;
  services : list Id;
  teams : list Id;
  employees : list Employee;
  employee_affectations : list Affectation;
  contracts : list Contract;
  leave_requests : list LeaveRequest;
  leave_validations : list LeaveValidation
}.

(** [result.insertId] of an AUTO_INCREMENT key: an identifier above all
    those of the table. *)
Definition insertId {A} (key : A -> Id) (table : list A) : Id :=
  (fold_right (fun r m => Z.max (key r) m) 0 table + 1)%Z.

(** [SELECT COUNT( * ) FROM t WHERE id = ?] on a table of identifiers. *)
Definition count_id (table : list Id) (i : Id) : nat :=
  List.length (filter (Z.eqb i) table).

(** [UPDATE t SET ... WHERE p]. *)
Definition update_where {A} (p : A -> bool) (f : A -> A) (table : list A)
    : list A :=
  map (fun r => if p r then f r else r) table.

(** [UPDATE t SET ... WHERE p LIMIT 1], rows taken in table order. *)
Fixpoint update_first {A} (p : A -> bool) (f : A -> A) (table : list A)
    : list A :=
  match table with
  | [] => []
  | r :: rest => if p r then f r :: rest else r :: update_first p f rest
  end.

Definition is_open (a : Affectation) : bool :=
  match date_fin a with None => true | Some _ => false end.

Definition open_of (e : Id) (a : Affectation) : bool :=
  (employee_id a =? e)%Z && is_open a.

(** Number of open affectation records of an employee. *)
Definition open_count (db : Db) (e : Id) : nat :=
  List.length (filter (open_of e) (employee_affectations db)).

(** The affectation records of an employee, in insertion order. *)
Definition history (db : Db) (e : Id) : list Affectation :=
  filter (fun a => (employee_id a =? e)%Z) (employee_affectations db).

Definition find_employee (db : Db) (e : Id) : option Employee :=
  find (fun r => (id r =? e)%Z) (employees db).

End Store.

(** HTTP replies: the status code and the part of the JSON body that
    carries data. *)
Inductive Payload : Type :=
| Message
| EmployeeId (employeeId : Store.Id)
| AffectationChanged (employeeId : Store.Id) (affectationChanged : bool)
| ContractId (contractId : Store.Id)
| RequestId (requestId : Store.Id).

Definition Reply : Type := (nat * Payload)%type.

Definition status (r : Reply) : nat := fst r.

(** ** employeeRoutes.js *)

Module CreateBody.

(** The body of POST /api/employee after [Joi] has read it.  The fields
    of the tables [employee_personal] and [employee_contact] (genre,
    date_naissance, telephone_principal and the two contact_urgence
    fields) are not modelled; [autres_valides] says that the schema
    accepts them. *)
Record t : Type := mk {
  matricule : string;
  nom : string;
  prenom : string;
  site_id : Z;
  department_id : Z;
  service_id : Z;
  team_id : Z;
  position : string;
  fonction : string;
  user_id : option Z;
  autres_valides : bool
}.

End CreateBody.

Module UpdateBody.

(** [fieldsToUpdate]: the body of PUT /api/employee/:id, every key
    optional ([None] is [undefined]); [user_id] and
    [commentaire_changement] may also be [null] ([Some None]).  [autres]
    says that some key of [employee_personal] or [employee_contact] is
    present (and well formed). *)
Record t : Type := mk {
  matricule : option string;
  nom : option string;
  prenom : option string;
  site_id : option Z;
  department_id : option Z;
  service_id : option Z;
  team_id : option Z;
  position : option string;
  fonction : option string;
  statut : option string;
  motif_changement : option string;
  commentaire_changement : option (option string);
  user_id : option (option Z);
  autres : bool
}.

End UpdateBody.

Module Employee.

Import JS Store.

Definition present {A} (o : option A) : bool :=
  match o with Some _ => true | None => false end.

(** [Joi.string()] refuses the empty string; [.max(n)] bounds the length. *)
Definition joi_string (max : option nat) (s : string) : bool :=
  negb (String.eqb s EmptyString)
  && match max with Some n => (String.length s <=? n)%nat | None => true end.

(** [Joi.number().integer().min(1)]. *)
Definition joi_id (v : Z) : bool := (1 <=? v)%Z.

Definition opt {A} (p : A -> bool) (o : option A) : bool :=
  match o with Some v => p v | None => true end.

Definition employeeCreationSchema (b : CreateBody.t) : bool :=
  joi_string (Some 50%nat) (CreateBody.matricule b)
  && joi_string None (CreateBody.nom b)
  && joi_string None (CreateBody.prenom b)
  && joi_id (CreateBody.site_id b)
  && joi_id (CreateBody.department_id b)
  && joi_id (CreateBody.service_id b)
  && joi_id (CreateBody.team_id b)
  && joi_string (Some 255%nat) (CreateBody.position b)
  && joi_string (Some 255%nat) (CreateBody.fonction b)
  && CreateBody.autres_valides b.

Definition statuts : list string :=
  ["Actif"; "Congé"; "Maladie"; "Suspendu"; "Licencié"]%string.

Definition mem_string (s : string) (l : list string) : bool :=
  existsb (String.eqb s) l.

Definition employeeUpdateSchema (b : UpdateBody.t) : bool :=
  opt (joi_string (Some 50%nat)) (UpdateBody.matricule b)
  && opt (joi_string None) (UpdateBody.nom b)
  && opt (joi_string None) (UpdateBody.prenom b)
  && opt joi_id (UpdateBody.site_id b)
  && opt joi_id (UpdateBody.department_id b)
  && opt joi_id (UpdateBody.service_id b)
  && opt joi_id (UpdateBody.team_id b)
  && opt (joi_string (Some 255%nat)) (UpdateBody.position b)
  && opt (joi_string (Some 255%nat)) (UpdateBody.fonction b)
  && opt (fun s => mem_string s statuts) (UpdateBody.statut b)
  && opt (joi_string (Some 255%nat)) (UpdateBody.motif_changement b)
  && (present (UpdateBody.matricule b) || present (UpdateBody.nom b)
      || present (UpdateBody.prenom b) || present (UpdateBody.site_id b)
      || present (UpdateBody.department_id b)
      || present (UpdateBody.service_id b) || present (UpdateBody.team_id b)
      || present (UpdateBody.position b) || present (UpdateBody.fonction b)
      || present (UpdateBody.statut b)
      || present (UpdateBody.motif_changement b)
      || present (UpdateBody.commentaire_changement b)
      || present (UpdateBody.user_id b) || UpdateBody.autres b).

(** Modelled from the spec: the default of the column [employees.statut],
    declared in the SQL schema, which is not among the sources.  A hired
    employee is active: the status is one of Actif, Congé, Maladie,
    Suspendu, Licencié, and check-in, leave and contract routes ask for
    'Actif'. *)
Definition statut_defaut : string := "Actif".

(** POST /api/employee. *)
Definition post (today : Date) (user : Id) (body : CreateBody.t) (db : Db)
    : Reply * Db :=
  if negb (employeeCreationSchema body) then ((400%nat, Message), db)
  else if existsb (fun e => String.eqb (matricule e) (CreateBody.matricule body))
                  (employees db)
  then ((409%nat, Message), db)
  else if (count_id (sites db) (CreateBody.site_id body) =? 0)%nat
          || (count_id (departments db) (CreateBody.department_id body) =? 0)%nat
          || (count_id (services db) (CreateBody.service_id body) =? 0)%nat
          || (count_id (teams db) (CreateBody.team_id body) =? 0)%nat
  then ((400%nat, Message), db)
  else
    let p := mkPlacement (CreateBody.site_id body)
               (CreateBody.department_id body) (CreateBody.service_id body)
               (CreateBody.team_id body) (CreateBody.position body)
               (CreateBody.fonction body) in
    let employeeId := insertId id (employees db) in
    let row := mkEmployee employeeId (CreateBody.matricule body)
                 (CreateBody.nom body) (CreateBody.prenom body) p
                 statut_defaut (CreateBody.user_id body) None in
    let aff := mkAffectation employeeId today None "Embauche initiale" None
                 user None p in
    ((201%nat, EmployeeId employeeId),
     mkDb (sites db) (departments db) (services db) (teams db)
          (employees db ++ [row])
          (employee_affectations db ++ [aff])
          (contracts db) (leave_requests db) (leave_validations db)).

(** [isAffectationChange]: each disjunct is
    [fieldsToUpdate.f && fieldsToUpdate.f !== currentEmployee.f]. *)
Definition changedZ (o : option Z) (cur : Z) : bool :=
  truthyZ o && match o with Some v => negb (v =? cur)%Z | None => false end.

Definition changedS (o : option string) (cur : string) : bool :=
  truthyS o && match o with Some v => negb (String.eqb v cur) | None => false end.

Definition isAffectationChange (fieldsToUpdate : UpdateBody.t)
    (currentEmployee : Placement) : bool :=
  changedZ (UpdateBody.site_id fieldsToUpdate) (site_id currentEmployee)
  || changedZ (UpdateBody.department_id fieldsToUpdate)
              (department_id currentEmployee)
  || changedZ (UpdateBody.service_id fieldsToUpdate) (service_id currentEmployee)
  || changedZ (UpdateBody.team_id fieldsToUpdate) (team_id currentEmployee)
  || changedS (UpdateBody.position fieldsToUpdate) (position currentEmployee)
  || changedS (UpdateBody.fonction fieldsToUpdate) (fonction currentEmployee).

(** What the reply carries as [affectationChanged]: the value of the
    [||] chain itself.  It is [true] when a disjunct is true; when none
    is, it is the value of the last disjunct,
    [fieldsToUpdate.fonction && ...]: [undefined] when [fonction] is not
    supplied, and [false] when it is supplied (the schema admits no empty
    [fonction]) and is the current one.  [None] is [undefined]:
    [res.json] then leaves the key out of the body. *)
Definition affectationChanged (fieldsToUpdate : UpdateBody.t)
    (currentEmployee : Placement) : option bool :=
  if isAffectationChange fieldsToUpdate currentEmployee then Some true
  else match UpdateBody.fonction fieldsToUpdate with
       | Some _ => Some false
       | None => None
       end.

(** The new snapshot: [fieldsToUpdate.f || currentEmployee.f]. *)
Definition nouvelles_valeurs (fieldsToUpdate : UpdateBody.t)
    (currentEmployee : Placement) : Placement :=
  mkPlacement
    (orZ (UpdateBody.site_id fieldsToUpdate) (site_id currentEmployee))
    (orZ (UpdateBody.department_id fieldsToUpdate) (department_id currentEmployee))
    (orZ (UpdateBody.service_id fieldsToUpdate) (service_id currentEmployee))
    (orZ (UpdateBody.team_id fieldsToUpdate) (team_id currentEmployee))
    (orS (UpdateBody.position fieldsToUpdate) (position currentEmployee))
    (orS (UpdateBody.fonction fieldsToUpdate) (fonction currentEmployee)).

(** [WHERE employee_id = ? AND date_fin IS NULL ORDER BY date_debut DESC
    LIMIT 1]: the greatest [date_debut] among the open records of the
    employee, then the first such record. *)
Definition latest_open_debut (e : Id) (table : list Affectation)
    : option Date :=
  fold_right
    (fun a m => if open_of e a
                then match m with
                     | Some d => Some (Z.max (date_debut a) d)
                     | None => Some (date_debut a)
                     end
                else m)
    None table.

Definition update_latest_open (e : Id) (f : Affectation -> Affectation)
    (table : list Affectation) : list Affectation :=
  match latest_open_debut e table with
  | Some d => update_first (fun a => open_of e a && (date_debut a =? d)%Z) f table
  | None => table
  end.

Definition terminer (today : Date) (raison : string) (user : Id)
    (a : Affectation) : Affectation :=
  mkAffectation (employee_id a) (date_debut a) (Some (today - 1)%Z) (motif a)
    (Some ("Affectation terminée suite à: " ++ raison)%string) user
    (ancien a) (nouveau a).

(** The SET clauses of [UPDATE employees]. *)
Inductive Assignment : Type :=
| SetMatricule (v : string)
| SetNom (v : string)
| SetPrenom (v : string)
| SetSiteId (v : Id)
| SetDepartmentId (v : Id)
| SetServiceId (v : Id)
| SetTeamId (v : Id)
| SetPosition (v : string)
| SetFonction (v : string)
| SetStatut (v : string)
| SetUserId (v : option Id).

Definition set_placement (f : Placement -> Placement) (e : Employee)
    : Employee :=
  mkEmployee (id e) (matricule e) (nom e) (prenom e) (f (placement e))
    (statut e) (user_id e) (position_id e).

Definition assign (a : Assignment) (e : Employee) : Employee :=
  match a with
  | SetMatricule v =>
      mkEmployee (id e) v (nom e) (prenom e) (placement e) (statut e)
        (user_id e) (position_id e)
  | SetNom v =>
      mkEmployee (id e) (matricule e) v (prenom e) (placement e) (statut e)
        (user_id e) (position_id e)
  | SetPrenom v =>
      mkEmployee (id e) (matricule e) (nom e) v (placement e) (statut e)
        (user_id e) (position_id e)
  | SetSiteId v =>
      set_placement (fun p => mkPlacement v (department_id p) (service_id p)
                                (team_id p) (position p) (fonction p)) e
  | SetDepartmentId v =>
      set_placement (fun p => mkPlacement (site_id p) v (service_id p)
                                (team_id p) (position p) (fonction p)) e
  | SetServiceId v =>
      set_placement (fun p => mkPlacement (site_id p) (department_id p) v
                                (team_id p) (position p) (fonction p)) e
  | SetTeamId v =>
      set_placement (fun p => mkPlacement (site_id p) (department_id p)
                                (service_id p) v (position p) (fonction p)) e
  | SetPosition v =>
      set_placement (fun p => mkPlacement (site_id p) (department_id p)
                                (service_id p) (team_id p) v (fonction p)) e
  | SetFonction v =>
      set_placement (fun p => mkPlacement (site_id p) (department_id p)
                                (service_id p) (team_id p) (position p) v) e
  | SetStatut v =>
      mkEmployee (id e) (matricule e) (nom e) (prenom e) (placement e) v
        (user_id e) (position_id e)
  | SetUserId v =>
      mkEmployee (id e) (matricule e) (nom e) (prenom e) (placement e)
        (statut e) v (position_id e)
  end.

Definition clause {A} (c : A -> Assignment) (o : option A) : list Assignment :=
  match o with Some v => [c v] | None => [] end.

(** [buildUpdateQuery(employeeFields, 'employees', employeeId)]: the
    fields that are not [undefined], in the order of [employeeFields];
    [None] when there is none. *)
Definition buildUpdateQuery (fieldsToUpdate : UpdateBody.t)
    : option (list Assignment) :=
  let updates :=
    clause SetMatricule (UpdateBody.matricule fieldsToUpdate)
    ++ clause SetNom (UpdateBody.nom fieldsToUpdate)
    ++ clause SetPrenom (UpdateBody.prenom fieldsToUpdate)
    ++ clause SetSiteId (UpdateBody.site_id fieldsToUpdate)
    ++ clause SetDepartmentId (UpdateBody.department_id fieldsToUpdate)
    ++ clause SetServiceId (UpdateBody.service_id fieldsToUpdate)
    ++ clause SetTeamId (UpdateBody.team_id fieldsToUpdate)
    ++ clause SetPosition (UpdateBody.position fieldsToUpdate)
    ++ clause SetFonction (UpdateBody.fonction fieldsToUpdate)
    ++ clause SetStatut (UpdateBody.statut fieldsToUpdate)
    ++ clause SetUserId (UpdateBody.user_id fieldsToUpdate) in
  match updates with [] => None | _ => Some updates end.

(** [UPDATE employees SET <clauses> WHERE id = ?]. *)
Definition run_update (clauses : list Assignment) (e : Id)
    (table : list Employee) : list Employee :=
  update_where (fun r => (id r =? e)%Z)
    (fun r => fold_left (fun r a => assign a r) clauses r) table.

(** PUT /api/employee/:id.  The test [Object.keys(fieldsToUpdate).length
    === 0] is covered by [.min(1)] of the schema; the updates of
    [employee_personal] and [employee_contact] touch tables that are not
    modelled.  The body of the 200 reply has the key [affectationChanged]
    when [isAffectationChange] is a boolean, and is made of the message
    and [employeeId] alone when it is [undefined]. *)
Definition put (today : Date) (user : Id) (employeeId : Id)
    (fieldsToUpdate : UpdateBody.t) (db : Db) : Reply * Db :=
  if negb (employeeUpdateSchema fieldsToUpdate) then ((400%nat, Message), db)
  else
    match filter (fun r => (id r =? employeeId)%Z) (employees db) with
    | [] => ((404%nat, Message), db)
    | currentRow :: _ =>
        let currentEmployee := placement currentRow in
        let change := isAffectationChange fieldsToUpdate currentEmployee in
        if change && negb (truthyS (UpdateBody.motif_changement fieldsToUpdate))
        then ((400%nat, Message), db)
        else
          let affectations :=
            if change then
              update_latest_open employeeId
                (terminer today
                   (orS (UpdateBody.motif_changement fieldsToUpdate)
                        "Mutation/Changement de poste")
                   user)
                (employee_affectations db)
              ++ [mkAffectation employeeId today None
                    (match UpdateBody.motif_changement fieldsToUpdate with
                     | Some m => m
                     | None => EmptyString
                     end)
                    (match UpdateBody.commentaire_changement fieldsToUpdate with
                     | Some (Some c) =>
                         if String.eqb c EmptyString then None else Some c
                     | _ => None
                     end)
                    user (Some currentEmployee)
                    (nouvelles_valeurs fieldsToUpdate currentEmployee)]
            else employee_affectations db in
          let employes :=
            match buildUpdateQuery fieldsToUpdate with
            | Some clauses => run_update clauses employeeId (employees db)
            | None => employees db
            end in
          ((200%nat,
            match affectationChanged fieldsToUpdate currentEmployee with
            | Some changed => AffectationChanged employeeId changed
            | None => EmployeeId employeeId
            end),
           mkDb (sites db) (departments db) (services db) (teams db)
                employes affectations
                (contracts db) (leave_requests db) (leave_validations db))
    end.

(** [result.affectedRows] of an UPDATE: the rows matched by the WHERE
    clause when the connection carries the flag FOUND_ROWS, the rows whose
    values changed when it does not. *)
Definition affectedRows {A} (found_rows : bool) (eqb : A -> A -> bool)
    (p : A -> bool) (f : A -> A) (table : list A) : nat :=
  List.length
    (filter (fun r => p r && (found_rows || negb (eqb (f r) r))) table).

(** mysql2 opens its connections with FOUND_ROWS among the default flags,
    and [config/db.js] sets no [flags] option. *)
Definition mysql2_FOUND_ROWS : bool := true.

Definition Employee_eqb_statut (a b : Employee) : bool :=
  String.eqb (statut a) (statut b).

Definition archiver (today : Date) (user : Id) (a : Affectation)
    : Affectation :=
  mkAffectation (employee_id a) (date_debut a) (Some today)
    ("Licenciement/Archivage par " ++ "Procédure de départ")%string
    (commentaire a) user (ancien a) (nouveau a).

(** DELETE /api/employee/:id. *)
Definition delete (found_rows : bool) (today : Date) (user : Id)
    (employeeId : Id) (db : Db) : Reply * Db :=
  let concerne := fun r : Employee => (id r =? employeeId)%Z in
  let licencier := assign (SetStatut "Licencié") in
  if (affectedRows found_rows Employee_eqb_statut concerne licencier
        (employees db) =? 0)%nat
  then ((404%nat, Message), db)
  else
    let employes1 := update_where concerne licencier (employees db) in
    let affectations :=
      update_where (open_of employeeId) (archiver today user)
        (employee_affectations db) in
    let employes2 := update_where concerne (assign (SetUserId None)) employes1 in
    ((200%nat, EmployeeId employeeId),
     mkDb (sites db) (departments db) (services db) (teams db)
          employes2 affectations
          (contracts db) (leave_requests db) (leave_validations db)).

End Employee.

(** ** hrRoutes.js *)

Module ContractBody.

(** The body of POST /api/hr/contracts after [Joi] has read it and set
    the default of [is_avenant]; [parent_contract_id] may be [null]
    ([Some None]); [notes_rh] and [document_url] are copied to columns
    that are not modelled. *)
Record t : Type := mk {
  employee_id : Z;
  type_contrat : string;
  date_debut : Z;
  date_fin_prevue : option Z;
  position_id : Z;
  salaire_de_base : Q;
  is_avenant : bool;
  parent_contract_id : option (option Z)
}.

End ContractBody.

Module HR.

Import JS Store.

Definition types_contrat : list string :=
  ["CDI"; "CDD"; "Stage"; "Consultant"; "Saisonnier"; "Apprentissage"]%string.

Definition contractSchema (b : ContractBody.t) : bool :=
  Employee.joi_id (ContractBody.employee_id b)
  && Employee.mem_string (ContractBody.type_contrat b) types_contrat
  && match ContractBody.date_fin_prevue b with
     | Some d =>
         negb (String.eqb (ContractBody.type_contrat b) "CDI")
         && (ContractBody.date_debut b <=? d)%Z
     | None => true
     end
  && Employee.joi_id (ContractBody.position_id b)
  && Qle_bool 0 (ContractBody.salaire_de_base b)
  && match ContractBody.parent_contract_id b with
     | Some (Some p) => Employee.joi_id p
     | Some None => true
     | None => negb (ContractBody.is_avenant b)
     end.

(** Modelled from the spec: the default of the column [contracts.statut],
    declared in the SQL schema, which is not among the sources.  A new
    contract is active: the exclusivity rule counts the contracts whose
    status is 'Actif'. *)
Definition statut_defaut : string := "Actif".

Definition employe_actif (db : Db) (e : Id) : bool :=
  existsb (fun r => (id r =? e)%Z && String.eqb (statut r) "Actif")
    (employees db).

(** [SELECT id FROM contracts WHERE employee_id = ? AND statut = "Actif"
    AND is_avenant = FALSE]. *)
Definition activeContracts (db : Db) (e : Id) : list Contract :=
  filter (fun c => (c_employee_id c =? e)%Z
                   && String.eqb (c_statut c) "Actif"
                   && negb (c_is_avenant c))
    (contracts db).

Definition set_position_id (v : Id) (e : Employee) : Employee :=
  mkEmployee (id e) (matricule e) (nom e) (prenom e) (placement e)
    (statut e) (user_id e) (Some v).

(** POST /api/hr/contracts. *)
Definition post_contracts (value : ContractBody.t) (db : Db) : Reply * Db :=
  if negb (contractSchema value) then ((400%nat, Message), db)
  else if negb (employe_actif db (ContractBody.employee_id value))
  then ((404%nat, Message), db)
  else if negb (ContractBody.is_avenant value)
          && negb (List.length
                     (activeContracts db (ContractBody.employee_id value))
                   =? 0)%nat
  then ((409%nat, Message), db)
  else
    let contractId := insertId c_id (contracts db) in
    let row := mkContract contractId (ContractBody.employee_id value)
                 (ContractBody.type_contrat value)
                 (ContractBody.date_debut value)
                 (ContractBody.date_fin_prevue value)
                 (ContractBody.position_id value)
                 (ContractBody.salaire_de_base value)
                 (ContractBody.is_avenant value)
                 (match ContractBody.parent_contract_id value with
                  | Some p => p
                  | None => None
                  end)
                 statut_defaut in
    let employes :=
      if negb (ContractBody.is_avenant value)
      then update_where
             (fun r => (id r =? ContractBody.employee_id value)%Z)
             (set_position_id (ContractBody.position_id value))
             (employees db)
      else employees db in
    ((201%nat, ContractId contractId),
     mkDb (sites db) (departments db) (services db) (teams db)
          employes (employee_affectations db)
          (contracts db ++ [row]) (leave_requests db) (leave_validations db)).

End HR.

(** ** timeRoutes.js: leave requests *)

Module LeaveBody.

(** The body of POST /api/time/leaves after [Joi] has read it. *)
Record t : Type := mk {
  employee_id : Z;
  type_conge : string;
  date_debut : Z;
  date_fin : Z;
  nb_jours : Q;
  motif_employe : option string
}.

End LeaveBody.

Module Leaves.

Import JS Store.

(** [date_debut] is [.min('now')], [date_fin] is [.min(ref date_debut)];
    [now] is the instant of the request on the axis of the dates. *)
Definition leaveRequestSchema (now : Date) (b : LeaveBody.t) : bool :=
  Employee.joi_id (LeaveBody.employee_id b)
  && Employee.joi_string (Some 50%nat) (LeaveBody.type_conge b)
  && (now <=? LeaveBody.date_debut b)%Z
  && (LeaveBody.date_debut b <=? LeaveBody.date_fin b)%Z
  && Qle_bool (1 # 2) (LeaveBody.nb_jours b).

(** [x BETWEEN a AND b]. *)
Definition between (x a b : Z) : bool := ((a <=? x) && (x <=? b))%Z.

Definition statuts_bloquants : list string :=
  ["Soumis"; "En attente"; "Approuvé"]%string.

(** The WHERE clause of the overlap query, on one row. *)
Definition chevauche (value : LeaveBody.t) (r : LeaveRequest) : bool :=
  (l_employee_id r =? LeaveBody.employee_id value)%Z
  && Employee.mem_string (l_statut_actuel r) statuts_bloquants
  && (between (LeaveBody.date_debut value) (l_date_debut r) (l_date_fin r)
      || between (LeaveBody.date_fin value) (l_date_debut r) (l_date_fin r)
      || between (l_date_debut r) (LeaveBody.date_debut value)
           (LeaveBody.date_fin value)).

(** Modelled from the spec: the default of the column
    [leave_requests.statut_actuel], declared in the SQL schema, which is
    not among the sources.  A new request is in the first of the statuses
    Soumis, En attente, Approuvé (the route's own comment: "statut par
    défaut 'Soumis'"). *)
Definition statut_defaut : string := "Soumis".

(** POST /api/time/leaves. *)
Definition post_leaves (now : Date) (user : Id) (value : LeaveBody.t)
    (db : Db) : Reply * Db :=
  if negb (leaveRequestSchema now value) then ((400%nat, Message), db)
  else if negb (HR.employe_actif db (LeaveBody.employee_id value))
  then ((404%nat, Message), db)
  else if negb (List.length (filter (chevauche value) (leave_requests db))
                =? 0)%nat
  then ((409%nat, Message), db)
  else
    let requestId := insertId l_id (leave_requests db) in
    let row := mkLeaveRequest requestId (LeaveBody.employee_id value)
                 (LeaveBody.type_conge value) (LeaveBody.date_debut value)
                 (LeaveBody.date_fin value) (LeaveBody.nb_jours value)
                 (match LeaveBody.motif_employe value with
                  | Some m => if String.eqb m EmptyString then None else Some m
                  | None => None
                  end)
                 statut_defaut in
    let etape := mkLeaveValidation requestId user "Soumission Employé"
                   "En attente" "Demande soumise par l'employé." in
    ((201%nat, RequestId requestId),
     mkDb (sites db) (departments db) (services db) (teams db)
          (employees db) (employee_affectations db) (contracts db)
          (leave_requests db ++ [row]) (leave_validations db ++ [etape])).

End Leaves.

(** ** Request traces of the employee routes *)

Inductive Request : Type :=
| Hire (today : Store.Date) (user : Store.Id) (body : CreateBody.t)
| Update (today : Store.Date) (user : Store.Id) (employeeId : Store.Id)
    (body : UpdateBody.t)
| Archive (today : Store.Date) (user : Store.Id) (employeeId : Store.Id).

Definition handle (r : Request) (db : Store.Db) : Reply * Store.Db :=
  match r with
  | Hire today user body => Employee.post today user body db
  | Update today user e body => Employee.put today user e body db
  | Archive today user e =>
      Employee.delete Employee.mysql2_FOUND_ROWS today user e db
  end.

(** The tables after a list of requests, served one after the other. *)
Definition serve (db : Store.Db) (rs : list Request) : Store.Db :=
  fold_left (fun d r => snd (handle r d)) rs db.

(** The request asks to archive employee [e]. *)
Definition archives (e : Store.Id) (r : Request) : bool :=
  match r with Archive _ _ e' => (e' =? e)%Z | _ => false end.

(** A request of the list, served from [db], has archived employee [e]:
    it asks to archive [e] and is answered with 200. *)
Fixpoint archived (e : Store.Id) (db : Store.Db) (rs : list Request) : bool :=
  match rs with
  | [] => false
  | r :: rest =>
      (archives e r && (status (fst (handle r db)) =? 200)%nat)
      || archived e (snd (handle r db)) rest
  end.

(** ** Notions used in the statements *)

(** A number of hours that is a whole number of quarters. *)
Definition quarter (k : Z) : Q := inject_Z k / 4.

Definition is_quarter (x : Q) : Prop := exists k : Z, x == quarter k.

(** [rawHours]: the decimal duration between two minute counts. *)
Definition rawHours (entree sortie : Z) : Q := inject_Z (sortie - entree) / 60.

Import Store.

(** Some placement field of the body is supplied with a value other than
    the current one. *)
Definition placement_differs (b : UpdateBody.t) (p : Placement) : Prop :=
  (exists v, UpdateBody.site_id b = Some v /\ v <> site_id p)
  \/ (exists v, UpdateBody.department_id b = Some v /\ v <> department_id p)
  \/ (exists v, UpdateBody.service_id b = Some v /\ v <> service_id p)
  \/ (exists v, UpdateBody.team_id b = Some v /\ v <> team_id p)
  \/ (exists v, UpdateBody.position b = Some v /\ v <> position p)
  \/ (exists v, UpdateBody.fonction b = Some v /\ v <> fonction p).

(** The value of a field after an update, in the words of the
    specification: the supplied value, the old one when the field is
    absent. *)
Definition supplied {A} (o : option A) (old : A) : A :=
  match o with Some v => v | None => old end.

Definition updated_placement (b : UpdateBody.t) (p : Placement) : Placement :=
  mkPlacement
    (supplied (UpdateBody.site_id b) (site_id p))
    (supplied (UpdateBody.department_id b) (department_id p))
    (supplied (UpdateBody.service_id b) (service_id p))
    (supplied (UpdateBody.team_id b) (team_id p))
    (supplied (UpdateBody.position b) (position p))
    (supplied (UpdateBody.fonction b) (fonction p)).

(** Every affectation record belongs to an employee of the table. *)
Definition foreign_keys (db : Db) : Prop :=
  forall a, In a (employee_affectations db) ->
            exists r, In r (employees db) /\ id r = employee_id a.

(** An update of employee [e] that passes validation, changes the
    placement and gives its reason. *)
Definition placement_change (db : Db) (e : Id) (b : UpdateBody.t) : Prop :=
  Employee.employeeUpdateSchema b = true
  /\ (exists cur, find_employee db e = Some cur
                  /\ placement_differs b (placement cur))
  /\ (exists m, UpdateBody.motif_changement b = Some m).

(** [changes e db n db']: [n] placement changes of employee [e], one after
    the other, lead from [db] to [db']. *)
Inductive changes (e : Id) (db : Db) : nat -> Db -> Prop :=
| changes_O : changes e db 0 db
| changes_S n db1 today user b :
    changes e db n db1 ->
    placement_change db1 e b ->
    changes e db (S n) (snd (Employee.put today user e b db1)).

(** Consecutive records of a history: the old snapshot of the later one is
    the new snapshot of the earlier one, which ends the day before the
    later one starts. *)
Definition continuous (l : list Affectation) : Prop :=
  forall k a b,
    nth_error l k = Some a -> nth_error l (S k) = Some b ->
    ancien b = Some (nouveau a)
    /\ date_fin a = Some (date_debut b - 1)%Z.

(** The same, one pair after the other. *)
Definition link (a b : Affectation) : Prop :=
  ancien b = Some (nouveau a) /\ date_fin a = Some (date_debut b - 1)%Z.

Fixpoint chain (l : list Affectation) : Prop :=
  match l with
  | a :: (b :: _) as rest => link a b /\ chain rest
  | _ => True
  end.

(** The history of [e] in [db]: [n] closed records, then the open one,
    whose new snapshot is the placement of the employee's row. *)
Definition tracked (db : Db) (e : Id) (n : nat) : Prop :=
  exists closed last cur,
    history db e = closed ++ [last]
    /\ existsb (open_of e) closed = false
    /\ open_of e last = true
    /\ List.length closed = n
    /\ chain (closed ++ [last])
    /\ find_employee db e = Some cur
    /\ nouveau last = placement cur.

(** The leave requests of the table have their dates in order. *)
Definition leaves_ordered (db : Db) : Prop :=
  forall r, In r (leave_requests db) -> (l_date_debut r <= l_date_fin r)%Z.

(** The range of a submission and the range of a request share a day. *)
Definition overlaps (value : LeaveBody.t) (r : LeaveRequest) : Prop :=
  (LeaveBody.date_debut value <= l_date_fin r)%Z
  /\ (l_date_debut r <= LeaveBody.date_fin value)%Z.

(** A request of the same employee that blocks a submission. *)
Definition blocking (value : LeaveBody.t) (r : LeaveRequest) : Prop :=
  l_employee_id r = LeaveBody.employee_id value
  /\ In (l_statut_actuel r) Leaves.statuts_bloquants.

(** What the schema says about the fields that the history reads. *)
Record schema_facts (b : UpdateBody.t) : Prop := {
  ok_site : Employee.opt Employee.joi_id (UpdateBody.site_id b) = true;
  ok_department : Employee.opt Employee.joi_id (UpdateBody.department_id b) = true;
  ok_service : Employee.opt Employee.joi_id (UpdateBody.service_id b) = true;
  ok_team : Employee.opt Employee.joi_id (UpdateBody.team_id b) = true;
  ok_position : Employee.opt (Employee.joi_string (Some 255%nat)) (UpdateBody.position b) = true;
  ok_fonction : Employee.opt (Employee.joi_string (Some 255%nat)) (UpdateBody.fonction b) = true;
  ok_motif :
    Employee.opt (Employee.joi_string (Some 255%nat)) (UpdateBody.motif_changement b) = true
}.

(** The SET clauses applied to one row. *)
Definition apply_clauses (clauses : list Employee.Assignment) (r : Employee) : Employee :=
  fold_left (fun r a => Employee.assign a r) clauses r.

Definition clauses_of (b : UpdateBody.t) : list Employee.Assignment :=
  match Employee.buildUpdateQuery b with Some clauses => clauses | None => [] end.

(** The comment stored with a new record:
    [fieldsToUpdate.commentaire_changement || null]. *)
Definition commentaire_of (b : UpdateBody.t) : option string :=
  match UpdateBody.commentaire_changement b with
  | Some (Some c) => if String.eqb c EmptyString then None else Some c
  | _ => None
  end.

(** The record that a placement change appends to the history. *)
Definition nouvelle_affectation (today : Date) (user e : Id)
    (b : UpdateBody.t) (m : string) (cur : Placement) : Affectation :=
  mkAffectation e today None m (commentaire_of b) user (Some cur)
    (updated_placement b cur).

(** The employee [e] has a row in the table. *)
Definition known (db : Db) (e : Id) : Prop := In e (map id (employees db)).

(** ** Sample data *)

Module Demo.

(** One site, department and service, two teams, nobody hired yet. *)
Definition db0 : Db := mkDb [1%Z] [1%Z] [1%Z] [1%Z; 2%Z] [] [] [] [] [].

Definition embauche : CreateBody.t :=
  CreateBody.mk "SG-001" "Diop" "Awa" 1 1 1 1 "Agent de piste" "Exploitation"
    (Some 12%Z) true.

Definition rien : UpdateBody.t :=
  UpdateBody.mk None None None None None None None None None None None None
    None false.

(** A promotion with its reason and a note. *)
Definition promotion : UpdateBody.t :=
  UpdateBody.mk None None None None None None None (Some "Chef de piste"%string)
    None None (Some "Promotion"%string) (Some (Some "Note RH"%string)) None
    false.

(** The same promotion without its reason. *)
Definition promotion_sans_motif : UpdateBody.t :=
  UpdateBody.mk None None None None None None None (Some "Chef de piste"%string)
    None None None None None false.

(** A transfer to the second team. *)
Definition mutation : UpdateBody.t :=
  UpdateBody.mk None None None None None None (Some 2%Z) None None None
    (Some "Mutation"%string) None None false.

(** The tables after the hiring of day 100 by user 7. *)
Definition db1 : Db := snd (Employee.post 100 7 embauche db0).

(** The tables after the promotion of day 130. *)
Definition db2 : Db := snd (Employee.put 130 7 1 promotion db1).

(** An employee on leave from day 300 to day 310, with an active CDI. *)
Definition db_conge : Db :=
  mkDb [1%Z] [1%Z] [1%Z] [1%Z]
    [mkEmployee 1 "SG-001" "Diop" "Awa"
       (mkPlacement 1 1 1 1 "Agent de piste" "Exploitation")
       "Congé" None None]
    [mkAffectation 1 100 None "Embauche initiale" None 7 None
       (mkPlacement 1 1 1 1 "Agent de piste" "Exploitation")]
    [mkContract 1 1 "CDI" 100 None 4 (250000 # 1) false None "Actif"]
    [mkLeaveRequest 1 1 "Annuel" 300 310 (11 # 1) None "Approuvé"]
    [mkLeaveValidation 1 1 "Soumission Employé" "En attente"
       "Demande soumise par l'employé."].

(** The same tables with the employee back at work. *)
Definition db_actif : Db :=
  mkDb [1%Z] [1%Z] [1%Z] [1%Z]
    [mkEmployee 1 "SG-001" "Diop" "Awa"
       (mkPlacement 1 1 1 1 "Agent de piste" "Exploitation")
       "Actif" None None]
    (employee_affectations db_conge) (contracts db_conge)
    (leave_requests db_conge) (leave_validations db_conge).

(** A second main contract for employee 1. *)
Definition contrat : ContractBody.t :=
  ContractBody.mk 1 "CDD" 400 (Some 500%Z) 5 (300000 # 1) false None.

(** An amendment of contract 1. *)
Definition avenant : ContractBody.t :=
  ContractBody.mk 1 "CDI" 400 None 5 (300000 # 1) true (Some (Some 1%Z)).

(** A leave from day 305 to day 320, inside which day 310 falls. *)
Definition conge : LeaveBody.t :=
  LeaveBody.mk 1 "Annuel" 305 320 (16 # 1) None.

(** A leave from day 311 to day 320. *)
Definition conge_apres : LeaveBody.t :=
  LeaveBody.mk 1 "Annuel" 311 320 (10 # 1) None.

End Demo.

(** ** Further notions *)

From Stdlib Require Import Sorted.

(** The number of quarters of a duration: the minutes over 15, rounded
    up. *)
Definition quarters (entree sortie : Z) : Z := (- ((entree - sortie) / 15))%Z.

(** What identifies an affectation record and what it records: employee,
    start date and the two snapshots. *)
Definition record_of (a : Affectation)
    : Id * Date * option Placement * Placement :=
  (employee_id a, date_debut a, ancien a, nouveau a).

(** [changes_on e db days db']: placement changes of employee [e] made on
    the days [days], in that order, lead from [db] to [db']. *)
Inductive changes_on (e : Id) (db : Db) : list Date -> Db -> Prop :=
| changes_on_nil : changes_on e db [] db
| changes_on_snoc days db1 today user b :
    changes_on e db days db1 ->
    placement_change db1 e b ->
    changes_on e db (days ++ [today]) (snd (Employee.put today user e b db1)).

(** At most one active non-amendment contract per employee. *)
Definition exclusive (db : Db) : Prop :=
  forall e, (List.length (HR.activeContracts db e) <= 1)%nat.

(** The tables after a list of contract creation requests. *)
Definition serve_contracts (db : Db) (values : list ContractBody.t) : Db :=
  fold_left (fun d value => snd (HR.post_contracts value d)) values db.

(** Two leave requests that may stand together: they are not both
    blocking requests of one employee with ranges that share a day. *)
Definition compatible (r1 r2 : LeaveRequest) : Prop :=
  l_employee_id r1 = l_employee_id r2 ->
  In (l_statut_actuel r1) Leaves.statuts_bloquants ->
  In (l_statut_actuel r2) Leaves.statuts_bloquants ->
  ~ ((l_date_debut r1 <= l_date_fin r2)%Z
     /\ (l_date_debut r2 <= l_date_fin r1)%Z).

Definition leaves_disjoint (db : Db) : Prop :=
  ForallOrdPairs compatible (leave_requests db).

(** Every leave request has its validation step, in the same order. *)
Definition validations_match (db : Db) : Prop :=
  map v_request_id (leave_validations db) = map l_id (leave_requests db).

(** ** timeRoutes.js: holidays and daily attendance *)

Module FerieBody.

(** The body of POST /api/time/feries; [None] is an absent key, which the
    schema replaces by its default. *)
Record t : Type := mk {
  nom : string;
  date_feriee : Z;
  type : option string;
  recurrent : option bool;
  majoration_pourcentage : option Q;
  actif : option bool
}.

End FerieBody.

Module CheckinBody.

(** The body of POST /api/time/checkin. *)
Record t : Type := mk {
  employee_id : Z;
  heure_entree : string;
  date_pointage : option Z;
  source : option string
}.

End CheckinBody.

Module Attendance.

Import JS Store Time.

(** Table [jours_feries]. *)
Record JourFerie : Type := mkJourFerie {
  f_id : Id;
  f_nom : string;
  f_date_feriee : Date;
  f_type : string;
  f_recurrent : bool;
  f_majoration_pourcentage : Q;
  f_actif : bool
}.

(** The columns that the checkout writes together. *)
Record Sortie : Type := mkSortie {
  p_heure_sortie : string;
  p_heures_normales : Q;
  p_heures_sup_15 : Q;
  p_heures_sup_40 : Q;
  p_heures_sup_hors_majoration : Q;
  p_majoration_pourcentage : Q;
  p_panier_repas_du : bool
}.

(** Table [attendances].  Modelled from the spec: the SQL schema is not
    among the sources; the check-in sets the entry time only, so
    [heure_sortie] is NULL until the checkout ([a_sortie = None]), which
    is what the checkout query looks for. *)
Record Pointage : Type := mkPointage {
  a_id : Id;
  a_employee_id : Id;
  a_date_pointage : Date;
  a_heure_entree : string;
  a_source : string;
  a_sortie : option Sortie
}.

Record Tables : Type := mkTables {
  jours_feries : list JourFerie;
  attendances : list Pointage
}.

(** Replies that carry an inserted identifier. *)
Definition Created : Type := (nat * option Id)%type.

Definition types_ferie : list string :=
  ["Fixe"; "Variable"; "Religieux"; "SOGAS"]%string.

Definition ferieSchema (b : FerieBody.t) : bool :=
  Employee.joi_string None (FerieBody.nom b)
  && Employee.opt (fun s => Employee.mem_string s types_ferie)
       (FerieBody.type b)
  && Employee.opt (fun m => Qle_bool 0 m && Qle_bool m 100)
       (FerieBody.majoration_pourcentage b).

(** POST /api/time/feries. *)
Definition post_feries (body : FerieBody.t) (t : Tables) : Created * Tables :=
  if negb (ferieSchema body) then ((400%nat, None), t)
  else if existsb (fun f => (f_date_feriee f =? FerieBody.date_feriee body)%Z)
            (jours_feries t)
  then ((409%nat, None), t)
  else
    let ferieId := insertId f_id (jours_feries t) in
    ((201%nat, Some ferieId),
     mkTables
       (jours_feries t
        ++ [mkJourFerie ferieId (FerieBody.nom body)
              (FerieBody.date_feriee body)
              (supplied (FerieBody.type body) "Fixe"%string)
              (supplied (FerieBody.recurrent body) false)
              (supplied (FerieBody.majoration_pourcentage body) 60)
              (supplied (FerieBody.actif body) true)])
       (attendances t)).

Definition checkinSchema (b : CheckinBody.t) : bool :=
  Employee.joi_id (CheckinBody.employee_id b)
  && is_HHMM (CheckinBody.heure_entree b)
  && Employee.opt (Employee.joi_string (Some 50%nat)) (CheckinBody.source b).

(** POST /api/time/checkin.  [date_schema] is the default of
    [date_pointage]: the schema is built once, when the module is loaded,
    and [new Date().toISOString().split('T')[0]] is evaluated then. *)
Definition post_checkin (date_schema : Date) (body : CheckinBody.t)
    (db : Db) (t : Tables) : Created * Tables :=
  if negb (checkinSchema body) then ((400%nat, None), t)
  else
    let date_pointage := supplied (CheckinBody.date_pointage body) date_schema in
    let source := supplied (CheckinBody.source body) "Manuel"%string in
    if negb (HR.employe_actif db (CheckinBody.employee_id body))
    then ((404%nat, None), t)
    else if existsb
              (fun a => (a_employee_id a =? CheckinBody.employee_id body)%Z
                        && (a_date_pointage a =? date_pointage)%Z)
              (attendances t)
    then ((409%nat, None), t)
    else
      let attendanceId := insertId a_id (attendances t) in
      ((201%nat, Some attendanceId),
       mkTables (jours_feries t)
         (attendances t
          ++ [mkPointage attendanceId (CheckinBody.employee_id body)
                date_pointage (CheckinBody.heure_entree body) source None])).

(** The open attendance rows of an employee for a day. *)
Definition en_cours (e : Id) (d : Date) (a : Pointage) : bool :=
  (a_employee_id a =? e)%Z && (a_date_pointage a =? d)%Z
  && match a_sortie a with None => true | Some _ => false end.

(** [SELECT majoration_pourcentage FROM jours_feries WHERE date_feriee = ?
    AND actif = TRUE]. *)
Definition ferieRows (t : Tables) (d : Date) : list JourFerie :=
  filter (fun f => (f_date_feriee f =? d)%Z && f_actif f) (jours_feries t).

Definition isHoliday (t : Tables) (d : Date) : bool :=
  negb (List.length (ferieRows t d) =? 0)%nat.

Definition majorationFeriee (t : Tables) (d : Date) : Q :=
  match ferieRows t d with
  | f :: _ => f_majoration_pourcentage f
  | [] => 0
  end.

Definition stored (heure_sortie : string) (h : HoursResult) : Sortie :=
  mkSortie heure_sortie (heures_normales h) (heures_sup_15 h)
    (heures_sup_40 h) (heures_supplementaires h) (majoration_pourcentage h)
    (panierRepas h).

Definition set_sortie (s : Sortie) (a : Pointage) : Pointage :=
  mkPointage (a_id a) (a_employee_id a) (a_date_pointage a) (a_heure_entree a)
    (a_source a) (Some s).

(** PUT /api/time/checkout/:employeeId.  [dateToday] and [dayOfWeek] are
    read from the clock ([toISOString] and [getDay]); the body is
    [heure_sortie], [None] when the key is absent.  When [calculateHours]
    yields NaN the UPDATE is refused by the store and the [catch] answers
    500. *)
Definition put_checkout (dateToday : Date) (dayOfWeek : Z) (employeeId : Id)
    (body : option string) (t : Tables)
    : (nat * option HoursResult) * Tables :=
  match body with
  | None => ((400%nat, None), t)
  | Some heure_sortie =>
      if negb (is_HHMM heure_sortie) then ((400%nat, None), t)
      else
        match filter (en_cours employeeId dateToday) (attendances t) with
        | [] => ((404%nat, None), t)
        | attendance :: _ =>
            let isSunday := (dayOfWeek =? 0)%Z in
            match calculateHours (a_heure_entree attendance) heure_sortie
                    (isHoliday t dateToday) isSunday
                    (majorationFeriee t dateToday) with
            | None => ((500%nat, None), t)
            | Some calculatedHours =>
                ((200%nat, Some calculatedHours),
                 mkTables (jours_feries t)
                   (update_where (fun a => (a_id a =? a_id attendance)%Z)
                      (set_sortie (stored heure_sortie calculatedHours))
                      (attendances t)))
            end
        end
  end.

(** At most one attendance row per employee and day. *)
Definition one_per_day (t : Tables) : Prop :=
  NoDup (map (fun a => (a_employee_id a, a_date_pointage a)) (attendances t)).

(** Attendance identifiers are distinct. *)
Definition distinct_ids (t : Tables) : Prop :=
  NoDup (map a_id (attendances t)).

(** At most one holiday per date. *)
Definition one_per_date (t : Tables) : Prop :=
  NoDup (map f_date_feriee (jours_feries t)).

End Attendance.

(** The status of a checkout that is refused: 400, 404 or 500. *)
Definition status_of_checkout_is_error (s : nat) : Prop :=
  s = 400%nat \/ s = 404%nat \/ s = 500%nat.

(** The key of an attendance row: employee and day. *)
Definition cle (a : Attendance.Pointage) : Id * Date :=
  (Attendance.a_employee_id a, Attendance.a_date_pointage a).

(** ** Sample attendance data *)

Module DemoTemps.

Import Attendance.

(** No holiday, nobody checked in. *)
Definition t0 : Tables := mkTables [] [].

(** Employee 1 checks in at 08:00 on day 500. *)
Definition pointage : CheckinBody.t :=
  CheckinBody.mk 1 "08:00" (Some 500%Z) None.

(** The same check-in without its date. *)
Definition pointage_sans_date : CheckinBody.t :=
  CheckinBody.mk 1 "08:00" None None.

(** The tables after the check-in, the schema dating from day 499. *)
Definition t1 : Tables := snd (post_checkin 499 pointage Demo.db_actif t0).

(** The tables after a checkout at 17:30, a Wednesday. *)
Definition t2 : Tables := snd (put_checkout 500 3 1 (Some "17:30"%string) t1).

End DemoTemps.

(** ** siteRoutes.js: the organisational structure *)

Module SiteBody.

Record t : Type := mk {
  nom : string;
  code_site : string;
  adresse : option string
}.

End SiteBody.

Module DepartmentBody.

Record t : Type := mk {
  nom : string;
  code_interne : string;
  site_id : Z;
  budget_alloue : option Q;
  objectifs : option string
}.

End DepartmentBody.

Module ServiceBody.

Record t : Type := mk {
  nom : string;
  code_metier : string;
  department_id : Z
}.

End ServiceBody.

Module TeamBody.

Record t : Type := mk {
  nom : string;
  specialite : option string;
  service_id : Z
}.

End TeamBody.

Module Structure.

Import JS Store.

(** Tables [sites], [departments], [services] and [teams], with the
    columns that the four creation routes write. *)
Record Site : Type := mkSite {
  s_id : Id;
  s_nom : string;
  s_code_site : string;
  s_adresse : option string
}.

Record Department : Type := mkDepartment {
  d_id : Id;
  d_nom : string;
  d_code_interne : string;
  d_site_id : Id;
  d_budget_alloue : Q;
  d_objectifs : option string
}.

Record Service : Type := mkService {
  v_id : Id;
  v_nom : string;
  v_code_metier : string;
  v_department_id : Id
}.

Record Team : Type := mkTeam {
  t_id : Id;
  t_nom : string;
  t_specialite : option string;
  t_service_id : Id
}.

Record Tables : Type := mkTables {
  sites : list Site;
  departments : list Department;
  services : list Service;
  teams : list Team
}.

Definition empty : Tables := mkTables [] [] [] [].

(** [o || null] for an optional string. *)
Definition or_null (o : option string) : option string :=
  match o with
  | Some v => if String.eqb v EmptyString then None else Some v
  | None => None
  end.

(** [o || 0] for an optional number. *)
Definition or_zero (o : option Q) : Q :=
  match o with Some v => v | None => 0 end.

Definition siteSchema (b : SiteBody.t) : bool :=
  Employee.joi_string None (SiteBody.nom b)
  && Employee.joi_string (Some 50%nat) (SiteBody.code_site b).

Definition departmentSchema (b : DepartmentBody.t) : bool :=
  Employee.joi_string None (DepartmentBody.nom b)
  && Employee.joi_string (Some 50%nat) (DepartmentBody.code_interne b)
  && Employee.joi_id (DepartmentBody.site_id b).

Definition serviceSchema (b : ServiceBody.t) : bool :=
  Employee.joi_string None (ServiceBody.nom b)
  && Employee.joi_string (Some 50%nat) (ServiceBody.code_metier b)
  && Employee.joi_id (ServiceBody.department_id b).

Definition teamSchema (b : TeamBody.t) : bool :=
  Employee.joi_string None (TeamBody.nom b)
  && Employee.joi_id (TeamBody.service_id b).

Definition Created : Type := (nat * option Id)%type.

(** POST /api/structure/sites. *)
Definition post_sites (value : SiteBody.t) (t : Tables) : Created * Tables :=
  if negb (siteSchema value) then ((400%nat, None), t)
  else if existsb (fun s => String.eqb (s_code_site s) (SiteBody.code_site value))
            (sites t)
  then ((409%nat, None), t)
  else
    let siteId := insertId s_id (sites t) in
    ((201%nat, Some siteId),
     mkTables
       (sites t ++ [mkSite siteId (SiteBody.nom value)
                      (SiteBody.code_site value) (SiteBody.adresse value)])
       (departments t) (services t) (teams t)).

(** POST /api/structure/departments. *)
Definition post_departments (value : DepartmentBody.t) (t : Tables)
    : Created * Tables :=
  if negb (departmentSchema value) then ((400%nat, None), t)
  else if (List.length
             (filter (fun s => (s_id s =? DepartmentBody.site_id value)%Z)
                (sites t)) =? 0)%nat
  then ((404%nat, None), t)
  else if existsb (fun d => String.eqb (d_code_interne d)
                              (DepartmentBody.code_interne value))
            (departments t)
  then ((409%nat, None), t)
  else
    let departmentId := insertId d_id (departments t) in
    ((201%nat, Some departmentId),
     mkTables (sites t)
       (departments t
        ++ [mkDepartment departmentId (DepartmentBody.nom value)
              (DepartmentBody.code_interne value)
              (DepartmentBody.site_id value)
              (or_zero (DepartmentBody.budget_alloue value))
              (or_null (DepartmentBody.objectifs value))])
       (services t) (teams t)).

(** POST /api/structure/services. *)
Definition post_services (value : ServiceBody.t) (t : Tables)
    : Created * Tables :=
  if negb (serviceSchema value) then ((400%nat, None), t)
  else if (List.length
             (filter (fun d => (d_id d =? ServiceBody.department_id value)%Z)
                (departments t)) =? 0)%nat
  then ((404%nat, None), t)
  else if existsb (fun v => String.eqb (v_code_metier v)
                              (ServiceBody.code_metier value))
            (services t)
  then ((409%nat, None), t)
  else
    let serviceId := insertId v_id (services t) in
    ((201%nat, Some serviceId),
     mkTables (sites t) (departments t)
       (services t
        ++ [mkService serviceId (ServiceBody.nom value)
              (ServiceBody.code_metier value)
              (ServiceBody.department_id value)])
       (teams t)).

(** POST /api/structure/teams. *)
Definition post_teams (value : TeamBody.t) (t : Tables) : Created * Tables :=
  if negb (teamSchema value) then ((400%nat, None), t)
  else if (List.length
             (filter (fun v => (v_id v =? TeamBody.service_id value)%Z)
                (services t)) =? 0)%nat
  then ((404%nat, None), t)
  else
    let teamId := insertId t_id (teams t) in
    ((201%nat, Some teamId),
     mkTables (sites t) (departments t) (services t)
       (teams t
        ++ [mkTeam teamId (TeamBody.nom value)
              (or_null (TeamBody.specialite value))
              (TeamBody.service_id value)])).

Inductive Request : Type :=
| NewSite (value : SiteBody.t)
| NewDepartment (value : DepartmentBody.t)
| NewService (value : ServiceBody.t)
| NewTeam (value : TeamBody.t).

Definition handle (r : Request) (t : Tables) : Created * Tables :=
  match r with
  | NewSite value => post_sites value t
  | NewDepartment value => post_departments value t
  | NewService value => post_services value t
  | NewTeam value => post_teams value t
  end.

(** The tables after a list of requests, served one after the other. *)
Definition serve (t : Tables) (rs : list Request) : Tables :=
  fold_left (fun t r => snd (handle r t)) rs t.

(** Every department has its site, every service its department and
    every team its service. *)
Definition rooted (t : Tables) : Prop :=
  (forall d, In d (departments t) -> In (d_site_id d) (map s_id (sites t)))
  /\ (forall v, In v (services t) ->
                In (v_department_id v) (map d_id (departments t)))
  /\ (forall m, In m (teams t) -> In (t_service_id m) (map v_id (services t))).

(** Codes and identifiers are distinct in each table that has them. *)
Definition distinct (t : Tables) : Prop :=
  NoDup (map s_code_site (sites t))
  /\ NoDup (map d_code_interne (departments t))
  /\ NoDup (map v_code_metier (services t))
  /\ NoDup (map s_id (sites t))
  /\ NoDup (map d_id (departments t))
  /\ NoDup (map v_id (services t))
  /\ NoDup (map t_id (teams t)).

End Structure.

(** A team with the service, the department and the site above it. *)
Definition line_of (t : Structure.Tables) (m : Structure.Team) : Prop :=
  exists v d s,
    In v (Structure.services t) /\ In d (Structure.departments t)
    /\ In s (Structure.sites t)
    /\ Structure.t_service_id m = Structure.v_id v
    /\ Structure.v_department_id v = Structure.d_id d
    /\ Structure.d_site_id d = Structure.s_id s.

(** The second table holds the rows of the first, in place, and maybe
    more rows after them. *)
Definition extends (t t' : Structure.Tables) : Prop :=
  (exists l, Structure.sites t' = Structure.sites t ++ l)
  /\ (exists l, Structure.departments t' = Structure.departments t ++ l)
  /\ (exists l, Structure.services t' = Structure.services t ++ l)
  /\ (exists l, Structure.teams t' = Structure.teams t ++ l).

Module DemoStructure.

Definition siege : SiteBody.t := SiteBody.mk "Siege"%string "DKR"%string None.

Definition finances : DepartmentBody.t :=
  DepartmentBody.mk "Finances"%string "FIN"%string 1%Z None
    (Some EmptyString).

Definition paie : ServiceBody.t := ServiceBody.mk "Paie"%string "PAI"%string 1%Z.

Definition equipe : TeamBody.t := TeamBody.mk "Equipe A"%string None 1%Z.

Definition requests : list Structure.Request :=
  [Structure.NewSite siege; Structure.NewDepartment finances;
   Structure.NewService paie; Structure.NewTeam equipe;
   Structure.NewSite siege].

Definition t4 : Structure.Tables := Structure.serve Structure.empty requests.

End DemoStructure.

(** ** hrRoutes.js: disciplinary sanctions *)

Module SanctionBody.

(** The body of POST /api/hr/sanctions after [Joi] has read it;
    [jours_mise_a_pied] is [None] when the request does not give it.
    [motif_detaille], [procedure_suivie] and [document_url] are copied to
    columns that are not modelled; [autres_valides] says that they pass
    their rules. *)
Record t : Type := mk {
  employee_id : Z;
  type_sanction : string;
  date_constatation : Z;
  date_effet : Z;
  jours_mise_a_pied : option Z;
  autres_valides : bool
}.

End SanctionBody.

Module Sanctions.

Import JS Store.

Record Sanction : Type := mkSanction {
  n_id : Id;
  n_employee_id : Id;
  n_type_sanction : string;
  n_date_constatation : Date;
  n_date_effet : Date;
  n_jours_mise_a_pied : Z;
  n_created_by_user_id : Id
}.

(** Table [sanctions], and the column [employees.date_fin_contrat], kept
    beside the table of employees as the list of the dates written, with
    the identifier of the employee, the latest first. *)
Record Tables : Type := mkTables {
  sanctions : list Sanction;
  date_fin_contrat : list (Id * Date)
}.

Definition types_sanction : list string :=
  ["Avertissement oral"; "Avertissement écrit"; "Blâme"; "Mise à pied";
   "Rétrogradation"; "Licenciement"]%string.

Definition sanctionSchema (b : SanctionBody.t) : bool :=
  Employee.joi_id (SanctionBody.employee_id b)
  && Employee.mem_string (SanctionBody.type_sanction b) types_sanction
  && (SanctionBody.date_constatation b <=? SanctionBody.date_effet b)%Z
  && match SanctionBody.jours_mise_a_pied b with
     | Some j =>
         if String.eqb (SanctionBody.type_sanction b) "Mise à pied"
         then (1 <=? j)%Z && (j <=? 30)%Z
         else (0 <=? j)%Z && (j <=? 30)%Z
     | None => negb (String.eqb (SanctionBody.type_sanction b) "Mise à pied")
     end
  && SanctionBody.autres_valides b.

Definition Created : Type := (nat * option Id)%type.

(** POST /api/hr/sanctions, for the user [user] of the token. *)
Definition post_sanctions (user : Id) (value : SanctionBody.t) (db : Db)
    (t : Tables) : Created * (Db * Tables) :=
  if negb (sanctionSchema value) then ((400%nat, None), (db, t))
  else if (List.length
             (filter (fun r => (id r =? SanctionBody.employee_id value)%Z)
                (employees db)) =? 0)%nat
  then ((404%nat, None), (db, t))
  else
    let sanctionId := insertId n_id (sanctions t) in
    let row := mkSanction sanctionId (SanctionBody.employee_id value)
                 (SanctionBody.type_sanction value)
                 (SanctionBody.date_constatation value)
                 (SanctionBody.date_effet value)
                 (supplied (SanctionBody.jours_mise_a_pied value) 0%Z)
                 user in
    if String.eqb (SanctionBody.type_sanction value) "Licenciement"
    then
      ((201%nat, Some sanctionId),
       (mkDb (sites db) (departments db) (services db) (teams db)
          (update_where
             (fun r => (id r =? SanctionBody.employee_id value)%Z)
             (Employee.assign (Employee.SetStatut "Licencié"))
             (employees db))
          (employee_affectations db) (contracts db) (leave_requests db)
          (leave_validations db),
        mkTables (sanctions t ++ [row])
          ((SanctionBody.employee_id value, SanctionBody.date_effet value)
           :: date_fin_contrat t)))
    else
      ((201%nat, Some sanctionId),
       (db, mkTables (sanctions t ++ [row]) (date_fin_contrat t))).

(** The value of [date_fin_contrat] in the row of an employee. *)
Definition date_fin_contrat_of (t : Tables) (e : Id) : option Date :=
  option_map snd (find (fun p => (fst p =? e)%Z) (date_fin_contrat t)).

End Sanctions.

(** ** authMiddleware.js *)

Module Auth.

Import JS.

(** What the middleware does with a request: it answers with a status,
    or hands the request on with [req.user] set. *)
Inductive Outcome (Claims : Type) : Type :=
| Refused (status : nat)
| Next (user : Claims).

Arguments Refused {Claims} status.
Arguments Next {Claims} user.

(** [authHeader && authHeader.split(' ')[1]]: [None] is [undefined]. *)
Definition token_of (authHeader : option string) : option string :=
  match authHeader with
  | None => None
  | Some h =>
      if String.eqb h EmptyString then Some h
      else nth_error (split " " h) 1
  end.

(** The middleware; [jwt_verify token] is
    [jwt.verify(token, process.env.JWT_SECRET)], [None] when it throws. *)
Definition authMiddleware {Claims : Type}
    (jwt_verify : string -> option Claims) (authHeader : option string)
    : Outcome Claims :=
  match token_of authHeader with
  | None => Refused 401%nat
  | Some token =>
      match jwt_verify token with
      | Some decodedToken => Next decodedToken
      | None => Refused 403%nat
      end
  end.

End Auth.

(** A text without the character [c]. *)
Definition without (c : ascii) (s : string) : Prop :=
  ~ In c (list_ascii_of_string s).

Module DemoSanctions.

Definition licenciement : SanctionBody.t :=
  SanctionBody.mk 1%Z "Licenciement"%string 20240301%Z 20240315%Z None true.

Definition blame : SanctionBody.t :=
  SanctionBody.mk 1%Z "Blâme"%string 20240301%Z 20240301%Z None true.

Definition t0 : Sanctions.Tables := Sanctions.mkTables [] [].

End DemoSanctions.

(** The routes that ask for an active employee answer 404 for [e] and
    write nothing: contracts, leave requests and check-ins. *)
Definition turned_away (db : Store.Db) (e : Store.Id) : Prop :=
  (forall value,
      HR.contractSchema value = true ->
      ContractBody.employee_id value = e ->
      HR.post_contracts value db = ((404%nat, Message), db))
  /\ (forall now user value,
         Leaves.leaveRequestSchema now value = true ->
         LeaveBody.employee_id value = e ->
         Leaves.post_leaves now user value db = ((404%nat, Message), db))
  /\ (forall date_schema body t,
         Attendance.checkinSchema body = true ->
         CheckinBody.employee_id body = e ->
         Attendance.post_checkin date_schema body db t
         = ((404%nat, None), t)).

(** The request is an update of employee [e] whose body supplies a
    [statut]. *)
Definition sets_statut (e : Store.Id) (r : Request) : bool :=
  match r with
  | Update _ _ e' body =>
      (e' =? e)%Z && Employee.present (UpdateBody.statut body)
  | _ => false
  end.

(** The routes that ask for an active employee let [e] through: a valid
    contract, leave request or check-in for [e] is not answered 404. *)
Definition let_through (db : Store.Db) (e : Store.Id) : Prop :=
  (forall value,
      HR.contractSchema value = true ->
      ContractBody.employee_id value = e ->
      status (fst (HR.post_contracts value db)) <> 404%nat)
  /\ (forall now user value,
         Leaves.leaveRequestSchema now value = true ->
         LeaveBody.employee_id value = e ->
         status (fst (Leaves.post_leaves now user value db)) <> 404%nat)
  /\ (forall date_schema body t,
         Attendance.checkinSchema body = true ->
         CheckinBody.employee_id body = e ->
         fst (fst (Attendance.post_checkin date_schema body db t))
         <> 404%nat).

(* ================================================================== *)
(** * Part II.  Properties                                            *)
(* ================================================================== *)

Import JS Time.

#[local] Open Scope string_scope.
#[local] Open Scope list_scope.

(** ** Clock times *)

Section ClockTimes.

Lemma in_range_digit lo hi c :
  in_range lo hi c = true ->
  (48 <= N_of_ascii lo)%N -> (N_of_ascii hi <= 57)%N ->
  is_digit c = true /\
  (Z.of_N (N_of_ascii lo) - 48 <= digit_value c <= Z.of_N (N_of_ascii hi) - 48)%Z.
Proof.
  unfold in_range, is_digit, digit_value. intros H Hlo Hhi.
  apply andb_true_iff in H. destruct H as [H1 H2].
  apply N.leb_le in H1. apply N.leb_le in H2.
  split.
  - apply andb_true_iff. split; apply N.leb_le; lia.
  - lia.
Qed.

Lemma Number_one d :
  is_digit d = true -> Number (String d EmptyString) = Some (digit_value d).
Proof. intros H. unfold Number. simpl. rewrite H. f_equal. Qed.

Lemma Number_two a b :
  is_digit a = true -> is_digit b = true ->
  Number (String a (String b EmptyString))
  = Some (10 * digit_value a + digit_value b)%Z.
Proof. intros Ha Hb. unfold Number. simpl. rewrite Ha, Hb. f_equal. Qed.

Lemma hour_re_Number h :
  hour_re h = true -> exists n, Number h = Some n /\ (0 <= n <= 23)%Z.
Proof.
  destruct h as [|a [|b [|c r]]]; simpl; try discriminate.
  - intros H. apply in_range_digit in H; [|vm_compute; discriminate ..].
    destruct H as [Hd Hv]. simpl in Hv.
    exists (digit_value a). split; [now apply Number_one | lia].
  - intros H. apply orb_true_iff in H.
    destruct H as [H|H]; apply andb_true_iff in H; destruct H as [Ha Hb].
    + apply in_range_digit in Ha; [|vm_compute; discriminate ..].
      apply in_range_digit in Hb; [|vm_compute; discriminate ..].
      destruct Ha as [Ha Hva], Hb as [Hb Hvb]. simpl in Hva, Hvb.
      eexists. split; [now apply Number_two | lia].
    + apply Ascii.eqb_eq in Ha. subst a.
      apply in_range_digit in Hb; [|vm_compute; discriminate ..].
      destruct Hb as [Hb Hvb]. simpl in Hvb.
      eexists. split; [now apply Number_two | ].
      change (digit_value "2") with 2%Z. lia.
Qed.

Lemma minute_re_Number m :
  minute_re m = true -> exists n, Number m = Some n /\ (0 <= n <= 59)%Z.
Proof.
  destruct m as [|a [|b [|c r]]]; simpl; try discriminate.
  intros H. apply andb_true_iff in H. destruct H as [Ha Hb].
  apply in_range_digit in Ha; [|vm_compute; discriminate ..].
  apply in_range_digit in Hb; [|vm_compute; discriminate ..].
  destruct Ha as [Ha Hva], Hb as [Hb Hvb]. simpl in Hva, Hvb.
  eexists. split; [now apply Number_two | lia].
Qed.

(** A time accepted by the schemas has a minute count within the day. *)
Lemma timeToMinutes_HHMM s :
  is_HHMM s = true ->
  exists m, timeToMinutes s = Some m /\ (0 <= m < 1440)%Z.
Proof.
  unfold is_HHMM, timeToMinutes.
  destruct (split ":" s) as [|h [|m [|x l]]]; try discriminate.
  intros H. apply andb_true_iff in H. destruct H as [Hh Hm].
  destruct (hour_re_Number _ Hh) as (nh & Eh & Bh).
  destruct (minute_re_Number _ Hm) as (nm & Em & Bm).
  cbn [map]. rewrite Eh, Em. eexists. split; [reflexivity | lia].
Qed.

End ClockTimes.

(** ** Quarter-hour arithmetic *)

Section Quarters.

Lemma quarter_frac k : quarter k == k # 4.
Proof. unfold quarter, Qdiv, Qmult, Qinv, Qeq. simpl. lia. Qed.

Ltac fractions :=
  rewrite ?quarter_frac;
  unfold Qminus; unfold Qeq, Qle, Qlt, Qplus, Qopp, Qmult, inject_Z;
  cbn [Qnum Qden]; rewrite ?Pos2Z.inj_mul; lia.

Lemma quarter_le a b : (a <= b)%Z -> quarter a <= quarter b.
Proof. intros H. fractions. Qed.

Lemma quarter_le_inv a b : quarter a <= quarter b -> (a <= b)%Z.
Proof. rewrite !quarter_frac. unfold Qle. cbn [Qnum Qden]. lia. Qed.

Lemma quarter_of_Z n : inject_Z n == quarter (4 * n).
Proof. fractions. Qed.

Lemma is_quarter_Z n : is_quarter (inject_Z n).
Proof. exists (4 * n)%Z. apply quarter_of_Z. Qed.

Lemma is_quarter_quarter k : is_quarter (quarter k).
Proof. exists k. reflexivity. Qed.

Lemma is_quarter_ceil x : is_quarter (Math_ceil x / 4).
Proof. exists (Qceiling x). reflexivity. Qed.

Lemma is_quarter_plus x y : is_quarter x -> is_quarter y -> is_quarter (x + y).
Proof. intros [a Ha] [b Hb]. exists (a + b)%Z. rewrite Ha, Hb. fractions. Qed.

Lemma is_quarter_minus x y : is_quarter x -> is_quarter y -> is_quarter (x - y).
Proof. intros [a Ha] [b Hb]. exists (a - b)%Z. rewrite Ha, Hb. fractions. Qed.

Lemma is_quarter_min x y : is_quarter x -> is_quarter y -> is_quarter (Math_min x y).
Proof.
  intros [a Ha] [b Hb]. unfold Math_min.
  destruct (Q.min_dec x y) as [E|E]; [exists a | exists b]; now rewrite E.
Qed.

Lemma is_quarter_max x y : is_quarter x -> is_quarter y -> is_quarter (Math_max x y).
Proof.
  intros [a Ha] [b Hb]. unfold Math_max.
  destruct (Q.max_dec x y) as [E|E]; [exists a | exists b]; now rewrite E.
Qed.

Lemma Qfloor_half n : Qfloor (inject_Z n + (1 # 2)) = n.
Proof.
  unfold Qfloor, Qplus, inject_Z. cbn [Qnum Qden].
  replace (n * 2 + 1 * 1)%Z with (1 + n * 2)%Z by lia.
  change (Z.pos (1 * 2)) with 2%Z.
  rewrite Z.div_add by lia. reflexivity.
Qed.

Lemma toFixed2_hundredths n : toFixed2 (n # 100) == n # 100.
Proof.
  unfold toFixed2.
  destruct (Qle_bool 0 (n # 100)).
  - rewrite (Qfloor_comp ((n # 100) * 100 + (1 # 2)) (inject_Z n + (1 # 2)))
      by fractions.
    rewrite Qfloor_half. unfold Qdiv. change (/ 100) with (1 # 100). fractions.
  - rewrite (Qfloor_comp (- (n # 100) * 100 + (1 # 2))
               (inject_Z (- n) + (1 # 2))) by fractions.
    rewrite Qfloor_half. unfold Qdiv. change (/ 100) with (1 # 100). fractions.
Qed.

#[global] Instance toFixed2_Proper : Proper (Qeq ==> Qeq) toFixed2.
Proof.
  intros x y E. unfold toFixed2.
  assert (Hb : Qle_bool 0 x = Qle_bool 0 y).
  { apply eq_true_iff_eq. rewrite !Qle_bool_iff. now rewrite E. }
  rewrite Hb.
  destruct (Qle_bool 0 y).
  - rewrite (Qfloor_comp (x * 100 + (1 # 2)) (y * 100 + (1 # 2)))
      by now rewrite E.
    reflexivity.
  - rewrite (Qfloor_comp (- x * 100 + (1 # 2)) (- y * 100 + (1 # 2)))
      by now rewrite E.
    reflexivity.
Qed.

(** Rounding to two fractional digits leaves a whole number of quarters
    as it is: 0.25, 0.50 and 0.75 have two digits. *)
Lemma toFixed2_quarter k : toFixed2 (quarter k) == quarter k.
Proof.
  assert (E : quarter k == (25 * k) # 100) by fractions.
  rewrite E. apply toFixed2_hundredths.
Qed.

Lemma toFixed2_exact x : is_quarter x -> toFixed2 x == x.
Proof. intros [k E]. rewrite E. apply toFixed2_quarter. Qed.

Lemma toFixed2_Z n : toFixed2 (inject_Z n) == inject_Z n.
Proof. apply toFixed2_exact, is_quarter_Z. Qed.

End Quarters.

Create HintDb quarters.
#[export] Hint Resolve is_quarter_Z is_quarter_quarter is_quarter_ceil
  is_quarter_plus is_quarter_minus is_quarter_min is_quarter_max : quarters.

(** ** The hours engine *)

Section HoursEngine.

Variables (heure_entree heure_sortie : string) (entree sortie : Z).
Hypothesis Hentree : timeToMinutes heure_entree = Some entree.
Hypothesis Hsortie : timeToMinutes heure_sortie = Some sortie.

Let total : Q := Math_ceil (rawHours entree sortie * 4) / 4.

(** The record returned on an ordinary day. *)
Lemma calculateHours_ordinary mf :
  calculateHours heure_entree heure_sortie false false mf
  = Some {| totalHours := total;
            heures_normales := toFixed2 (Math_min total 8);
            heures_sup_15 := toFixed2 (Math_min (Math_max 0 (total - 8)) 2);
            heures_sup_40 :=
              toFixed2 (Math_max 0 (Math_max 0 (total - 8) - 2));
            heures_supplementaires :=
              toFixed2 (Math_min (Math_max 0 (total - 8)) 2
                        + Math_max 0 (Math_max 0 (total - 8) - 2));
            majoration_pourcentage := 0;
            panierRepas := Qle_bool 10 total |}.
Proof. unfold calculateHours. rewrite Hentree, Hsortie. reflexivity. Qed.

(** The record returned on a Sunday, a holiday or both. *)
Lemma calculateHours_special hol sun mf :
  hol || sun = true ->
  calculateHours heure_entree heure_sortie hol sun mf
  = Some {| totalHours := total;
            heures_normales := toFixed2 0;
            heures_sup_15 := 0;
            heures_sup_40 := 0;
            heures_supplementaires := toFixed2 total;
            majoration_pourcentage :=
              toFixed2 (if hol && sun then 100 else if hol then mf else 60);
            panierRepas := Qle_bool 10 total |}.
Proof.
  unfold calculateHours. rewrite Hentree, Hsortie.
  destruct hol, sun; cbn [orb andb]; intros H;
    try discriminate; reflexivity.
Qed.

Lemma calculateHours_total hol sun mf :
  exists r, calculateHours heure_entree heure_sortie hol sun mf = Some r
            /\ totalHours r = total /\ panierRepas r = Qle_bool 10 total.
Proof.
  destruct (hol || sun) eqn:E.
  - rewrite calculateHours_special by exact E. eexists. repeat split.
  - apply orb_false_iff in E. destruct E as [-> ->].
    rewrite calculateHours_ordinary. eexists. repeat split.
Qed.

Lemma total_quarter : is_quarter total.
Proof. unfold total. auto with quarters. Qed.

(** [total] is the least whole number of quarters that is not below the
    raw duration. *)
Lemma total_rounds_up :
  rawHours entree sortie <= total /\ total < rawHours entree sortie + (1 # 4).
Proof.
  unfold total, Math_ceil.
  pose proof (Qle_ceiling (rawHours entree sortie * 4)) as Hle.
  pose proof (Qceiling_lt (rawHours entree sortie * 4)) as Hlt.
  set (c := Qceiling (rawHours entree sortie * 4)) in *.
  set (x := rawHours entree sortie) in *.
  split.
  - apply Qle_shift_div_l; [reflexivity | exact Hle].
  - apply Qlt_shift_div_r; [reflexivity | ].
    assert (E : inject_Z c == inject_Z (c - 1) + 1).
    { unfold Qeq, Qplus, inject_Z. cbn [Qnum Qden]. lia. }
    rewrite E.
    assert (E2 : (x + (1 # 4)) * 4 == x * 4 + 1) by ring.
    rewrite E2. apply Qplus_lt_l. exact Hlt.
Qed.

Lemma total_nonpositive : (sortie <= entree)%Z -> total <= 0.
Proof.
  intros H. unfold total, Math_ceil.
  assert (Hraw : rawHours entree sortie * 4 <= 0).
  { unfold rawHours, Qdiv, Qmult, Qinv, Qle, inject_Z. simpl. lia. }
  apply Qceiling_resp_le in Hraw. change (Qceiling 0) with 0%Z in Hraw.
  apply Qle_shift_div_r; [reflexivity | ].
  rewrite Qmult_0_l. change 0 with (inject_Z 0).
  rewrite <- Zle_Qle. exact Hraw.
Qed.

End HoursEngine.

(** C1.  On an ordinary day (neither holiday nor Sunday), for HH:MM times
    with the exit later than the entry, [calculateHours] returns
    heures_normales = min(totalHoursRounded, 8), heures_sup_15 =
    min(overtime, 2), heures_sup_40 = max(0, overtime - 2) with overtime =
    max(0, totalHoursRounded - 8), heures_supplementaires = heures_sup_15 +
    heures_sup_40 and majoration_pourcentage = 0; from 08:00 to 17:00 it
    returns 8.00 normal hours, 1.00 hour in the first tier and none in the
    second. *)
Theorem calculateHours_ordinary_day :
  (forall heure_entree heure_sortie entree sortie mf,
     is_HHMM heure_entree = true -> is_HHMM heure_sortie = true ->
     timeToMinutes heure_entree = Some entree ->
     timeToMinutes heure_sortie = Some sortie ->
     (entree < sortie)%Z ->
     exists r,
       calculateHours heure_entree heure_sortie false false mf = Some r /\
       let totalHoursRounded := Math_ceil (rawHours entree sortie * 4) / 4 in
       let overtime := Qmax 0 (totalHoursRounded - 8) in
       totalHours r == totalHoursRounded /\
       heures_normales r == Qmin totalHoursRounded 8 /\
       heures_sup_15 r == Qmin overtime 2 /\
       heures_sup_40 r == Qmax 0 (overtime - 2) /\
       heures_supplementaires r == heures_sup_15 r + heures_sup_40 r /\
       majoration_pourcentage r == 0)
  /\ (exists r,
        calculateHours "08:00" "17:00" false false 60 = Some r /\
        heures_normales r == 8 /\ heures_sup_15 r == 1 /\
        heures_sup_40 r == 0).
Proof.
  split.
  - intros he hs e s mf _ _ He Hs _.
    rewrite (calculateHours_ordinary _ _ _ _ He Hs).
    eexists. split; [reflexivity | ].
    cbn [totalHours heures_normales heures_sup_15 heures_sup_40
         heures_supplementaires majoration_pourcentage].
    set (total := Math_ceil (rawHours e s * 4) / 4).
    assert (Ht : is_quarter total) by (unfold total; auto with quarters).
    assert (H8 : is_quarter 8) by apply (is_quarter_Z 8).
    assert (H2 : is_quarter 2) by apply (is_quarter_Z 2).
    assert (H0 : is_quarter 0) by apply (is_quarter_Z 0).
    rewrite !toFixed2_exact by auto 10 with quarters.
    repeat split; reflexivity.
  - eexists. split; [vm_compute; reflexivity | ].
    repeat split; reflexivity.
Qed.

Lemma calculateHours_ordinary_day_witness :
  exists r,
    calculateHours "08:00" "18:45" false false 60 = Some r /\
    let totalHoursRounded := Math_ceil (rawHours 480 1125 * 4) / 4 in
    let overtime := Qmax 0 (totalHoursRounded - 8) in
    totalHours r == totalHoursRounded /\
    heures_normales r == Qmin totalHoursRounded 8 /\
    heures_sup_15 r == Qmin overtime 2 /\
    heures_sup_40 r == Qmax 0 (overtime - 2) /\
    heures_supplementaires r == heures_sup_15 r + heures_sup_40 r /\
    majoration_pourcentage r == 0.
Proof.
  apply (proj1 calculateHours_ordinary_day "08:00" "18:45" 480%Z 1125%Z 60);
    [reflexivity | reflexivity | reflexivity | reflexivity | lia].
Defined.

(** C2, as the code has it.  On a Sunday, a holiday or both, for HH:MM
    times with the exit later than the entry, the first matching branch
    decides majoration_pourcentage: 100 when the day is both (whatever
    majorationFeriee), else majorationFeriee rounded to two fractional
    digits when it is a holiday (majorationFeriee itself when it has at
    most two), else 60 for a Sunday; heures_normales, heures_sup_15 and
    heures_sup_40 are 0 and heures_supplementaires is the rounded total;
    from 08:00 to 20:15 on a holiday at 60 it returns 12.25 hours at 60. *)
Theorem calculateHours_special_day :
  (forall heure_entree heure_sortie entree sortie hol sun mf,
     is_HHMM heure_entree = true -> is_HHMM heure_sortie = true ->
     timeToMinutes heure_entree = Some entree ->
     timeToMinutes heure_sortie = Some sortie ->
     (entree < sortie)%Z ->
     hol || sun = true ->
     exists r,
       calculateHours heure_entree heure_sortie hol sun mf = Some r /\
       totalHours r == Math_ceil (rawHours entree sortie * 4) / 4 /\
       heures_normales r == 0 /\
       heures_sup_15 r == 0 /\
       heures_sup_40 r == 0 /\
       heures_supplementaires r == totalHours r /\
       majoration_pourcentage r
       == (if hol && sun then 100 else if hol then toFixed2 mf else 60) /\
       (hol = true -> sun = false -> (exists n : Z, mf == n # 100) ->
        majoration_pourcentage r == mf))
  /\ (exists r,
        calculateHours "08:00" "20:15" true false 60 = Some r /\
        heures_normales r == 0 /\ heures_sup_15 r == 0 /\
        heures_sup_40 r == 0 /\ heures_supplementaires r == 12.25 /\
        majoration_pourcentage r == 60).
Proof.
  split.
  - intros he hs e s hol sun mf _ _ He Hs _ Hd.
    rewrite (calculateHours_special _ _ _ _ He Hs _ _ _ Hd).
    eexists. split; [reflexivity | ].
    cbn [totalHours heures_normales heures_sup_15 heures_sup_40
         heures_supplementaires majoration_pourcentage].
    set (total := Math_ceil (rawHours e s * 4) / 4).
    assert (Ht : is_quarter total) by (unfold total; auto with quarters).
    rewrite (toFixed2_exact _ Ht), (toFixed2_Z 0).
    repeat split; try reflexivity.
    + destruct hol, sun; cbn [andb];
        first [reflexivity | apply (toFixed2_Z 100) | apply (toFixed2_Z 60)].
    + intros -> -> [n E]. cbn [andb]. rewrite E. apply toFixed2_hundredths.
  - eexists. split; [vm_compute; reflexivity | ].
    repeat split; reflexivity.
Qed.

Lemma calculateHours_special_day_witness :
  exists r,
    calculateHours "09:00" "19:40" true true 60 = Some r /\
    totalHours r == Math_ceil (rawHours 540 1180 * 4) / 4 /\
    heures_normales r == 0 /\
    heures_sup_15 r == 0 /\
    heures_sup_40 r == 0 /\
    heures_supplementaires r == totalHours r /\
    majoration_pourcentage r == 100 /\
    (true = true -> true = false -> (exists n : Z, 60 == n # 100) ->
     majoration_pourcentage r == 60).
Proof.
  apply (proj1 calculateHours_special_day "09:00" "19:40" 540%Z 1180%Z
           true true 60);
    [reflexivity | reflexivity | reflexivity | reflexivity | lia | reflexivity].
Defined.

(** On a holiday whose surcharge has a third fractional digit the
    reported majoration_pourcentage is not the value passed:
    12.0625 comes back as 12.06. *)
Lemma calculateHours_holiday_majoration_rounded :
  exists r,
    calculateHours "08:00" "17:00" true false (193 # 16) = Some r /\
    majoration_pourcentage r == 12.06 /\
    ~ majoration_pourcentage r == 193 # 16.
Proof.
  eexists. split; [vm_compute; reflexivity | ].
  split; [reflexivity | ].
  intros H. vm_compute in H. discriminate H.
Qed.

(** C9.  For HH:MM times with the exit later than the entry, on every
    branch, totalHours is the raw duration in hours rounded up to the
    nearest quarter, ceil(rawHours * 4) / 4: a whole number of quarters,
    not below rawHours and less than a quarter above it; the meal
    allowance flag is true exactly when totalHours >= 10. *)
Theorem calculateHours_rounding_and_meal :
  forall heure_entree heure_sortie entree sortie hol sun mf,
    is_HHMM heure_entree = true -> is_HHMM heure_sortie = true ->
    timeToMinutes heure_entree = Some entree ->
    timeToMinutes heure_sortie = Some sortie ->
    (entree < sortie)%Z ->
    exists r,
      calculateHours heure_entree heure_sortie hol sun mf = Some r /\
      totalHours r == Math_ceil (rawHours entree sortie * 4) / 4 /\
      is_quarter (totalHours r) /\
      rawHours entree sortie <= totalHours r /\
      totalHours r < rawHours entree sortie + (1 # 4) /\
      (panierRepas r = true <-> 10 <= totalHours r).
Proof.
  intros he hs e s hol sun mf _ _ He Hs _.
  destruct (calculateHours_total _ _ _ _ He Hs hol sun mf) as (r & E & Et & Ep).
  exists r. split; [exact E | ].
  rewrite Et, Ep.
  split; [reflexivity | ].
  split; [apply total_quarter | ].
  split; [apply total_rounds_up | ].
  split; [apply total_rounds_up | ].
  apply Qle_bool_iff.
Qed.

Lemma calculateHours_rounding_and_meal_witness :
  exists r,
    calculateHours "08:00" "17:50" false true 60 = Some r /\
    totalHours r == Math_ceil (rawHours 480 1070 * 4) / 4 /\
    is_quarter (totalHours r) /\
    rawHours 480 1070 <= totalHours r /\
    totalHours r < rawHours 480 1070 + (1 # 4) /\
    (panierRepas r = true <-> 10 <= totalHours r).
Proof.
  apply (calculateHours_rounding_and_meal "08:00" "17:50" 480%Z 1070%Z
           false true 60);
    [reflexivity | reflexivity | reflexivity | reflexivity | lia].
Defined.

(** C10.  When the exit is not later than the entry [calculateHours]
    still returns a record, on every branch, with totalHours <= 0; on an
    ordinary day heures_normales is that nonpositive total, and it is
    negative for an entry at 17:00 and an exit at 08:10. *)
Theorem calculateHours_exit_not_after_entry :
  (forall heure_entree heure_sortie entree sortie hol sun mf,
     is_HHMM heure_entree = true -> is_HHMM heure_sortie = true ->
     timeToMinutes heure_entree = Some entree ->
     timeToMinutes heure_sortie = Some sortie ->
     (sortie <= entree)%Z ->
     exists r,
       calculateHours heure_entree heure_sortie hol sun mf = Some r /\
       totalHours r <= 0 /\
       (hol = false -> sun = false -> heures_normales r == totalHours r))
  /\ (exists r,
        calculateHours "17:00" "08:10" false false 60 = Some r /\
        totalHours r == - 8.75 /\ heures_normales r == - 8.75).
Proof.
  split.
  - intros he hs e s hol sun mf _ _ He Hs Hle.
    pose proof (total_nonpositive e s Hle) as Hneg.
    destruct (hol || sun) eqn:Hd.
    + rewrite (calculateHours_special _ _ _ _ He Hs _ _ _ Hd).
      eexists. split; [reflexivity | ].
      cbn [totalHours heures_normales]. split; [exact Hneg | ].
      intros -> ->. discriminate Hd.
    + apply orb_false_iff in Hd. destruct Hd as [-> ->].
      rewrite (calculateHours_ordinary _ _ _ _ He Hs).
      eexists. split; [reflexivity | ].
      cbn [totalHours heures_normales]. split; [exact Hneg | ].
      intros _ _.
      set (total := Math_ceil (rawHours e s * 4) / 4) in *.
      assert (Ht : is_quarter total) by (unfold total; auto with quarters).
      assert (H8 : is_quarter 8) by apply (is_quarter_Z 8).
      rewrite toFixed2_exact by auto with quarters.
      unfold Math_min. apply Q.min_l.
      apply Qle_trans with 0; [exact Hneg | discriminate].
  - eexists. split; [vm_compute; reflexivity | ].
    split; reflexivity.
Qed.

Lemma calculateHours_exit_not_after_entry_witness :
  exists r,
    calculateHours "12:30" "12:30" false false 60 = Some r /\
    totalHours r <= 0 /\
    (false = false -> false = false -> heures_normales r == totalHours r).
Proof.
  apply (proj1 calculateHours_exit_not_after_entry "12:30" "12:30"
           750%Z 750%Z false false 60);
    [reflexivity | reflexivity | reflexivity | reflexivity | lia].
Defined.

(** ** Tables as lists *)

Section Tables.

Context {A : Type}.

Lemma find_filter (p : A -> bool) l x :
  find p l = Some x -> exists rest, filter p l = x :: rest.
Proof.
  induction l as [|a l IH]; simpl; [discriminate | ].
  destruct (p a) eqn:E.
  - intros [= ->]. eauto.
  - exact IH.
Qed.

Lemma find_none_filter (p : A -> bool) l :
  find p l = None -> filter p l = [].
Proof.
  induction l as [|a l IH]; simpl; [reflexivity | ].
  destruct (p a); [discriminate | exact IH].
Qed.

Lemma find_update_where (p q : A -> bool) (f : A -> A) l :
  (forall r, p (f r) = p r) ->
  find p (update_where q f l)
  = option_map (fun r => if q r then f r else r) (find p l).
Proof.
  intros Hp. unfold update_where.
  induction l as [|a l IH]; simpl; [reflexivity | ].
  assert (E : p (if q a then f a else a) = p a)
    by (destruct (q a); [apply Hp | reflexivity]).
  rewrite E. destruct (p a); [reflexivity | exact IH].
Qed.

Lemma update_where_id (q : A -> bool) (f : A -> A) l :
  (forall r, In r l -> q r = true -> f r = r) -> update_where q f l = l.
Proof.
  intros H. unfold update_where.
  induction l as [|a l IH]; simpl; [reflexivity | ].
  rewrite IH by (intros; apply H; simpl; auto).
  destruct (q a) eqn:E; [rewrite H; simpl; auto | reflexivity].
Qed.

Lemma filter_update_where_none (p q : A -> bool) (f : A -> A) l :
  (forall r, q r = true -> p r = true /\ p (f r) = false) ->
  (forall r, p r = true -> q r = true) ->
  filter p (update_where q f l) = [].
Proof.
  intros H1 H2. unfold update_where.
  induction l as [|a l IH]; simpl; [reflexivity | ].
  destruct (q a) eqn:E.
  - destruct (H1 a E) as [_ ->]. exact IH.
  - destruct (p a) eqn:Ep; [apply H2 in Ep; congruence | exact IH].
Qed.

Lemma filter_update_where_other (p q : A -> bool) (f : A -> A) l :
  (forall r, q r = true -> p r = false /\ p (f r) = false) ->
  filter p (update_where q f l) = filter p l.
Proof.
  intros H. unfold update_where.
  induction l as [|a l IH]; simpl; [reflexivity | ].
  destruct (q a) eqn:E.
  - destruct (H a E) as [-> ->]. exact IH.
  - rewrite IH. reflexivity.
Qed.

Lemma filter_update_first_other (p q : A -> bool) (f : A -> A) l :
  (forall r, q r = true -> p r = false /\ p (f r) = false) ->
  filter p (update_first q f l) = filter p l.
Proof.
  intros H.
  induction l as [|a l IH]; simpl; [reflexivity | ].
  destruct (q a) eqn:E; simpl.
  - destruct (H a E) as [-> ->]. reflexivity.
  - rewrite IH. reflexivity.
Qed.

Lemma filter_update_first_commute (p q : A -> bool) (f : A -> A) l :
  (forall r, q r = true -> p r = true /\ p (f r) = true) ->
  filter p (update_first q f l) = update_first q f (filter p l).
Proof.
  intros H.
  induction l as [|a l IH]; simpl; [reflexivity | ].
  destruct (q a) eqn:E; simpl.
  - destruct (H a E) as [-> ->]. simpl. rewrite E. reflexivity.
  - destruct (p a); simpl; [rewrite E | ]; rewrite IH; reflexivity.
Qed.

Lemma length_filter_update_first (p q : A -> bool) (f : A -> A) l :
  (forall r, q r = true -> p r = true /\ p (f r) = false) ->
  existsb q l = true ->
  S (List.length (filter p (update_first q f l))) = List.length (filter p l).
Proof.
  intros H.
  induction l as [|a l IH]; simpl; [discriminate | ].
  destruct (q a) eqn:E; simpl.
  - intros _. destruct (H a E) as [-> ->]. reflexivity.
  - intros Hex. destruct (p a); simpl; rewrite IH; auto.
Qed.

Lemma update_first_none (q : A -> bool) (f : A -> A) l :
  existsb q l = false -> update_first q f l = l.
Proof.
  induction l as [|a l IH]; simpl; [reflexivity | ].
  destruct (q a); simpl; [discriminate | ].
  intros H. rewrite IH; auto.
Qed.

Lemma update_first_last (q : A -> bool) (f : A -> A) l x :
  existsb q l = false -> q x = true ->
  update_first q f (l ++ [x]) = l ++ [f x].
Proof.
  induction l as [|a l IH]; simpl.
  - intros _ ->. reflexivity.
  - destruct (q a); simpl; [discriminate | ].
    intros H Hx. rewrite IH; auto.
Qed.

Lemma update_first_In (q : A -> bool) (f : A -> A) l y :
  In y (update_first q f l) -> In y l \/ exists x, In x l /\ q x = true /\ y = f x.
Proof.
  induction l as [|a l IH]; simpl; [tauto | ].
  destruct (q a) eqn:E; simpl.
  - intros [<-|H]; [right; exists a; auto | auto].
  - intros [<-|H]; [auto | ].
    destruct (IH H) as [H1|(x & H1 & H2 & H3)]; [auto | right; exists x; auto].
Qed.

Lemma insertId_fresh (key : A -> Id) l r :
  In r l -> (key r < insertId key l)%Z.
Proof.
  unfold insertId. induction l as [|a l IH]; simpl; [tauto | ].
  intros [->|H]; [lia | ]. specialize (IH H). lia.
Qed.

End Tables.

(** ** PUT /api/employee/:id *)

Section PutRoute.

Import Employee.

Lemma joi_id_truthy v : joi_id v = true -> (v =? 0)%Z = false.
Proof. unfold joi_id. intros H. apply Z.leb_le in H. apply Z.eqb_neq. lia. Qed.

Lemma joi_string_truthy mx s :
  joi_string mx s = true -> String.eqb s EmptyString = false.
Proof.
  unfold joi_string. intros H. apply andb_true_iff in H.
  destruct H as [H _]. now apply negb_true_iff in H.
Qed.

Lemma schema_fields b : employeeUpdateSchema b = true -> schema_facts b.
Proof.
  unfold employeeUpdateSchema. intros H.
  repeat (apply andb_true_iff in H; destruct H as [H ?]).
  constructor; assumption.
Qed.

Lemma changedZ_valid o cur :
  opt joi_id o = true ->
  changedZ o cur = true <-> exists v, o = Some v /\ v <> cur.
Proof.
  unfold changedZ, truthyZ. destruct o as [v|]; simpl.
  - intros H. rewrite (joi_id_truthy _ H). simpl.
    rewrite negb_true_iff, Z.eqb_neq. split.
    + intros Hn. exists v. auto.
    + intros (w & [= <-] & Hn). exact Hn.
  - intros _. split; [discriminate | intros (w & [=] & _)].
Qed.

Lemma changedS_valid mx o cur :
  opt (joi_string mx) o = true ->
  changedS o cur = true <-> exists v, o = Some v /\ v <> cur.
Proof.
  unfold changedS, truthyS. destruct o as [v|]; simpl.
  - intros H. rewrite (joi_string_truthy _ _ H). simpl.
    rewrite negb_true_iff, String.eqb_neq. split.
    + intros Hn. exists v. auto.
    + intros (w & [= <-] & Hn). exact Hn.
  - intros _. split; [discriminate | intros (w & [=] & _)].
Qed.

(** On a valid body the test of the route is the change of some placement
    field. *)
Lemma isAffectationChange_valid b p :
  employeeUpdateSchema b = true ->
  isAffectationChange b p = true <-> placement_differs b p.
Proof.
  intros Hs. destruct (schema_fields b Hs).
  unfold isAffectationChange, placement_differs.
  rewrite !orb_true_iff.
  rewrite !changedZ_valid by assumption.
  rewrite !(changedS_valid (Some 255%nat)) by assumption.
  tauto.
Qed.

Lemma orZ_valid o d : opt joi_id o = true -> orZ o d = supplied o d.
Proof.
  destruct o as [v|]; simpl; [ | reflexivity].
  intros H. now rewrite (joi_id_truthy _ H).
Qed.

Lemma orS_valid mx o d : opt (joi_string mx) o = true -> orS o d = supplied o d.
Proof.
  destruct o as [v|]; simpl; [ | reflexivity].
  intros H. now rewrite (joi_string_truthy _ _ H).
Qed.

(** On a valid body the new snapshot takes the supplied value of each
    field and the old value of each absent field. *)
Lemma nouvelles_valeurs_valid b p :
  employeeUpdateSchema b = true ->
  nouvelles_valeurs b p = updated_placement b p.
Proof.
  intros Hs. destruct (schema_fields b Hs).
  unfold nouvelles_valeurs, updated_placement.
  rewrite !orZ_valid by assumption.
  rewrite !(orS_valid (Some 255%nat)) by assumption.
  reflexivity.
Qed.

Lemma apply_clauses_app c1 c2 r :
  apply_clauses (c1 ++ c2) r = apply_clauses c2 (apply_clauses c1 r).
Proof. apply fold_left_app. Qed.

Lemma assign_id a r : id (assign a r) = id r.
Proof. destruct a; reflexivity. Qed.

Lemma apply_clauses_id c r : id (apply_clauses c r) = id r.
Proof.
  revert r. induction c as [|a c IH]; intros r; simpl; [reflexivity | ].
  unfold apply_clauses in *. simpl. rewrite IH. apply assign_id.
Qed.

Lemma apply_clauses_placement b r :
  placement (apply_clauses (clauses_of b) r)
  = updated_placement b (placement r).
Proof.
  destruct r as [i ma no pr [s d se t po fo] st u pi].
  destruct b as [bma bno bpr bs bd bse bt bpo bfo bst bmo bco bu bau].
  unfold clauses_of, buildUpdateQuery, updated_placement. simpl.
  destruct bs, bd, bse, bt, bpo, bfo; simpl;
    destruct bma, bno, bpr, bst, bu; reflexivity.
Qed.

End PutRoute.

Section PutOutcome.

Import Employee.

Variables (today : Date) (user e : Id) (b : UpdateBody.t) (db : Db).

Lemma run_update_clauses :
  match buildUpdateQuery b with
  | Some clauses => run_update clauses e (employees db)
  | None => employees db
  end
  = update_where (fun r => (id r =? e)%Z) (apply_clauses (clauses_of b))
      (employees db).
Proof.
  unfold clauses_of, run_update.
  destruct (buildUpdateQuery b); [reflexivity | ].
  symmetry. apply update_where_id. reflexivity.
Qed.

(** A valid placement change with its reason: the reply and the tables. *)
Lemma put_change cur m :
  employeeUpdateSchema b = true ->
  find_employee db e = Some cur ->
  placement_differs b (placement cur) ->
  UpdateBody.motif_changement b = Some m ->
  put today user e b db
  = ((200%nat, AffectationChanged e true),
     mkDb (sites db) (departments db) (services db) (teams db)
       (update_where (fun r => (id r =? e)%Z) (apply_clauses (clauses_of b))
          (employees db))
       (update_latest_open e (terminer today m user)
          (employee_affectations db)
        ++ [nouvelle_affectation today user e b m (placement cur)])
       (contracts db) (leave_requests db) (leave_validations db)).
Proof.
  intros Hs Hf Hd Hm. unfold put. rewrite Hs. cbn [negb].
  destruct (find_filter _ _ _ Hf) as [rest ->].
  apply (isAffectationChange_valid _ _ Hs) in Hd. rewrite Hd.
  pose proof (ok_motif _ (schema_fields _ Hs)) as Hmv.
  rewrite Hm in Hmv |- *. cbn [opt] in Hmv.
  unfold truthyS, orS. rewrite (joi_string_truthy _ _ Hmv). cbn [negb andb].
  unfold affectationChanged. rewrite Hd.
  rewrite run_update_clauses, (nouvelles_valeurs_valid _ _ Hs).
  reflexivity.
Qed.

(** A valid update that changes no placement field leaves the history
    alone. *)
Lemma put_no_change cur :
  employeeUpdateSchema b = true ->
  find_employee db e = Some cur ->
  ~ placement_differs b (placement cur) ->
  put today user e b db
  = ((200%nat,
      match UpdateBody.fonction b with
      | Some _ => AffectationChanged e false
      | None => EmployeeId e
      end),
     mkDb (sites db) (departments db) (services db) (teams db)
       (update_where (fun r => (id r =? e)%Z) (apply_clauses (clauses_of b))
          (employees db))
       (employee_affectations db)
       (contracts db) (leave_requests db) (leave_validations db)).
Proof.
  intros Hs Hf Hd. unfold put. rewrite Hs. cbn [negb].
  destruct (find_filter _ _ _ Hf) as [rest ->].
  destruct (isAffectationChange b (placement cur)) eqn:E.
  - apply (isAffectationChange_valid _ _ Hs) in E. contradiction.
  - cbn [andb]. unfold affectationChanged. rewrite E.
    rewrite run_update_clauses.
    destruct (UpdateBody.fonction b); reflexivity.
Qed.

(** Every other request is refused and leaves the tables as they were. *)
Lemma put_refused :
  employeeUpdateSchema b = false
  \/ find_employee db e = None
  \/ (exists cur, find_employee db e = Some cur
                  /\ placement_differs b (placement cur)
                  /\ UpdateBody.motif_changement b = None) ->
  snd (put today user e b db) = db
  /\ (status (fst (put today user e b db)) = 400%nat
      \/ status (fst (put today user e b db)) = 404%nat).
Proof.
  unfold put. intros [Hs|[Hf|(cur & Hf & Hd & Hm)]].
  - rewrite Hs. simpl. auto.
  - destruct (employeeUpdateSchema b); simpl; [ | auto].
    rewrite (find_none_filter _ _ Hf). simpl. auto.
  - destruct (employeeUpdateSchema b) eqn:Hs; simpl; [ | auto].
    destruct (find_filter _ _ _ Hf) as [rest ->].
    apply (isAffectationChange_valid _ _ Hs) in Hd. rewrite Hd, Hm.
    simpl. auto.
Qed.

(** The three outcomes cover every request. *)
Lemma put_cases :
  snd (put today user e b db) = db
  \/ exists cur,
       employeeUpdateSchema b = true /\ find_employee db e = Some cur
       /\ ((~ placement_differs b (placement cur))
           \/ (placement_differs b (placement cur)
               /\ exists m, UpdateBody.motif_changement b = Some m)).
Proof.
  destruct (employeeUpdateSchema b) eqn:Hs;
    [ | left; apply put_refused; auto].
  destruct (find_employee db e) as [cur|] eqn:Hf;
    [ | left; apply put_refused; auto].
  destruct (isAffectationChange b (placement cur)) eqn:E.
  - apply (isAffectationChange_valid _ _ Hs) in E.
    destruct (UpdateBody.motif_changement b) as [m|] eqn:Hm.
    + right. exists cur. eauto 10.
    + left. apply put_refused. right. right. exists cur. auto.
  - right. exists cur. split; [reflexivity | ]. split; [reflexivity | ].
    left. intros Hd. apply (isAffectationChange_valid _ _ Hs) in Hd.
    congruence.
Qed.

End PutOutcome.

(** C5.  An update in which some placement field (site_id, department_id,
    service_id, team_id, position, fonction) is supplied with a value
    other than the employee's current one, and no motif_changement is
    supplied, is answered with HTTP 400 and leaves every table as it was:
    no affectation record is written and the employee's row is unchanged. *)
Theorem put_change_without_motif_rejected :
  forall today user e b db cur,
    find_employee db e = Some cur ->
    placement_differs b (placement cur) ->
    UpdateBody.motif_changement b = None ->
    status (fst (Employee.put today user e b db)) = 400%nat
    /\ snd (Employee.put today user e b db) = db.
Proof.
  intros today user e b db cur Hf Hd Hm.
  unfold Employee.put.
  destruct (Employee.employeeUpdateSchema b) eqn:Hs; cbn [negb];
    [ | split; reflexivity].
  destruct (find_filter _ _ _ Hf) as [rest ->].
  apply (isAffectationChange_valid _ _ Hs) in Hd. rewrite Hd, Hm.
  split; reflexivity.
Qed.

Lemma put_change_without_motif_rejected_witness :
  status (fst (Employee.put 130 7 1 Demo.promotion_sans_motif Demo.db1))
  = 400%nat
  /\ snd (Employee.put 130 7 1 Demo.promotion_sans_motif Demo.db1) = Demo.db1.
Proof.
  apply (put_change_without_motif_rejected 130 7 1 Demo.promotion_sans_motif
           Demo.db1
           (mkEmployee 1 "SG-001" "Diop" "Awa"
              (mkPlacement 1 1 1 1 "Agent de piste" "Exploitation")
              "Actif" (Some 12%Z) None)).
  - reflexivity.
  - do 4 right. left. exists "Chef de piste". split; [reflexivity | discriminate].
  - reflexivity.
Defined.

(** ** Open records *)

Section OpenRecords.

Import Employee.

Lemma open_of_employee e a : open_of e a = true -> employee_id a = e.
Proof.
  unfold open_of. intros H. apply andb_true_iff in H.
  destruct H as [H _]. now apply Z.eqb_eq in H.
Qed.

Lemma open_of_other e e' a : employee_id a = e -> e' <> e -> open_of e' a = false.
Proof.
  intros <- Hn. unfold open_of.
  destruct (Z.eqb_spec (employee_id a) e'); [congruence | reflexivity].
Qed.

Lemma open_of_terminer today m user e a :
  open_of e (terminer today m user a) = false.
Proof. unfold open_of, is_open. simpl. apply andb_false_r. Qed.

Lemma open_of_archiver today user e a :
  open_of e (archiver today user a) = false.
Proof. unfold open_of, is_open. simpl. apply andb_false_r. Qed.

Lemma latest_open_debut_none e l :
  latest_open_debut e l = None -> existsb (open_of e) l = false.
Proof.
  induction l as [|a l IH]; simpl; [reflexivity | ].
  destruct (open_of e a); simpl.
  - destruct (latest_open_debut e l); discriminate.
  - exact IH.
Qed.

(** The greatest start date is the start date of some open record. *)
Lemma latest_open_debut_some e l d :
  latest_open_debut e l = Some d ->
  existsb (fun a => open_of e a && (date_debut a =? d)%Z) l = true.
Proof.
  revert d. induction l as [|a l IH]; simpl; [discriminate | ].
  intros d. destruct (open_of e a); simpl.
  - destruct (latest_open_debut e l) as [d'|].
    + intros [= <-].
      destruct (Z.max_spec (date_debut a) d') as [[_ ->]|[_ ->]].
      * rewrite (IH d' eq_refl). apply orb_true_r.
      * rewrite Z.eqb_refl. reflexivity.
    + intros [= <-]. rewrite Z.eqb_refl. reflexivity.
  - apply IH.
Qed.

Lemma existsb_false_filter {A} (p : A -> bool) l :
  existsb p l = false -> filter p l = [].
Proof.
  induction l as [|a l IH]; simpl; [reflexivity | ].
  destruct (p a); simpl; [discriminate | exact IH].
Qed.

(** Closing the latest open record of [e] removes one open record of [e]
    (when there is one) and none of anybody else. *)
Lemma open_update_latest today m user e e' l :
  List.length (filter (open_of e')
                 (update_latest_open e (terminer today m user) l))
  = if (e' =? e)%Z
    then pred (List.length (filter (open_of e) l))
    else List.length (filter (open_of e') l).
Proof.
  unfold update_latest_open.
  destruct (latest_open_debut e l) as [d|] eqn:E.
  - apply latest_open_debut_some in E.
    destruct (Z.eqb_spec e' e) as [->|Hn].
    + rewrite <- (length_filter_update_first (open_of e)
                    (fun a => open_of e a && (date_debut a =? d)%Z)
                    (terminer today m user) l); [reflexivity | | exact E].
      intros r Hr. apply andb_true_iff in Hr. destruct Hr as [Hr _].
      split; [exact Hr | apply open_of_terminer].
    + f_equal. apply filter_update_first_other.
      intros r Hr. apply andb_true_iff in Hr. destruct Hr as [Hr _].
      split; [ | apply open_of_terminer].
      apply open_of_other with e; [now apply open_of_employee | exact Hn].
  - destruct (Z.eqb_spec e' e) as [->|Hn]; [ | reflexivity].
    apply latest_open_debut_none in E.
    rewrite (existsb_false_filter _ _ E). reflexivity.
Qed.

Lemma update_latest_open_In today m user e l a :
  In a (update_latest_open e (terminer today m user) l) ->
  exists a0, In a0 l /\ employee_id a = employee_id a0.
Proof.
  unfold update_latest_open.
  destruct (latest_open_debut e l); [ | intros H; exists a; auto].
  intros H. apply update_first_In in H.
  destruct H as [H|(x & H1 & _ & ->)]; [exists a; auto | exists x; auto].
Qed.

Lemma known_find db e cur : find_employee db e = Some cur -> known db e.
Proof.
  unfold find_employee, known. intros H. apply find_some in H.
  destruct H as [H1 H2]. apply Z.eqb_eq in H2. subst e.
  now apply in_map.
Qed.

Lemma ids_update_where (q : Employee -> bool) f l :
  (forall r, id (f r) = id r) ->
  map id (update_where q f l) = map id l.
Proof.
  intros H. unfold update_where. rewrite map_map. apply map_ext.
  intros r. destruct (q r); [apply H | reflexivity].
Qed.

Lemma foreign_keys_ids db db' :
  foreign_keys db ->
  (forall e, known db e -> known db' e) ->
  (forall a, In a (employee_affectations db') ->
             (exists a0, In a0 (employee_affectations db)
                         /\ employee_id a = employee_id a0)
             \/ known db' (employee_id a)) ->
  foreign_keys db'.
Proof.
  unfold foreign_keys, known. intros Hfk Hk Ha a Hin.
  assert (Hkn : In (employee_id a) (map id (employees db'))).
  { destruct (Ha a Hin) as [(a0 & H0 & ->)|H]; [ | exact H].
    apply Hk. destruct (Hfk a0 H0) as (r & Hr & <-). now apply in_map. }
  apply in_map_iff in Hkn. destruct Hkn as (r & Hr & Hin'). eauto.
Qed.

End OpenRecords.

(** ** One step of each employee route *)

Section Steps.

Import Employee.

Lemma post_cases today user body db :
  let n := insertId id (employees db) in
  (snd (post today user body db) = db
   /\ (status (fst (post today user body db)) = 400%nat
       \/ status (fst (post today user body db)) = 409%nat))
  \/ post today user body db
     = ((201%nat, EmployeeId n),
        mkDb (sites db) (departments db) (services db) (teams db)
          (employees db
           ++ [mkEmployee n (CreateBody.matricule body) (CreateBody.nom body)
                 (CreateBody.prenom body)
                 (mkPlacement (CreateBody.site_id body)
                    (CreateBody.department_id body)
                    (CreateBody.service_id body) (CreateBody.team_id body)
                    (CreateBody.position body) (CreateBody.fonction body))
                 statut_defaut (CreateBody.user_id body) None])
          (employee_affectations db
           ++ [mkAffectation n today None "Embauche initiale" None user None
                 (mkPlacement (CreateBody.site_id body)
                    (CreateBody.department_id body)
                    (CreateBody.service_id body) (CreateBody.team_id body)
                    (CreateBody.position body) (CreateBody.fonction body))])
          (contracts db) (leave_requests db) (leave_validations db)).
Proof.
  intros n. unfold post.
  destruct (employeeCreationSchema body); cbn [negb]; [ | left; simpl; auto].
  destruct (existsb _ (employees db)); [left; simpl; auto | ].
  match goal with |- context [if ?c then _ else _] => destruct c end;
    [left; simpl; auto | right; reflexivity].
Qed.

Lemma delete_cases found_rows today user e db :
  delete found_rows today user e db = ((404%nat, Message), db)
  \/ delete found_rows today user e db
     = ((200%nat, EmployeeId e),
        mkDb (sites db) (departments db) (services db) (teams db)
          (update_where (fun r => (id r =? e)%Z) (assign (SetUserId None))
             (update_where (fun r => (id r =? e)%Z)
                (assign (SetStatut "Licencié")) (employees db)))
          (update_where (open_of e) (archiver today user)
             (employee_affectations db))
          (contracts db) (leave_requests db) (leave_validations db)).
Proof.
  unfold delete.
  match goal with |- context [if ?c then _ else _] => destruct c end;
    [left | right]; reflexivity.
Qed.

Lemma fresh_unknown db : ~ known db (insertId id (employees db)).
Proof.
  unfold known. intros H. apply in_map_iff in H. destruct H as (r & E & Hin).
  apply (insertId_fresh id) in Hin. lia.
Qed.

Lemma unknown_no_open db e :
  foreign_keys db -> ~ known db e -> open_count db e = 0%nat.
Proof.
  intros Hfk Hn. unfold open_count.
  replace (filter (open_of e) (employee_affectations db)) with (@nil Affectation);
    [reflexivity | ].
  symmetry. apply existsb_false_filter.
  destruct (existsb (open_of e) (employee_affectations db)) eqn:E;
    [ | reflexivity].
  apply existsb_exists in E. destruct E as (a & Hin & Ho).
  apply open_of_employee in Ho. destruct (Hfk a Hin) as (r & Hr & Hid).
  exfalso. apply Hn. unfold known. rewrite <- Ho, <- Hid. now apply in_map.
Qed.

Lemma open_count_snoc (affs : list Affectation) a e :
  List.length (filter (open_of e) (affs ++ [a]))
  = (List.length (filter (open_of e) affs)
     + if open_of e a then 1 else 0)%nat.
Proof.
  rewrite filter_app, length_app. simpl.
  destruct (open_of e a); reflexivity.
Qed.

(** Hiring: one more employee, who gets one open record. *)
Lemma post_step today user body db :
  foreign_keys db ->
  let db' := snd (post today user body db) in
  foreign_keys db'
  /\ (forall e, known db e -> known db' e)
  /\ (forall e, known db e -> open_count db' e = open_count db e)
  /\ (forall e, known db' e -> ~ known db e -> open_count db' e = 1%nat).
Proof.
  intros Hfk db'. subst db'.
  destruct (post_cases today user body db) as [[-> _] | ->]; cbn [snd].
  - repeat split; auto. intros e H1 H2. contradiction.
  - set (n := insertId id (employees db)).
    assert (Hk : forall e, known db e -> e <> n).
    { intros e He ->. now apply (fresh_unknown db). }
    split; [ | split; [ | split]].
    + intros a Hin. cbn [employee_affectations employees] in *.
      apply in_app_or in Hin. destruct Hin as [Hin|[<-|[]]].
      * destruct (Hfk a Hin) as (r & Hr & Hid). exists r.
        split; [apply in_or_app; auto | exact Hid].
      * eexists. split; [apply in_or_app; right; left; reflexivity | ].
        reflexivity.
    + unfold known. cbn [employees]. intros e He.
      rewrite map_app. apply in_or_app. auto.
    + intros e He. unfold open_count. cbn [employee_affectations].
      rewrite open_count_snoc.
      rewrite (open_of_other n e); [lia | reflexivity | auto].
    + unfold known at 1. cbn [employees]. intros e He Hne.
      rewrite map_app in He. apply in_app_or in He.
      destruct He as [He|[<-|[]]]; [contradiction | ].
      cbn [id]. unfold open_count at 1. cbn [employee_affectations].
      rewrite open_count_snoc.
      fold (open_count db n). rewrite (unknown_no_open db n Hfk Hne).
      unfold open_of, is_open. cbn [employee_id date_fin].
      rewrite Z.eqb_refl. reflexivity.
Qed.

Lemma open_of_nouvelle today user e b m p e' :
  open_of e' (nouvelle_affectation today user e b m p) = (e =? e')%Z.
Proof. unfold open_of, is_open. simpl. apply andb_true_r. Qed.

(** Updating: the same employees; a placement change closes one open
    record of the employee, if any, and opens one. *)
Lemma put_step today user e b db :
  foreign_keys db ->
  let db' := snd (put today user e b db) in
  foreign_keys db'
  /\ (forall e', known db' e' <-> known db e')
  /\ (forall e', (open_count db e' <= 1)%nat -> (open_count db' e' <= 1)%nat)
  /\ (forall e', open_count db e' = 1%nat -> open_count db' e' = 1%nat).
Proof.
  intros Hfk db'. subst db'.
  destruct (put_cases today user e b db)
    as [-> | (cur & Hs & Hf & [Hd | (Hd & m & Hm)])].
  - repeat split; auto.
  - rewrite (put_no_change today user e b db cur Hs Hf Hd). cbn [snd].
    assert (Hk : forall e', known
              (mkDb (sites db) (departments db) (services db) (teams db)
                 (update_where (fun r => (id r =? e)%Z)
                    (apply_clauses (clauses_of b)) (employees db))
                 (employee_affectations db) (contracts db)
                 (leave_requests db) (leave_validations db)) e'
              <-> known db e').
    { intros e'. unfold known. cbn [employees].
      rewrite ids_update_where by apply apply_clauses_id. tauto. }
    split; [ | split; [exact Hk | split; auto]].
    apply foreign_keys_ids with db; [exact Hfk | apply Hk | ].
    intros a Hin. left. exists a. auto.
  - rewrite (put_change today user e b db cur m Hs Hf Hd Hm). cbn [snd].
    set (db' := mkDb _ _ _ _ _ _ _ _ _).
    assert (Hk : forall e', known db' e' <-> known db e').
    { intros e'. unfold known, db'. cbn [employees].
      rewrite ids_update_where by apply apply_clauses_id. tauto. }
    assert (Hc : forall e', open_count db' e'
                 = if (e' =? e)%Z then S (pred (open_count db e))
                   else open_count db e').
    { intros e'. unfold open_count, db'. cbn [employee_affectations].
      rewrite open_count_snoc, open_update_latest, open_of_nouvelle.
      rewrite (Z.eqb_sym e e').
      destruct (e' =? e)%Z; lia. }
    split; [ | split; [exact Hk | split]].
    + apply foreign_keys_ids with db; [exact Hfk | apply Hk | ].
      intros a Hin. unfold db' in Hin. cbn [employee_affectations] in Hin.
      apply in_app_or in Hin. destruct Hin as [Hin|[<-|[]]].
      * left. eapply update_latest_open_In. exact Hin.
      * right. apply Hk. cbn [nouvelle_affectation employee_id].
        eapply known_find. exact Hf.
    + intros e' Hle. rewrite Hc.
      destruct (Z.eqb_spec e' e) as [->|_]; lia.
    + intros e' H1. rewrite Hc.
      destruct (Z.eqb_spec e' e) as [->|_]; lia.
Qed.

(** Archiving: the same employees; no open record of the employee is
    left, the records of the others are not touched. *)
Lemma delete_step found_rows today user e db :
  foreign_keys db ->
  let db' := snd (delete found_rows today user e db) in
  foreign_keys db'
  /\ (forall e', known db' e' <-> known db e')
  /\ (forall e', (open_count db' e' <= open_count db e')%nat)
  /\ (forall e', e' <> e -> open_count db' e' = open_count db e').
Proof.
  intros Hfk db'. subst db'.
  destruct (delete_cases found_rows today user e db) as [-> | ->]; cbn [snd].
  - repeat split; auto.
  - set (db' := mkDb _ _ _ _ _ _ _ _ _).
    assert (Hk : forall e', known db' e' <-> known db e').
    { intros e'. unfold known, db'. cbn [employees].
      rewrite !ids_update_where by apply assign_id. tauto. }
    assert (Hother : forall e', e' <> e -> open_count db' e' = open_count db e').
    { intros e' Hn. unfold open_count, db'. cbn [employee_affectations].
      f_equal. apply filter_update_where_other.
      intros r Hr. split; [ | apply open_of_archiver].
      apply open_of_other with e; [now apply open_of_employee | exact Hn]. }
    split; [ | split; [exact Hk | split; [ | exact Hother]]].
    + apply foreign_keys_ids with db; [exact Hfk | apply Hk | ].
      intros a Hin. unfold db' in Hin. cbn [employee_affectations] in Hin.
      unfold update_where in Hin. apply in_map_iff in Hin.
      destruct Hin as (a0 & <- & Hin). left. exists a0.
      split; [exact Hin | ]. destruct (open_of e a0); reflexivity.
    + intros e'. destruct (Z.eq_dec e' e) as [->|Hn];
        [ | rewrite Hother by exact Hn; lia].
      unfold open_count at 1, db'. cbn [employee_affectations].
      rewrite filter_update_where_none; [simpl; lia | | auto].
      intros r Hr. split; [exact Hr | apply open_of_archiver].
Qed.

End Steps.

(** ** Traces of requests *)

Section Traces.

Lemma serve_snoc db rs r : serve db (rs ++ [r]) = snd (handle r (serve db rs)).
Proof. unfold serve. rewrite fold_left_app. reflexivity. Qed.

Lemma known_dec db e : {known db e} + {~ known db e}.
Proof. apply in_dec, Z.eq_dec. Qed.

(** One request keeps the foreign keys and never leaves two open records
    where there was at most one. *)
Lemma handle_at_most_one r db :
  foreign_keys db -> (forall e, (open_count db e <= 1)%nat) ->
  foreign_keys (snd (handle r db))
  /\ forall e, (open_count (snd (handle r db)) e <= 1)%nat.
Proof.
  intros Hfk H1. destruct r as [today user body|today user e0 b|today user e0];
    cbn [handle].
  - destruct (post_step today user body db Hfk) as (Hfk' & Hk & Hsame & Hnew).
    split; [exact Hfk' | ]. intros e.
    destruct (known_dec db e) as [Hin|Hout].
    + rewrite Hsame by exact Hin. apply H1.
    + destruct (known_dec (snd (Employee.post today user body db)) e)
        as [Hin'|Hout'].
      * rewrite Hnew by assumption. lia.
      * rewrite unknown_no_open by assumption. lia.
  - destruct (put_step today user e0 b db Hfk) as (Hfk' & _ & Hle & _).
    split; [exact Hfk' | ]. intros e. apply Hle, H1.
  - destruct (delete_step Employee.mysql2_FOUND_ROWS today user e0 db Hfk)
      as (Hfk' & _ & Hle & _).
    split; [exact Hfk' | ]. intros e.
    apply Nat.le_trans with (open_count db e); [apply Hle | apply H1].
Qed.

(** A request that does not archive [e] keeps the one open record of [e],
    and a hiring gives the newcomer one. *)
Lemma handle_exactly_one e r db :
  archives e r = false ->
  foreign_keys db -> (known db e -> open_count db e = 1%nat) ->
  known (snd (handle r db)) e -> open_count (snd (handle r db)) e = 1%nat.
Proof.
  intros Hr Hfk H1.
  destruct r as [today user body|today user e0 b|today user e0];
    cbn [handle].
  - destruct (post_step today user body db Hfk) as (Hfk' & Hk & Hsame & Hnew).
    intros Hin'. destruct (known_dec db e) as [Hin|Hout].
    + rewrite Hsame by exact Hin. auto.
    + apply Hnew; assumption.
  - destruct (put_step today user e0 b db Hfk) as (Hfk' & Hk & _ & Hone).
    intros Hin'. apply Hone, H1, Hk, Hin'.
  - destruct (delete_step Employee.mysql2_FOUND_ROWS today user e0 db Hfk)
      as (Hfk' & Hk & _ & Hother).
    intros Hin'. cbn [archives] in Hr. apply Z.eqb_neq in Hr.
    rewrite Hother by congruence. apply H1, Hk, Hin'.
Qed.

Lemma serve_at_most_one db0 rs :
  foreign_keys db0 -> (forall e, (open_count db0 e <= 1)%nat) ->
  foreign_keys (serve db0 rs)
  /\ forall e, (open_count (serve db0 rs) e <= 1)%nat.
Proof.
  intros Hfk H1. induction rs as [|r rs IH] using rev_ind; [auto | ].
  rewrite serve_snoc. destruct IH as [IH1 IH2].
  now apply handle_at_most_one.
Qed.

Lemma serve_exactly_one e db0 rs :
  foreign_keys db0 -> (forall e', (open_count db0 e' <= 1)%nat) ->
  (known db0 e -> open_count db0 e = 1%nat) ->
  forallb (fun r => negb (archives e r)) rs = true ->
  known (serve db0 rs) e -> open_count (serve db0 rs) e = 1%nat.
Proof.
  intros Hfk Hle H1. induction rs as [|r rs IH] using rev_ind; [auto | ].
  rewrite forallb_app, andb_true_iff. cbn [forallb].
  rewrite andb_true_r, negb_true_iff. intros [Hrs Hr].
  rewrite serve_snoc.
  apply handle_exactly_one; [exact Hr | | auto].
  now apply serve_at_most_one.
Qed.

(** An archiving that is not answered with 200 changes nothing. *)
Lemma handle_not_archived e r db :
  archives e r && (status (fst (handle r db)) =? 200)%nat = false ->
  archives e r = false \/ snd (handle r db) = db.
Proof.
  destruct (archives e r) eqn:Ha; [ | auto]. cbn [andb]. intros Hs. right.
  destruct r as [today user body|today user e0 b|today user e0];
    try discriminate Ha.
  cbn [handle] in *.
  destruct (delete_cases Employee.mysql2_FOUND_ROWS today user e0 db)
    as [E | E]; rewrite E in Hs |- *; [reflexivity | discriminate Hs].
Qed.

Lemma archived_snoc e rs : forall db r,
  archived e db (rs ++ [r])
  = archived e db rs
    || (archives e r && (status (fst (handle r (serve db rs))) =? 200)%nat).
Proof.
  induction rs as [|r0 rs IH]; intros db r.
  - cbn [app archived serve fold_left]. rewrite orb_false_r. reflexivity.
  - change ((r0 :: rs) ++ [r]) with (r0 :: (rs ++ [r])).
    cbn [archived]. rewrite IH, orb_assoc. reflexivity.
Qed.

Lemma serve_one_unless_archived e db0 rs :
  foreign_keys db0 -> (forall e', (open_count db0 e' <= 1)%nat) ->
  (known db0 e -> open_count db0 e = 1%nat) ->
  archived e db0 rs = false ->
  known (serve db0 rs) e -> open_count (serve db0 rs) e = 1%nat.
Proof.
  intros Hfk Hle H1. induction rs as [|r rs IH] using rev_ind; [auto | ].
  rewrite archived_snoc, orb_false_iff. intros [Hrs Hr].
  rewrite serve_snoc.
  destruct (handle_not_archived e r (serve db0 rs) Hr) as [Ha | E].
  - apply handle_exactly_one; [exact Ha | | auto].
    now apply serve_at_most_one.
  - rewrite E. auto.
Qed.

(** A table with one row that satisfies [q]. *)
Lemma filter_one {A} (q : A -> bool) (l : list A) :
  List.length (filter q l) = 1%nat ->
  exists l1 a l2,
    l = l1 ++ a :: l2 /\ q a = true
    /\ existsb q l1 = false /\ existsb q l2 = false.
Proof.
  induction l as [|x l IH]; simpl; [discriminate | ].
  destruct (q x) eqn:Hx; simpl.
  - intros H. exists [], x, l. split; [reflexivity | ].
    split; [exact Hx | ]. split; [reflexivity | ].
    destruct (existsb q l) eqn:E; [ | reflexivity].
    apply existsb_exists in E. destruct E as (y & Hin & Hy).
    assert (Hf : In y (filter q l)) by (apply filter_In; auto).
    destruct (filter q l); [destruct Hf | discriminate H].
  - intros H. destruct (IH H) as (l1 & a & l2 & -> & Ha & H1 & H2).
    exists (x :: l1), a, l2. split; [reflexivity | ].
    split; [exact Ha | ]. split; [simpl; rewrite Hx; exact H1 | exact H2].
Qed.

Lemma nobody_hired db0 :
  employees db0 = [] -> employee_affectations db0 = [] ->
  foreign_keys db0 /\ (forall e, open_count db0 e = 0%nat)
  /\ forall e, ~ known db0 e.
Proof.
  intros He Ha. unfold foreign_keys, open_count, known. rewrite He, Ha.
  simpl. repeat split; tauto.
Qed.

End Traces.

(** ** Histories *)

Section Histories.

Import Employee.

Lemma chain_continuous l : chain l -> continuous l.
Proof.
  unfold continuous. induction l as [|x l IH]; intros Hc k a b Ha Hb.
  - destruct k; discriminate.
  - destruct l as [|y l]; [destruct k; [discriminate | destruct k; discriminate] | ].
    destruct Hc as [Hl Hc]. destruct k as [|k].
    + simpl in Ha, Hb. injection Ha as <-. injection Hb as <-. exact Hl.
    + apply (IH Hc k); assumption.
Qed.

Lemma chain_snoc l x y : chain (l ++ [x]) -> link x y -> chain (l ++ [x; y]).
Proof.
  induction l as [|a l IH]; intros Hc Hl.
  - simpl. auto.
  - destruct l as [|b l].
    + simpl in *. tauto.
    + change ((a :: b :: l) ++ [x; y]) with (a :: (b :: l) ++ [x; y]).
      change ((a :: b :: l) ++ [x]) with (a :: (b :: l) ++ [x]) in Hc.
      simpl in Hc. destruct Hc as [Hab Hc].
      split; [exact Hab | ]. apply IH; assumption.
Qed.

Lemma chain_replace_last l x x' :
  chain (l ++ [x]) -> (forall a, link a x -> link a x') -> chain (l ++ [x']).
Proof.
  induction l as [|a l IH]; intros Hc Hl.
  - simpl. exact I.
  - destruct l as [|b l].
    + simpl in *. destruct Hc as [Hax _]. auto.
    + change ((a :: b :: l) ++ [x']) with (a :: (b :: l) ++ [x']).
      change ((a :: b :: l) ++ [x]) with (a :: (b :: l) ++ [x]) in Hc.
      simpl in Hc. destruct Hc as [Hab Hc].
      split; [exact Hab | ]. apply IH; assumption.
Qed.

Lemma latest_open_debut_history e l :
  latest_open_debut e (filter (fun a => (employee_id a =? e)%Z) l)
  = latest_open_debut e l.
Proof.
  induction l as [|a l IH]; simpl; [reflexivity | ].
  assert (Ho : (employee_id a =? e)%Z = false -> open_of e a = false)
    by (unfold open_of; intros ->; reflexivity).
  destruct (employee_id a =? e)%Z eqn:E; simpl.
  - rewrite IH. reflexivity.
  - rewrite Ho by reflexivity. exact IH.
Qed.

Lemma history_update_latest e f l :
  (forall a, employee_id (f a) = employee_id a) ->
  filter (fun a => (employee_id a =? e)%Z) (update_latest_open e f l)
  = update_latest_open e f (filter (fun a => (employee_id a =? e)%Z) l).
Proof.
  intros Hf. unfold update_latest_open.
  rewrite latest_open_debut_history.
  destruct (latest_open_debut e l) as [d|]; [ | reflexivity].
  apply filter_update_first_commute.
  intros r Hr. apply andb_true_iff in Hr. destruct Hr as [Hr _].
  apply open_of_employee in Hr. rewrite Hf, Hr, Z.eqb_refl. auto.
Qed.

Lemma latest_open_debut_only e l1 a l2 :
  existsb (open_of e) l1 = false -> open_of e a = true ->
  existsb (open_of e) l2 = false ->
  latest_open_debut e (l1 ++ a :: l2) = Some (date_debut a).
Proof.
  intros H1 Ha H2.
  assert (E2 : latest_open_debut e l2 = None).
  { clear -H2. induction l2 as [|x l IH]; simpl in *; [reflexivity | ].
    destruct (open_of e x); [discriminate | auto]. }
  induction l1 as [|x l IH]; simpl in *.
  - rewrite Ha, E2. reflexivity.
  - destruct (open_of e x); [discriminate | auto].
Qed.

Lemma update_first_middle {A} (q : A -> bool) f l1 a l2 :
  existsb q l1 = false -> q a = true ->
  update_first q f (l1 ++ a :: l2) = l1 ++ f a :: l2.
Proof.
  induction l1 as [|x l IH]; simpl.
  - intros _ ->. reflexivity.
  - destruct (q x); simpl; [discriminate | ].
    intros H Ha. rewrite IH; auto.
Qed.

(** With one open record of [e] in the table, that record is the one the
    route closes. *)
Lemma update_latest_open_only e f l1 a l2 :
  existsb (open_of e) l1 = false -> open_of e a = true ->
  existsb (open_of e) l2 = false ->
  update_latest_open e f (l1 ++ a :: l2) = l1 ++ f a :: l2.
Proof.
  intros H1 Ha H2. unfold update_latest_open.
  rewrite (latest_open_debut_only e l1 a l2 H1 Ha H2).
  apply update_first_middle.
  - clear -H1. induction l1 as [|x l IH]; simpl in *; [reflexivity | ].
    destruct (open_of e x); [discriminate | simpl; auto].
  - rewrite Ha, Z.eqb_refl. reflexivity.
Qed.

Lemma find_app_none {A} (p : A -> bool) l x :
  find p l = None -> p x = true -> find p (l ++ [x]) = Some x.
Proof.
  induction l as [|a l IH]; simpl.
  - intros _ ->. reflexivity.
  - destruct (p a); [discriminate | auto].
Qed.

Lemma find_unknown db e : ~ known db e -> find_employee db e = None.
Proof.
  intros Hn. unfold find_employee.
  destruct (find _ (employees db)) as [r|] eqn:E; [ | reflexivity].
  exfalso. apply Hn. eapply known_find. exact E.
Qed.

Lemma history_unknown db e : foreign_keys db -> ~ known db e -> history db e = [].
Proof.
  intros Hfk Hn. unfold history. apply existsb_false_filter.
  destruct (existsb _ (employee_affectations db)) eqn:E; [ | reflexivity].
  apply existsb_exists in E. destruct E as (a & Hin & Ha).
  apply Z.eqb_eq in Ha. destruct (Hfk a Hin) as (r & Hr & Hid).
  exfalso. apply Hn. unfold known. rewrite <- Ha, <- Hid. now apply in_map.
Qed.

(** The hiring starts the history of the newcomer. *)
Lemma post_tracked today user body db e :
  foreign_keys db ->
  fst (post today user body db) = (201%nat, EmployeeId e) ->
  tracked (snd (post today user body db)) e 0.
Proof.
  intros Hfk Hp.
  destruct (post_cases today user body db) as [[_ Hs] | E].
  - rewrite Hp in Hs. simpl in Hs. destruct Hs; discriminate.
  - rewrite E in Hp |- *. cbn [fst] in Hp. injection Hp as <-.
    cbn [snd]. pose proof (fresh_unknown db) as Hfresh.
    set (n := insertId id (employees db)) in *.
    eexists [], _, _. unfold history, find_employee.
    cbn [employee_affectations employees].
    rewrite filter_app. fold (history db n).
    rewrite (history_unknown db n Hfk Hfresh).
    cbn [filter employee_id app]. rewrite Z.eqb_refl.
    split; [reflexivity | ]. split; [reflexivity | ].
    split; [unfold open_of, is_open; simpl; now rewrite Z.eqb_refl | ].
    split; [reflexivity | ]. split; [exact I | ].
    split;
      [apply find_app_none;
         [apply (find_unknown db n Hfresh) | cbn [id]; apply Z.eqb_refl]
      | reflexivity].
Qed.

(** A placement change extends the history by one record. *)
Lemma put_tracked today user e b db n :
  tracked db e n -> placement_change db e b ->
  tracked (snd (put today user e b db)) e (S n).
Proof.
  intros (closed & last & cur & Hh & Hcl & Hlast & Hlen & Hch & Hf & Hnv)
         (Hs & (cur' & Hf' & Hd) & (m & Hm)).
  rewrite Hf in Hf'. injection Hf' as <-.
  rewrite (put_change today user e b db cur m Hs Hf Hd Hm). cbn [snd].
  exists (closed ++ [terminer today m user last]),
         (nouvelle_affectation today user e b m (placement cur)),
         (apply_clauses (clauses_of b) cur).
  unfold history, find_employee. cbn [employee_affectations employees].
  split; [ | split; [ | split; [ | split; [ | split; [ | split]]]]].
  - rewrite filter_app, history_update_latest by reflexivity.
    fold (history db e). rewrite Hh.
    rewrite (update_latest_open_only e _ closed last []) by auto.
    cbn [filter nouvelle_affectation employee_id]. rewrite Z.eqb_refl.
    reflexivity.
  - rewrite existsb_app, Hcl. cbn [existsb orb].
    rewrite open_of_terminer. reflexivity.
  - rewrite open_of_nouvelle. apply Z.eqb_refl.
  - rewrite length_app, Hlen. simpl. lia.
  - rewrite <- app_assoc. cbn [app]. apply chain_snoc.
    + apply chain_replace_last with last; [exact Hch | ].
      intros a [H1 H2]. split; [exact H1 | exact H2].
    + split; [cbn; now rewrite Hnv | reflexivity].
  - rewrite find_update_where by (intros r; now rewrite apply_clauses_id).
    fold (find_employee db e). rewrite Hf. cbn [option_map].
    apply find_some in Hf. destruct Hf as [_ ->]. reflexivity.
  - cbn [nouvelle_affectation nouveau].
    symmetry. apply apply_clauses_placement.
Qed.

Lemma changes_tracked e db n db' m :
  tracked db e m -> changes e db n db' -> tracked db' e (n + m).
Proof.
  intros Ht Hc. induction Hc as [|n db1 today user b Hc IH Hp].
  - exact Ht.
  - cbn [Nat.add]. now apply put_tracked.
Qed.

Lemma tracked_history db e n :
  tracked db e n ->
  List.length (history db e) = S n /\ continuous (history db e)
  /\ open_count db e = 1%nat.
Proof.
  intros (closed & last & cur & Hh & Hcl & Hlast & Hlen & Hch & _ & _).
  rewrite Hh. split; [rewrite length_app, Hlen; simpl; lia | ].
  split; [now apply chain_continuous | ].
  unfold open_count.
  assert (E : filter (open_of e) (employee_affectations db)
              = filter (open_of e) (history db e)).
  { unfold history. generalize (employee_affectations db) as l.
    induction l as [|a l IH]; simpl; [reflexivity | ].
    destruct (employee_id a =? e)%Z eqn:Ea; simpl.
    - destruct (open_of e a); [f_equal | ]; exact IH.
    - assert (Ho : open_of e a = false) by (unfold open_of; now rewrite Ea).
      rewrite Ho. exact IH. }
  rewrite E, Hh, filter_app, (existsb_false_filter _ _ Hcl).
  simpl. rewrite Hlast. reflexivity.
Qed.

End Histories.

(** ** The open record of an employee *)

(** C3, as the code has it.  Starting with nobody hired and whatever
    hirings, updates and archivings are served, every employee has at
    most one open affectation record at all times, and exactly one as
    long as no archiving of that employee has been answered with 200.  A
    hiring gives the newcomer one open record.  An accepted placement
    change of an employee with one open record closes that record, its
    date_fin being the day before, and appends exactly one new open
    record, every other record staying as it is and in place, so the
    count stays at one.  An archiving answered with 200 closes the open
    record and opens none, so the count is then zero; an archiving
    answered otherwise changes nothing. *)
Theorem open_record_count :
  (forall db0 rs e,
     employees db0 = [] -> employee_affectations db0 = [] ->
     (open_count (serve db0 rs) e <= 1)%nat
     /\ (known (serve db0 rs) e ->
         archived e db0 rs = false ->
         open_count (serve db0 rs) e = 1%nat))
  /\ (forall today user body db e,
        foreign_keys db ->
        fst (Employee.post today user body db) = (201%nat, EmployeeId e) ->
        open_count db e = 0%nat
        /\ open_count (snd (Employee.post today user body db)) e = 1%nat)
  /\ (forall today user e b db,
        foreign_keys db -> placement_change db e b ->
        open_count db e = 1%nat ->
        let db' := snd (Employee.put today user e b db) in
        open_count db' e = 1%nat
        /\ exists l1 ouverte l2 fermee nouvelle,
             employee_affectations db = l1 ++ ouverte :: l2
             /\ employee_affectations db'
                = l1 ++ fermee :: l2 ++ [nouvelle]
             /\ open_of e ouverte = true
             /\ existsb (open_of e) (l1 ++ l2) = false
             /\ employee_id fermee = e
             /\ date_debut fermee = date_debut ouverte
             /\ date_fin fermee = Some (today - 1)%Z
             /\ employee_id nouvelle = e
             /\ date_debut nouvelle = today
             /\ date_fin nouvelle = None)
  /\ (forall found_rows today user e db,
        foreign_keys db ->
        open_count (snd (Employee.delete found_rows today user e db)) e
        = if Nat.eqb (status (fst (Employee.delete found_rows today user e db)))
                     200
          then 0%nat else open_count db e)
  /\ (forall found_rows today user e db,
        status (fst (Employee.delete found_rows today user e db)) <> 200%nat ->
        snd (Employee.delete found_rows today user e db) = db).
Proof.
  split; [ | split; [ | split; [ | split]]].
  - intros db0 rs e He Ha.
    destruct (nobody_hired db0 He Ha) as (Hfk & H0 & Hn).
    assert (Hle : forall e', (open_count db0 e' <= 1)%nat)
      by (intros e'; rewrite H0; lia).
    split.
    + now apply serve_at_most_one.
    + intros Hk Hrs. apply serve_one_unless_archived; auto.
      intros Hk0. now apply Hn in Hk0.
  - intros today user body db e Hfk Hp.
    destruct (post_step today user body db Hfk) as (_ & _ & _ & Hnew).
    destruct (post_cases today user body db) as [[_ Hs] | E].
    + rewrite Hp in Hs. simpl in Hs. destruct Hs; discriminate.
    + rewrite E in Hp. cbn [fst] in Hp. injection Hp as <-.
      pose proof (fresh_unknown db) as Hfresh.
      split; [now apply unknown_no_open | ].
      apply Hnew; [ | exact Hfresh].
      rewrite E. unfold known. cbn [snd employees].
      rewrite map_app. apply in_or_app. right. left. reflexivity.
  - intros today user e b db Hfk Hc H1 db'. subst db'.
    split; [now apply (put_step today user e b db Hfk) | ].
    destruct Hc as (Hs & (cur & Hf & Hd) & (m & Hm)).
    rewrite (put_change today user e b db cur m Hs Hf Hd Hm).
    cbn [snd employee_affectations].
    destruct (filter_one (open_of e) (employee_affectations db) H1)
      as (l1 & a & l2 & E & Ha & H1' & H2').
    exists l1, a, l2, (Employee.terminer today m user a),
      (nouvelle_affectation today user e b m (placement cur)).
    split; [exact E | ]. split.
    { rewrite E, (update_latest_open_only e _ l1 a l2 H1' Ha H2').
      rewrite <- app_assoc. reflexivity. }
    split; [exact Ha | ]. split.
    { rewrite existsb_app, H1', H2'. reflexivity. }
    split; [cbn [Employee.terminer employee_id];
            now apply open_of_employee | ].
    repeat split.
  - intros found_rows today user e db Hfk.
    destruct (delete_cases found_rows today user e db) as [-> | E];
      [reflexivity | ].
    rewrite E. cbn [fst snd status Nat.eqb].
    unfold open_count. cbn [employee_affectations].
    rewrite filter_update_where_none; [reflexivity | | auto].
    intros r Hr. split; [exact Hr | apply open_of_archiver].
  - intros found_rows today user e db H.
    destruct (delete_cases found_rows today user e db) as [-> | E];
      [reflexivity | ].
    rewrite E in H. cbn [fst status] in H. contradiction.
Qed.

Lemma open_record_count_witness :
  (open_count
     (serve Demo.db0
        [Archive 90 7 1; Hire 100 7 Demo.embauche;
         Update 130 7 1 Demo.promotion; Update 160 7 1 Demo.mutation]) 1
   <= 1)%nat
  /\ open_count
       (serve Demo.db0
          [Archive 90 7 1; Hire 100 7 Demo.embauche;
           Update 130 7 1 Demo.promotion; Update 160 7 1 Demo.mutation]) 1
     = 1%nat.
Proof.
  destruct (proj1 open_record_count Demo.db0
              [Archive 90 7 1; Hire 100 7 Demo.embauche;
               Update 130 7 1 Demo.promotion; Update 160 7 1 Demo.mutation]
              1%Z eq_refl eq_refl) as [Hle Hone].
  split; [exact Hle | ]. apply Hone; [left | ]; reflexivity.
Defined.

(** After a hiring and an archiving the employee is still in the table
    and has no open affectation record. *)
Lemma open_record_count_zero_after_archive :
  known (serve Demo.db0 [Hire 100 7 Demo.embauche; Archive 200 7 1]) 1
  /\ open_count (serve Demo.db0 [Hire 100 7 Demo.embauche; Archive 200 7 1]) 1
     = 0%nat.
Proof. split; [left; reflexivity | reflexivity]. Qed.

(** C4, as the code has it.  A valid update that changes a placement
    field and gives motif_changement is answered with 200 and, in its one
    transaction: the open affectation record of the employee is closed,
    its date_fin set to the day before the start of the new record and
    its comment replaced by "Affectation terminée suite à: " followed by
    the reason (the previous comment is not kept); a record is appended
    whose old snapshot is the placement before the update and whose new
    snapshot has the supplied value of each supplied field and the old
    value of each absent one; the employee's row takes the new snapshot.
    After a hiring and N such changes the employee has N + 1 records, the
    old snapshot of each being the new snapshot of the one before. *)
Theorem placement_change_recorded :
  (forall today user e b db cur m,
     Employee.employeeUpdateSchema b = true ->
     find_employee db e = Some cur ->
     placement_differs b (placement cur) ->
     UpdateBody.motif_changement b = Some m ->
     let db' := snd (Employee.put today user e b db) in
     let nouvelle := nouvelle_affectation today user e b m (placement cur) in
     let fermee := Employee.terminer today m user in
     fst (Employee.put today user e b db)
     = (200%nat, AffectationChanged e true)
     /\ (forall l1 a l2,
           employee_affectations db = l1 ++ a :: l2 ->
           open_of e a = true ->
           existsb (open_of e) l1 = false ->
           existsb (open_of e) l2 = false ->
           employee_affectations db'
           = l1 ++ fermee a :: l2 ++ [nouvelle])
     /\ (forall a,
           date_fin (fermee a) = Some (date_debut nouvelle - 1)%Z
           /\ commentaire (fermee a)
              = Some ("Affectation terminée suite à: " ++ m)%string
           /\ employee_id (fermee a) = employee_id a
           /\ date_debut (fermee a) = date_debut a
           /\ motif (fermee a) = motif a
           /\ ancien (fermee a) = ancien a
           /\ nouveau (fermee a) = nouveau a)
     /\ employee_id nouvelle = e
     /\ date_debut nouvelle = today
     /\ date_fin nouvelle = None
     /\ motif nouvelle = m
     /\ ancien nouvelle = Some (placement cur)
     /\ nouveau nouvelle = updated_placement b (placement cur)
     /\ (exists cur',
           find_employee db' e = Some cur'
           /\ placement cur' = nouveau nouvelle))
  /\ (forall today user body db0 e n dbn,
        foreign_keys db0 ->
        fst (Employee.post today user body db0) = (201%nat, EmployeeId e) ->
        changes e (snd (Employee.post today user body db0)) n dbn ->
        List.length (history dbn e) = S n /\ continuous (history dbn e)).
Proof.
  split.
  - intros today user e b db cur m Hs Hf Hd Hm db' nouvelle fermee.
    subst db'. rewrite (put_change today user e b db cur m Hs Hf Hd Hm).
    cbn [fst snd employee_affectations].
    split; [reflexivity | ].
    split.
    { intros l1 a l2 -> Ha H1 H2.
      rewrite (update_latest_open_only e _ l1 a l2 H1 Ha H2).
      rewrite <- app_assoc. reflexivity. }
    split; [intros a; repeat split | ].
    repeat (split; [reflexivity | ]).
    exists (apply_clauses (clauses_of b) cur).
    unfold find_employee. cbn [employees].
    rewrite find_update_where by (intros r; now rewrite apply_clauses_id).
    fold (find_employee db e). rewrite Hf. cbn [option_map].
    apply find_some in Hf. destruct Hf as [_ ->].
    split; [reflexivity | apply apply_clauses_placement].
  - intros today user body db0 e n dbn Hfk Hp Hc.
    pose proof (post_tracked today user body db0 e Hfk Hp) as H0.
    pose proof (changes_tracked e _ n dbn 0 H0 Hc) as Hn.
    rewrite Nat.add_0_r in Hn.
    destruct (tracked_history dbn e n Hn) as (Hl & Hk & _).
    auto.
Qed.

Lemma placement_change_recorded_witness :
  List.length
    (history (snd (Employee.put 160 7 1 Demo.mutation Demo.db2)) 1) = 3%nat
  /\ continuous
       (history (snd (Employee.put 160 7 1 Demo.mutation Demo.db2)) 1).
Proof.
  apply (proj2 placement_change_recorded 100%Z 7%Z Demo.embauche Demo.db0
           1%Z 2%nat).
  - intros a [].
  - reflexivity.
  - apply changes_S.
    + apply (changes_S 1 (snd (Employee.post 100 7 Demo.embauche Demo.db0))
               0 _ 130%Z 7%Z Demo.promotion (changes_O _ _)).
      split; [reflexivity | split].
      * eexists. split; [reflexivity | ].
        do 4 right. left. eexists. split; [reflexivity | discriminate].
      * eexists. reflexivity.
    + split; [reflexivity | split].
      * eexists. split; [reflexivity | ].
        do 3 right. left. eexists. split; [reflexivity | discriminate].
      * eexists. reflexivity.
Defined.

(** The record opened by the promotion carries the note "Note RH"; when
    the transfer closes it, its comment is the fixed sentence with the
    reason of the transfer, and the note is gone. *)
Lemma closing_replaces_comment :
  exists ouverte fermee,
    nth_error (employee_affectations Demo.db2) 1 = Some ouverte
    /\ open_of 1 ouverte = true
    /\ commentaire ouverte = Some "Note RH"
    /\ nth_error
         (employee_affectations
            (snd (Employee.put 160 7 1 Demo.mutation Demo.db2))) 1
       = Some fermee
    /\ date_fin fermee = Some 159%Z
    /\ commentaire fermee = Some "Affectation terminée suite à: Mutation"
    /\ ~ (exists reason,
            commentaire fermee = Some ("Note RH" ++ reason)%string).
Proof.
  eexists. eexists.
  split; [reflexivity | ]. split; [reflexivity | ]. split; [reflexivity | ].
  split; [reflexivity | ]. split; [reflexivity | ]. split; [reflexivity | ].
  intros [reason H]. discriminate H.
Qed.

(** ** DELETE /api/employee/:id *)

Section DeleteRoute.

Import Employee.

Variables (today : Date) (user e : Id) (db : Db).

Let concerne := fun r : Employee => (id r =? e)%Z.
Let licencier := assign (SetStatut "Licencié").
Let delier := assign (SetUserId None).

Lemma affectedRows_known found_rows :
  known db e -> found_rows = true ->
  (affectedRows found_rows Employee_eqb_statut concerne licencier
     (employees db) =? 0)%nat = false.
Proof.
  intros Hk ->. unfold known in Hk. apply in_map_iff in Hk.
  destruct Hk as (r & Hid & Hin). unfold affectedRows.
  apply Nat.eqb_neq. intros H0. apply length_zero_iff_nil in H0.
  assert (Hf : In r (filter (fun r => concerne r && (true || negb (Employee_eqb_statut (licencier r) r))) (employees db))).
  { apply filter_In. split; [exact Hin | ].
    unfold concerne. rewrite Hid, Z.eqb_refl. reflexivity. }
  rewrite H0 in Hf. destruct Hf.
Qed.

Lemma affectedRows_not_archived found_rows cur :
  find_employee db e = Some cur -> statut cur <> "Licencié" ->
  (affectedRows found_rows Employee_eqb_statut concerne licencier
     (employees db) =? 0)%nat = false.
Proof.
  intros Hf Hs. apply find_some in Hf. destruct Hf as [Hin Hid].
  unfold affectedRows. apply Nat.eqb_neq. intros H0.
  apply length_zero_iff_nil in H0.
  assert (Hc : In cur (filter (fun r => concerne r && (found_rows || negb (Employee_eqb_statut (licencier r) r))) (employees db))).
  { apply filter_In. split; [exact Hin | ].
    unfold concerne. rewrite Hid. cbn [andb].
    unfold Employee_eqb_statut, licencier. cbn [assign statut].
    destruct (String.eqb_spec "Licencié" (statut cur)) as [E|_];
      [congruence | apply orb_true_r]. }
  rewrite H0 in Hc. destruct Hc.
Qed.

Lemma affectedRows_unknown found_rows :
  ~ known db e ->
  (affectedRows found_rows Employee_eqb_statut concerne licencier
     (employees db) =? 0)%nat = true.
Proof.
  intros Hn. unfold affectedRows. apply Nat.eqb_eq.
  rewrite existsb_false_filter; [reflexivity | ].
  destruct (existsb _ (employees db)) eqn:E; [ | reflexivity].
  apply existsb_exists in E. destruct E as (r & Hin & Hr).
  apply andb_true_iff in Hr. destruct Hr as [Hr _].
  apply Z.eqb_eq in Hr. exfalso. apply Hn. unfold known.
  rewrite <- Hr. now apply in_map.
Qed.

(** Without FOUND_ROWS, rows that are already 'Licencié' do not count. *)
Lemma affectedRows_unchanged :
  (forall r, In r (employees db) -> id r = e -> statut r = "Licencié") ->
  (affectedRows false Employee_eqb_statut concerne licencier
     (employees db) =? 0)%nat = true.
Proof.
  intros H. unfold affectedRows. apply Nat.eqb_eq.
  rewrite existsb_false_filter; [reflexivity | ].
  destruct (existsb _ (employees db)) eqn:E; [ | reflexivity].
  apply existsb_exists in E. destruct E as (r & Hin & Hr).
  apply andb_true_iff in Hr. destruct Hr as [Hc Hr].
  apply Z.eqb_eq in Hc. cbn [orb] in Hr. apply negb_true_iff in Hr.
  unfold Employee_eqb_statut, licencier in Hr. cbn [assign statut] in Hr.
  rewrite (H r Hin Hc) in Hr. rewrite String.eqb_refl in Hr. discriminate.
Qed.

Lemma In_update_where {A} (q : A -> bool) f l r :
  In r (update_where q f l) ->
  exists r0, In r0 l /\ r = if q r0 then f r0 else r0.
Proof.
  unfold update_where. intros H. apply in_map_iff in H.
  destruct H as (r0 & <- & Hin). eauto.
Qed.

(** The rows of [e] after the two UPDATEs of the route. *)
Lemma archived_rows r :
  In r (update_where concerne delier
          (update_where concerne licencier (employees db))) ->
  id r = e -> statut r = "Licencié" /\ user_id r = None.
Proof.
  intros Hin Hid. apply In_update_where in Hin.
  destruct Hin as (r1 & Hin & ->). apply In_update_where in Hin.
  destruct Hin as (r0 & Hin & ->).
  unfold concerne in *.
  destruct (id r0 =? e)%Z eqn:E0.
  - assert (E1 : (id (licencier r0) =? e)%Z = true)
      by (unfold licencier; rewrite assign_id; exact E0).
    rewrite E1. split; reflexivity.
  - rewrite E0 in Hid |- *. apply Z.eqb_neq in E0. contradiction.
Qed.

End DeleteRoute.

Section ArchiveKnown.

Variables (today : Date) (user e : Id) (db : Db).

(** With FOUND_ROWS the archiving of a known employee goes through,
    whatever the status of the employee. *)
Lemma delete_known :
  known db e ->
  Employee.delete true today user e db
  = ((200%nat, EmployeeId e),
     mkDb (sites db) (departments db) (services db) (teams db)
       (update_where (fun r => (id r =? e)%Z)
          (Employee.assign (Employee.SetUserId None))
          (update_where (fun r => (id r =? e)%Z)
             (Employee.assign (Employee.SetStatut "Licencié"))
             (employees db)))
       (update_where (open_of e) (Employee.archiver today user)
          (employee_affectations db))
       (contracts db) (leave_requests db) (leave_validations db)).
Proof.
  intros Hk. unfold Employee.delete.
  rewrite (affectedRows_known e db true Hk eq_refl). reflexivity.
Qed.

(** The three UPDATEs find nothing to change when the employee is
    'Licencié' already, with no user link and no open record. *)
Lemma delete_nothing_to_do :
  open_count db e = 0%nat ->
  (forall r, In r (employees db) -> id r = e ->
             statut r = "Licencié" /\ user_id r = None) ->
  mkDb (sites db) (departments db) (services db) (teams db)
    (update_where (fun r => (id r =? e)%Z)
       (Employee.assign (Employee.SetUserId None))
       (update_where (fun r => (id r =? e)%Z)
          (Employee.assign (Employee.SetStatut "Licencié"))
          (employees db)))
    (update_where (open_of e) (Employee.archiver today user)
       (employee_affectations db))
    (contracts db) (leave_requests db) (leave_validations db)
  = db.
Proof.
  intros H0 Hrows.
  assert (E1 : update_where (fun r => (id r =? e)%Z)
                 (Employee.assign (Employee.SetStatut "Licencié"))
                 (employees db) = employees db).
  { apply update_where_id. intros r Hin Hid. apply Z.eqb_eq in Hid.
    destruct (Hrows r Hin Hid) as [Hs _].
    destruct r; cbn in *. now rewrite Hs. }
  assert (E2 : update_where (fun r => (id r =? e)%Z)
                 (Employee.assign (Employee.SetUserId None))
                 (employees db) = employees db).
  { apply update_where_id. intros r Hin Hid. apply Z.eqb_eq in Hid.
    destruct (Hrows r Hin Hid) as [_ Hu].
    destruct r; cbn in *. now rewrite Hu. }
  assert (E3 : update_where (open_of e) (Employee.archiver today user)
                 (employee_affectations db) = employee_affectations db).
  { apply update_where_id. intros a Hin Ha. exfalso.
    unfold open_count in H0. apply length_zero_iff_nil in H0.
    assert (Hf : In a (filter (open_of e) (employee_affectations db)))
      by (apply filter_In; auto).
    rewrite H0 in Hf. destruct Hf. }
  rewrite E1, E2, E3. destruct db; reflexivity.
Qed.

End ArchiveKnown.

(** C8, as the code has it.  Archiving an existing employee who is not
    yet 'Licencié' is answered with 200 and, in its one transaction,
    closes every open affectation record of the employee with date_fin =
    today, sets the status to 'Licencié' and the user_id link to NULL.
    The first UPDATE has no condition on the status, and mysql2 counts
    the rows it matches: on its connections the archiving of any employee
    of the table, 'Licencié' or not, is answered with 200 and does the
    same, the rows of the other employees staying as they are.  It
    changes nothing exactly when the employee is 'Licencié' already, with
    no user link and no open record, as straight after an archiving; an
    employee who is 'Licencié' with an open record or a user link has the
    record closed and the link removed.  (A repeated archiving would be
    answered with 404 on a connection opened without FOUND_ROWS, where
    unchanged rows do not count.)  The answer is 404 exactly when no row
    of the table has the identifier, and nothing changes then. *)
Theorem archive_employee :
  (forall found_rows today user e db cur,
     find_employee db e = Some cur -> statut cur <> "Licencié" ->
     let out := Employee.delete found_rows today user e db in
     fst out = (200%nat, EmployeeId e)
     /\ open_count (snd out) e = 0%nat
     /\ (forall a, In a (employee_affectations db) -> open_of e a = true ->
           In (Employee.archiver today user a)
              (employee_affectations (snd out))
           /\ date_fin (Employee.archiver today user a) = Some today)
     /\ (forall a, In a (employee_affectations db) -> open_of e a = false ->
           In a (employee_affectations (snd out)))
     /\ (forall r, In r (employees (snd out)) -> id r = e ->
           statut r = "Licencié" /\ user_id r = None)
     /\ known (snd out) e)
  /\ (forall today user e db,
        known db e ->
        let out := Employee.delete true today user e db in
        fst out = (200%nat, EmployeeId e)
        /\ open_count (snd out) e = 0%nat
        /\ (forall a, In a (employee_affectations db) -> open_of e a = true ->
              In (Employee.archiver today user a)
                 (employee_affectations (snd out))
              /\ date_fin (Employee.archiver today user a) = Some today)
        /\ (forall a, In a (employee_affectations db) -> open_of e a = false ->
              In a (employee_affectations (snd out)))
        /\ (forall r, In r (employees (snd out)) -> id r = e ->
              statut r = "Licencié" /\ user_id r = None)
        /\ (forall r, In r (employees db) -> id r <> e ->
              In r (employees (snd out)))
        /\ (snd out = db
            <-> open_count db e = 0%nat
                /\ forall r, In r (employees db) -> id r = e ->
                      statut r = "Licencié" /\ user_id r = None))
  /\ (forall today user today' user' e db,
        known db e ->
        let db' := snd (Employee.delete true today user e db) in
        Employee.delete true today' user' e db'
        = ((200%nat, EmployeeId e), db'))
  /\ (forall today user today' user' e db,
        let db' := snd (Employee.delete false today user e db) in
        Employee.delete false today' user' e db' = ((404%nat, Message), db'))
  /\ (forall found_rows today user e db,
        ~ known db e ->
        Employee.delete found_rows today user e db = ((404%nat, Message), db))
  /\ (forall today user e db,
        status (fst (Employee.delete true today user e db)) = 404%nat
        <-> ~ known db e).
Proof.
  split; [ | split; [ | split; [ | split; [ | split]]]].
  - intros found_rows today user e db cur Hf Hs out. subst out.
    unfold Employee.delete.
    rewrite (affectedRows_not_archived e db found_rows cur Hf Hs).
    cbn [fst snd]. split; [reflexivity | ].
    split.
    { unfold open_count. cbn [employee_affectations].
      rewrite filter_update_where_none; [reflexivity | | auto].
      intros r Hr. split; [exact Hr | apply open_of_archiver]. }
    split.
    { intros a Hin Ha. split; [ | reflexivity].
      cbn [employee_affectations]. unfold update_where.
      apply in_map_iff. exists a. rewrite Ha. auto. }
    split.
    { intros a Hin Ha. cbn [employee_affectations]. unfold update_where.
      apply in_map_iff. exists a. rewrite Ha. auto. }
    split.
    { intros r Hin Hid. cbn [employees] in Hin.
      now apply (archived_rows e db r). }
    unfold known. cbn [employees].
    rewrite !ids_update_where by apply assign_id.
    eapply known_find. exact Hf.
  - intros today user e db Hk out. subst out.
    rewrite (delete_known today user e db Hk). cbn [fst snd].
    assert (Hopen : open_count
                      (mkDb (sites db) (departments db) (services db)
                         (teams db)
                         (update_where (fun r => (id r =? e)%Z)
                            (Employee.assign (Employee.SetUserId None))
                            (update_where (fun r => (id r =? e)%Z)
                               (Employee.assign (Employee.SetStatut "Licencié"))
                               (employees db)))
                         (update_where (open_of e)
                            (Employee.archiver today user)
                            (employee_affectations db))
                         (contracts db) (leave_requests db)
                         (leave_validations db)) e = 0%nat).
    { unfold open_count. cbn [employee_affectations].
      rewrite filter_update_where_none; [reflexivity | | auto].
      intros r Hr. split; [exact Hr | apply open_of_archiver]. }
    split; [reflexivity | ]. split; [exact Hopen | ].
    split.
    { intros a Hin Ha. split; [ | reflexivity].
      cbn [employee_affectations]. unfold update_where.
      apply in_map_iff. exists a. rewrite Ha. auto. }
    split.
    { intros a Hin Ha. cbn [employee_affectations]. unfold update_where.
      apply in_map_iff. exists a. rewrite Ha. auto. }
    split.
    { intros r Hin Hid. cbn [employees] in Hin.
      now apply (archived_rows e db r). }
    split.
    { intros r Hin Hid. cbn [employees]. unfold update_where.
      apply in_map_iff. exists r.
      assert (E0 : (id r =? e)%Z = false) by now apply Z.eqb_neq.
      split; [ | apply in_map_iff; exists r; rewrite E0; auto].
      rewrite E0. reflexivity. }
    split.
    + intros E. split.
      * rewrite <- E. exact Hopen.
      * intros r Hin Hid. apply (archived_rows e db r); [ | exact Hid].
        rewrite <- E in Hin. exact Hin.
    + intros [H0 Hrows]. now apply delete_nothing_to_do.
  - intros today user today' user' e db Hk db'. subst db'.
    assert (E0 : Employee.delete true today user e db
                 = ((200%nat, EmployeeId e),
                    mkDb (sites db) (departments db) (services db) (teams db)
                      (update_where (fun r => (id r =? e)%Z)
                         (Employee.assign (Employee.SetUserId None))
                         (update_where (fun r => (id r =? e)%Z)
                            (Employee.assign (Employee.SetStatut "Licencié"))
                            (employees db)))
                      (update_where (open_of e) (Employee.archiver today user)
                         (employee_affectations db))
                      (contracts db) (leave_requests db)
                      (leave_validations db))).
    { unfold Employee.delete.
      rewrite (affectedRows_known e db true Hk eq_refl). reflexivity. }
    rewrite E0. cbn [snd].
    set (db' := mkDb _ _ _ _ _ _ _ _ _).
    assert (Hk' : known db' e).
    { unfold known, db'. cbn [employees].
      rewrite !ids_update_where by apply assign_id. exact Hk. }
    unfold Employee.delete.
    rewrite (affectedRows_known e db' true Hk' eq_refl).
    f_equal.
    assert (Hrows : forall r, In r (employees db') ->
                    (id r =? e)%Z = true ->
                    statut r = "Licencié" /\ user_id r = None).
    { intros r Hin Hid. apply Z.eqb_eq in Hid.
      now apply (archived_rows e db r). }
    assert (E1 : update_where (fun r => (id r =? e)%Z)
                   (Employee.assign (Employee.SetStatut "Licencié"))
                   (employees db') = employees db').
    { apply update_where_id. intros r Hin Hid.
      destruct (Hrows r Hin Hid) as [Hs _].
      destruct r; cbn in *. now rewrite Hs. }
    assert (E2 : update_where (fun r => (id r =? e)%Z)
                   (Employee.assign (Employee.SetUserId None))
                   (employees db') = employees db').
    { apply update_where_id. intros r Hin Hid.
      destruct (Hrows r Hin Hid) as [_ Hu].
      destruct r; cbn in *. now rewrite Hu. }
    assert (E3 : update_where (open_of e) (Employee.archiver today' user')
                   (employee_affectations db') = employee_affectations db').
    { apply update_where_id. intros a Hin Ha. exfalso.
      unfold db' in Hin. cbn [employee_affectations] in Hin.
      apply In_update_where in Hin. destruct Hin as (a0 & _ & ->).
      destruct (open_of e a0) eqn:E0'; [ | congruence].
      rewrite open_of_archiver in Ha. discriminate. }
    rewrite E1, E2, E3. reflexivity.
  - intros today user today' user' e db db'. subst db'.
    destruct (Employee.affectedRows false Employee.Employee_eqb_statut
                (fun r => (id r =? e)%Z)
                (Employee.assign (Employee.SetStatut "Licencié"))
                (employees db) =? 0)%nat eqn:E.
    + assert (E0 : Employee.delete false today user e db
                   = ((404%nat, Message), db))
        by (unfold Employee.delete; rewrite E; reflexivity).
      rewrite E0. cbn [snd]. unfold Employee.delete. rewrite E. reflexivity.
    + assert (E0 : exists D,
                 Employee.delete false today user e db
                 = ((200%nat, EmployeeId e), D)
                 /\ employees D
                    = update_where (fun r => (id r =? e)%Z)
                        (Employee.assign (Employee.SetUserId None))
                        (update_where (fun r => (id r =? e)%Z)
                           (Employee.assign (Employee.SetStatut "Licencié"))
                           (employees db)))
        by (unfold Employee.delete; rewrite E; eexists; split; reflexivity).
      destruct E0 as (D & -> & ED). cbn [snd]. unfold Employee.delete.
      rewrite affectedRows_unchanged; [reflexivity | ].
      rewrite ED. intros r Hin Hid. now apply (archived_rows e db r).
  - intros found_rows today user e db Hn. unfold Employee.delete.
    rewrite (affectedRows_unknown e db found_rows Hn). reflexivity.
  - intros today user e db. split.
    + intros H404 Hk. rewrite (delete_known today user e db Hk) in H404.
      discriminate H404.
    + intros Hn. unfold Employee.delete.
      rewrite (affectedRows_unknown e db true Hn). reflexivity.
Qed.

Lemma archive_employee_witness :
  let out := Employee.delete Employee.mysql2_FOUND_ROWS 200 7 1 Demo.db2 in
  fst out = (200%nat, EmployeeId 1)
  /\ open_count (snd out) 1 = 0%nat
  /\ (forall a, In a (employee_affectations Demo.db2) -> open_of 1 a = true ->
        In (Employee.archiver 200 7 a) (employee_affectations (snd out))
        /\ date_fin (Employee.archiver 200 7 a) = Some 200%Z)
  /\ (forall a, In a (employee_affectations Demo.db2) -> open_of 1 a = false ->
        In a (employee_affectations (snd out)))
  /\ (forall r, In r (employees (snd out)) -> id r = 1%Z ->
        statut r = "Licencié" /\ user_id r = None)
  /\ known (snd out) 1.
Proof.
  apply (proj1 archive_employee Employee.mysql2_FOUND_ROWS 200%Z 7%Z 1%Z
           Demo.db2
           (mkEmployee 1 "SG-001" "Diop" "Awa"
              (mkPlacement 1 1 1 1 "Chef de piste" "Exploitation")
              "Actif" (Some 12%Z) None)).
  - reflexivity.
  - discriminate.
Defined.

(** Archiving the same employee a second time: the employee is already
    'Licencié', the reply is 200 again, not 404, and the tables do not
    change. *)
Lemma repeated_archive_is_accepted :
  let db' := snd (Employee.delete Employee.mysql2_FOUND_ROWS 200 7 1 Demo.db2) in
  (exists r, find_employee db' 1 = Some r /\ statut r = "Licencié")
  /\ status (fst (Employee.delete Employee.mysql2_FOUND_ROWS 201 7 1 db'))
     = 200%nat
  /\ status (fst (Employee.delete Employee.mysql2_FOUND_ROWS 201 7 1 db'))
     <> 404%nat
  /\ snd (Employee.delete Employee.mysql2_FOUND_ROWS 201 7 1 db') = db'.
Proof.
  cbv zeta. split; [eexists; split; reflexivity | ].
  split; [reflexivity | ]. split; [discriminate | reflexivity].
Qed.

(** An archived employee whose history an update has opened again: the
    archiving is answered with 200 once more and closes the record. *)
Lemma archive_after_reopening :
  let db' := snd (Employee.delete Employee.mysql2_FOUND_ROWS 200 7 1 Demo.db2) in
  let db'' := snd (Employee.put 210 7 1 Demo.mutation db') in
  (exists r, find_employee db'' 1 = Some r /\ statut r = "Licencié")
  /\ open_count db'' 1 = 1%nat
  /\ status (fst (Employee.delete Employee.mysql2_FOUND_ROWS 220 7 1 db''))
     = 200%nat
  /\ open_count
       (snd (Employee.delete Employee.mysql2_FOUND_ROWS 220 7 1 db'')) 1
     = 0%nat.
Proof.
  cbv zeta. split; [eexists; split; reflexivity | ].
  split; [reflexivity | ]. split; reflexivity.
Qed.

(** ** POST /api/hr/contracts *)

Section ContractRoute.

Lemma mem_string_In s l : Employee.mem_string s l = true <-> In s l.
Proof.
  unfold Employee.mem_string. rewrite existsb_exists. split.
  - intros (x & Hin & E). apply String.eqb_eq in E. now subst.
  - intros Hin. exists s. split; [exact Hin | apply String.eqb_refl].
Qed.

Lemma activeContracts_In db e c :
  In c (HR.activeContracts db e)
  <-> In c (contracts db) /\ c_employee_id c = e
      /\ c_statut c = "Actif" /\ c_is_avenant c = false.
Proof.
  unfold HR.activeContracts. rewrite filter_In.
  rewrite !andb_true_iff, Z.eqb_eq, String.eqb_eq, negb_true_iff. tauto.
Qed.

Lemma length_zero_eqb {A} (l : list A) :
  (List.length l =? 0)%nat = true <-> l = [].
Proof. rewrite Nat.eqb_eq. apply length_zero_iff_nil. Qed.

End ContractRoute.

(** C7, as the code has it.  A contract creation request that passes the
    schema, for an employee whose status is 'Actif': when it is not an
    amendment and the employee already has an active non-amendment
    contract, it is answered with 409 and nothing is inserted; when it is
    not an amendment and there is no such contract, the contract is
    inserted and its position_id is written on the rows of the employee;
    when it is an amendment, the contract is inserted whatever contracts
    exist and the employee table is not touched. *)
Theorem contract_creation :
  (forall value db c,
     HR.contractSchema value = true ->
     HR.employe_actif db (ContractBody.employee_id value) = true ->
     ContractBody.is_avenant value = false ->
     In c (contracts db) ->
     c_employee_id c = ContractBody.employee_id value ->
     c_statut c = "Actif" -> c_is_avenant c = false ->
     HR.post_contracts value db = ((409%nat, Message), db))
  /\ (forall value db,
        HR.contractSchema value = true ->
        HR.employe_actif db (ContractBody.employee_id value) = true ->
        ContractBody.is_avenant value = false ->
        (forall c, In c (contracts db) ->
                   c_employee_id c = ContractBody.employee_id value ->
                   c_statut c = "Actif" -> c_is_avenant c = true) ->
        let out := HR.post_contracts value db in
        fst out = (201%nat, ContractId (insertId c_id (contracts db)))
        /\ (exists row,
              contracts (snd out) = contracts db ++ [row]
              /\ c_id row = insertId c_id (contracts db)
              /\ c_employee_id row = ContractBody.employee_id value
              /\ c_position_id row = ContractBody.position_id value
              /\ c_is_avenant row = false)
        /\ (forall r, In r (employees (snd out)) ->
                      id r = ContractBody.employee_id value ->
                      position_id r = Some (ContractBody.position_id value))
        /\ (forall r, In r (employees db) ->
                      id r <> ContractBody.employee_id value ->
                      In r (employees (snd out))))
  /\ (forall value db,
        HR.contractSchema value = true ->
        HR.employe_actif db (ContractBody.employee_id value) = true ->
        ContractBody.is_avenant value = true ->
        let out := HR.post_contracts value db in
        fst out = (201%nat, ContractId (insertId c_id (contracts db)))
        /\ (exists row,
              contracts (snd out) = contracts db ++ [row]
              /\ c_employee_id row = ContractBody.employee_id value
              /\ c_is_avenant row = true)
        /\ employees (snd out) = employees db).
Proof.
  split; [ | split].
  - intros value db c Hs Ha Hav Hin He Hst Hc.
    unfold HR.post_contracts. rewrite Hs, Ha, Hav. cbn [negb andb].
    destruct (List.length _ =? 0)%nat eqn:E; [ | reflexivity].
    apply length_zero_eqb in E.
    assert (Hc' : In c (HR.activeContracts db (ContractBody.employee_id value)))
      by (apply activeContracts_In; auto).
    rewrite E in Hc'. destruct Hc'.
  - intros value db Hs Ha Hav Hnone out. subst out.
    unfold HR.post_contracts. rewrite Hs, Ha, Hav. cbn [negb andb].
    assert (E : HR.activeContracts db (ContractBody.employee_id value) = []).
    { destruct (HR.activeContracts db _) as [|c l] eqn:E; [reflexivity | ].
      assert (Hc : In c (HR.activeContracts db (ContractBody.employee_id value)))
        by (rewrite E; left; reflexivity).
      apply activeContracts_In in Hc. destruct Hc as (H1 & H2 & H3 & H4).
      rewrite (Hnone c H1 H2 H3) in H4. discriminate. }
    rewrite E. cbn [List.length Nat.eqb negb fst snd contracts employees].
    split; [reflexivity | ].
    split; [eexists; repeat split | ].
    split.
    + intros r Hin Hid. apply In_update_where in Hin.
      destruct Hin as (r0 & _ & ->).
      destruct (Z.eqb_spec (id r0) (ContractBody.employee_id value));
        [reflexivity | contradiction].
    + intros r Hin Hid. unfold update_where. apply in_map_iff.
      exists r. split; [ | exact Hin].
      destruct (Z.eqb_spec (id r) (ContractBody.employee_id value));
        [contradiction | reflexivity].
  - intros value db Hs Ha Hav out. subst out.
    unfold HR.post_contracts. rewrite Hs, Ha, Hav.
    cbn [negb andb fst snd contracts employees].
    split; [reflexivity | ].
    split; [eexists; repeat split | reflexivity].
Qed.

Lemma contract_creation_witness :
  HR.post_contracts Demo.contrat Demo.db_actif
  = ((409%nat, Message), Demo.db_actif).
Proof.
  apply (proj1 contract_creation Demo.contrat Demo.db_actif
           (mkContract 1 1 "CDI" 100 None 4 (250000 # 1) false None "Actif"));
    first [reflexivity | left; reflexivity].
Defined.

(** An employee on leave keeps an active main contract; a request for a
    second main contract is answered with 404, not 409. *)
Lemma contract_for_inactive_employee :
  (exists c, In c (contracts Demo.db_conge)
             /\ c_employee_id c = ContractBody.employee_id Demo.contrat
             /\ c_statut c = "Actif" /\ c_is_avenant c = false)
  /\ ContractBody.is_avenant Demo.contrat = false
  /\ HR.contractSchema Demo.contrat = true
  /\ status (fst (HR.post_contracts Demo.contrat Demo.db_conge)) = 404%nat
  /\ status (fst (HR.post_contracts Demo.contrat Demo.db_conge)) <> 409%nat.
Proof.
  split.
  - eexists. split; [left; reflexivity | repeat split].
  - repeat split. discriminate.
Qed.

(** ** POST /api/time/leaves *)

Section LeaveRoute.

Variables (now : Date) (value : LeaveBody.t).
Hypothesis Hschema : Leaves.leaveRequestSchema now value = true.

Lemma leave_dates_ordered :
  (LeaveBody.date_debut value <= LeaveBody.date_fin value)%Z.
Proof.
  unfold Leaves.leaveRequestSchema in Hschema.
  repeat (apply andb_true_iff in Hschema; destruct Hschema as [Hschema ?]).
  now apply Z.leb_le.
Qed.

(** The three BETWEEN tests of the query find every request of the
    employee, in a blocking status, whose range shares a day with the
    submitted range: containment either way and partial overlap. *)
Lemma chevauche_overlaps r :
  blocking value r -> overlaps value r -> Leaves.chevauche value r = true.
Proof.
  intros [He Hst] [H1 H2]. unfold Leaves.chevauche, Leaves.between.
  rewrite He, Z.eqb_refl. apply mem_string_In in Hst. rewrite Hst.
  cbn [andb]. rewrite !orb_true_iff, !andb_true_iff, !Z.leb_le.
  pose proof leave_dates_ordered. lia.
Qed.

(** Conversely the query finds nothing else, the dates of the stored
    request being in order. *)
Lemma chevauche_sound r :
  (l_date_debut r <= l_date_fin r)%Z ->
  Leaves.chevauche value r = true -> blocking value r /\ overlaps value r.
Proof.
  intros Hr. unfold Leaves.chevauche, Leaves.between, blocking, overlaps.
  rewrite !andb_true_iff, !orb_true_iff, !andb_true_iff, !Z.leb_le.
  rewrite Z.eqb_eq, mem_string_In.
  pose proof leave_dates_ordered as Hv. intros [[He Hst] H].
  repeat split; auto; lia.
Qed.

End LeaveRoute.

(** C6, as the code has it.  A leave request that passes the schema, from
    an employee whose status is 'Actif': when its range shares a day with
    the range of a request of the same employee in status Soumis, En
    attente or Approuvé (one range inside the other, either way, or a
    partial overlap), it is answered with 409 and nothing is inserted;
    when it shares no day with any such request, the request is inserted
    and exactly one validation step at level "Soumission Employé" with
    decision "En attente" is appended, in the same transaction. *)
Theorem leave_submission :
  (forall now user value db r,
     Leaves.leaveRequestSchema now value = true ->
     HR.employe_actif db (LeaveBody.employee_id value) = true ->
     In r (leave_requests db) ->
     blocking value r -> overlaps value r ->
     Leaves.post_leaves now user value db = ((409%nat, Message), db))
  /\ (forall now user value db,
        Leaves.leaveRequestSchema now value = true ->
        HR.employe_actif db (LeaveBody.employee_id value) = true ->
        leaves_ordered db ->
        (forall r, In r (leave_requests db) -> blocking value r ->
                   ~ overlaps value r) ->
        let out := Leaves.post_leaves now user value db in
        let n := insertId l_id (leave_requests db) in
        fst out = (201%nat, RequestId n)
        /\ (exists row,
              leave_requests (snd out) = leave_requests db ++ [row]
              /\ l_id row = n
              /\ l_employee_id row = LeaveBody.employee_id value
              /\ l_date_debut row = LeaveBody.date_debut value
              /\ l_date_fin row = LeaveBody.date_fin value)
        /\ leave_validations (snd out)
           = leave_validations db
             ++ [mkLeaveValidation n user "Soumission Employé" "En attente"
                   "Demande soumise par l'employé."]
        /\ leaves_ordered (snd out)).
Proof.
  split.
  - intros now user value db r Hs Ha Hin Hb Ho.
    unfold Leaves.post_leaves. rewrite Hs, Ha. cbn [negb].
    destruct (List.length _ =? 0)%nat eqn:E; [ | reflexivity].
    apply length_zero_eqb in E.
    assert (Hr : In r (filter (Leaves.chevauche value) (leave_requests db))).
    { apply filter_In. split; [exact Hin | ].
      now apply (chevauche_overlaps now). }
    rewrite E in Hr. destruct Hr.
  - intros now user value db Hs Ha Hord Hfree out n. subst out n.
    unfold Leaves.post_leaves. rewrite Hs, Ha. cbn [negb].
    assert (E : filter (Leaves.chevauche value) (leave_requests db) = []).
    { destruct (filter _ (leave_requests db)) as [|r l] eqn:E;
        [reflexivity | ].
      assert (Hr : In r (filter (Leaves.chevauche value) (leave_requests db)))
        by (rewrite E; left; reflexivity).
      apply filter_In in Hr. destruct Hr as [Hin Hc].
      apply (chevauche_sound now value Hs r (Hord r Hin)) in Hc.
      destruct Hc as [Hb Ho]. now destruct (Hfree r Hin Hb). }
    rewrite E.
    cbn [List.length Nat.eqb negb fst snd leave_requests leave_validations].
    split; [reflexivity | ].
    split; [eexists; repeat split | ].
    split; [reflexivity | ].
    intros r Hin. cbn [leave_requests] in Hin. apply in_app_or in Hin.
    destruct Hin as [Hin | [<- | []]]; [now apply Hord | ].
    cbn [l_date_debut l_date_fin]. apply (leave_dates_ordered now value Hs).
Qed.

Lemma leave_submission_witness :
  Leaves.post_leaves 200 1 Demo.conge Demo.db_actif
  = ((409%nat, Message), Demo.db_actif).
Proof.
  apply (proj1 leave_submission 200%Z 1%Z Demo.conge Demo.db_actif
           (mkLeaveRequest 1 1 "Annuel" 300 310 (11 # 1) None "Approuvé")).
  - reflexivity.
  - reflexivity.
  - left. reflexivity.
  - split; [reflexivity | right; right; left; reflexivity].
  - split; simpl; lia.
Defined.

(** The employee is on leave (status 'Congé') with an approved request
    from day 300 to day 310; a submission for days 305 to 320 overlaps it
    and is answered with 404, not 409. *)
Lemma leave_of_inactive_employee :
  (exists r, In r (leave_requests Demo.db_conge)
             /\ blocking Demo.conge r /\ overlaps Demo.conge r)
  /\ Leaves.leaveRequestSchema 200 Demo.conge = true
  /\ status (fst (Leaves.post_leaves 200 1 Demo.conge Demo.db_conge))
     = 404%nat
  /\ status (fst (Leaves.post_leaves 200 1 Demo.conge Demo.db_conge))
     <> 409%nat.
Proof.
  split.
  - eexists. split; [left; reflexivity | ].
    split; [split; [reflexivity | right; right; left; reflexivity] | ].
    split; simpl; lia.
  - repeat split. discriminate.
Qed.

(* ================================================================== *)
(** * Part III.  Further properties of the routes                     *)
(* ================================================================== *)

(** ** The hours engine in quarters *)

Section HoursInQuarters.

Lemma Qmin_quarter a b : Qmin (quarter a) (quarter b) == quarter (Z.min a b).
Proof.
  destruct (Z.le_ge_cases a b) as [H | H].
  - rewrite Z.min_l by exact H. apply Q.min_l. now apply quarter_le.
  - rewrite Z.min_r by exact H. apply Q.min_r. now apply quarter_le.
Qed.

Lemma Qmax_quarter a b : Qmax (quarter a) (quarter b) == quarter (Z.max a b).
Proof.
  destruct (Z.le_ge_cases a b) as [H | H].
  - rewrite Z.max_r by exact H. apply Q.max_r. now apply quarter_le.
  - rewrite Z.max_l by exact H. apply Q.max_l. now apply quarter_le.
Qed.

Lemma quarter_plus a b : quarter a + quarter b == quarter (a + b).
Proof.
  rewrite !quarter_frac. unfold Qeq, Qplus. cbn [Qnum Qden].
  rewrite ?Pos2Z.inj_mul. lia.
Qed.

Lemma quarter_minus a b : quarter a - quarter b == quarter (a - b).
Proof.
  rewrite !quarter_frac. unfold Qminus, Qeq, Qplus, Qopp. cbn [Qnum Qden].
  rewrite ?Pos2Z.inj_mul. lia.
Qed.

Lemma quarter_lt a b : (a < b)%Z -> quarter a < quarter b.
Proof.
  intros H. rewrite !quarter_frac. unfold Qlt. cbn [Qnum Qden]. lia.
Qed.

Lemma quarters_ceiling entree sortie :
  Qceiling (rawHours entree sortie * 4) = quarters entree sortie.
Proof.
  unfold quarters, Qceiling. f_equal.
  rewrite (Qfloor_comp (- (rawHours entree sortie * 4))
             ((entree - sortie) # 15)).
  - reflexivity.
  - unfold rawHours, Qdiv, Qmult, Qinv, Qopp, Qeq, inject_Z. simpl. lia.
Qed.

Lemma quarters_bounds entree sortie :
  (15 * (quarters entree sortie - 1) < sortie - entree
   <= 15 * quarters entree sortie)%Z.
Proof.
  unfold quarters.
  pose proof (Z.div_mod (entree - sortie) 15 ltac:(lia)) as Hd.
  pose proof (Z.mod_pos_bound (entree - sortie) 15 ltac:(lia)) as Hm.
  lia.
Qed.


Variables (heure_entree heure_sortie : string) (entree sortie : Z).
Hypothesis Hentree : timeToMinutes heure_entree = Some entree.
Hypothesis Hsortie : timeToMinutes heure_sortie = Some sortie.

(** The fields of an ordinary day, counted in quarters. *)
Lemma ordinary_in_quarters mf :
  let k := quarters entree sortie in
  exists r,
    calculateHours heure_entree heure_sortie false false mf = Some r
    /\ totalHours r == quarter k
    /\ heures_normales r == quarter (Z.min k 32)
    /\ heures_sup_15 r == quarter (Z.min (Z.max 0 (k - 32)) 8)
    /\ heures_sup_40 r == quarter (Z.max 0 (Z.max 0 (k - 32) - 8))
    /\ heures_supplementaires r
       == quarter (Z.min (Z.max 0 (k - 32)) 8
                   + Z.max 0 (Z.max 0 (k - 32) - 8))
    /\ panierRepas r = (40 <=? k)%Z.
Proof.
  intros k.
  rewrite (calculateHours_ordinary _ _ _ _ Hentree Hsortie).
  eexists. split; [reflexivity | ].
  cbn [totalHours heures_normales heures_sup_15 heures_sup_40
       heures_supplementaires panierRepas].
  assert (Et : Math_ceil (rawHours entree sortie * 4) / 4 == quarter k).
  { unfold Math_ceil. rewrite quarters_ceiling. reflexivity. }
  assert (E8 : 8 == quarter 32) by apply (quarter_of_Z 8).
  assert (E2 : 2 == quarter 8) by apply (quarter_of_Z 2).
  assert (E0 : 0 == quarter 0) by apply (quarter_of_Z 0).
  unfold Math_min, Math_max.
  assert (En : Qmin (Math_ceil (rawHours entree sortie * 4) / 4) 8
               == quarter (Z.min k 32))
    by (rewrite Et, E8; apply Qmin_quarter).
  assert (Eo : Qmax 0 (Math_ceil (rawHours entree sortie * 4) / 4 - 8)
               == quarter (Z.max 0 (k - 32)))
    by (rewrite Et, E8, E0, quarter_minus; apply Qmax_quarter).
  assert (E15 : Qmin (Qmax 0 (Math_ceil (rawHours entree sortie * 4) / 4 - 8)) 2
                == quarter (Z.min (Z.max 0 (k - 32)) 8))
    by (rewrite Eo, E2; apply Qmin_quarter).
  assert (E40 : Qmax 0 (Qmax 0 (Math_ceil (rawHours entree sortie * 4) / 4 - 8) - 2)
                == quarter (Z.max 0 (Z.max 0 (k - 32) - 8)))
    by (rewrite Eo, E2, E0, quarter_minus; apply Qmax_quarter).
  split; [exact Et | ].
  split; [rewrite En; apply toFixed2_quarter | ].
  split; [rewrite E15; apply toFixed2_quarter | ].
  split; [rewrite E40; apply toFixed2_quarter | ].
  split; [rewrite E15, E40, quarter_plus; apply toFixed2_quarter | ].
  apply eq_true_iff_eq. rewrite Qle_bool_iff, Z.leb_le, Et.
  assert (E10 : 10 == quarter 40) by apply (quarter_of_Z 10).
  rewrite E10. split; [apply quarter_le_inv | apply quarter_le].
Qed.

End HoursInQuarters.


(** X1.  Every hour is accounted for once: for any two times that the
    check-in and check-out schemas accept (also when the exit is not
    after the entry), on each of the four branches heures_normales +
    heures_supplementaires = totalHours, and on an ordinary day
    heures_normales + heures_sup_15 + heures_sup_40 = totalHours. *)
Theorem calculateHours_hours_add_up :
  forall heure_entree heure_sortie hol sun mf,
    is_HHMM heure_entree = true ->
    is_HHMM heure_sortie = true ->
    exists r,
      calculateHours heure_entree heure_sortie hol sun mf = Some r
      /\ heures_normales r + heures_supplementaires r == totalHours r
      /\ (hol = false -> sun = false ->
          heures_normales r + heures_sup_15 r + heures_sup_40 r
          == totalHours r).
Proof.
  intros he hs hol sun mf Vhe Vhs.
  destruct (timeToMinutes_HHMM _ Vhe) as (e & He & _).
  destruct (timeToMinutes_HHMM _ Vhs) as (s & Hs & _).
  destruct (hol || sun) eqn:Hd.
  - rewrite (calculateHours_special _ _ _ _ He Hs _ _ _ Hd).
    eexists. split; [reflexivity | ].
    cbn [totalHours heures_normales heures_supplementaires].
    split.
    + rewrite (toFixed2_Z 0), (toFixed2_exact _ (is_quarter_ceil _)).
      apply Qplus_0_l.
    + intros -> ->. discriminate Hd.
  - apply orb_false_iff in Hd. destruct Hd as [-> ->].
    destruct (ordinary_in_quarters _ _ _ _ He Hs mf)
      as (r & E & Et & En & E15 & E40 & Es & _).
    exists r. split; [exact E | ].
    split; [ | intros _ _]; rewrite Et, En, ?E15, ?E40, ?Es, !quarter_plus;
      match goal with
      | |- quarter ?a == quarter ?b =>
          replace a with b by lia; reflexivity
      end.
Qed.

Lemma calculateHours_hours_add_up_witness :
  exists r,
    calculateHours "07:40" "19:05" false false 60 = Some r
    /\ heures_normales r + heures_supplementaires r == totalHours r
    /\ (false = false -> false = false ->
        heures_normales r + heures_sup_15 r + heures_sup_40 r
        == totalHours r).
Proof.
  apply (calculateHours_hours_add_up "07:40" "19:05" false false 60);
    reflexivity.
Defined.

(** X2.  For two times accepted by the schemas with the exit later than
    the entry, totalHours lies between a quarter of an hour and 24 hours;
    on an ordinary day heures_normales lies between 0.25 and 8,
    heures_sup_15 between 0 and 2 and heures_sup_40 between 0 and 14. *)
Theorem calculateHours_bounds :
  forall heure_entree heure_sortie entree sortie hol sun mf,
    is_HHMM heure_entree = true -> is_HHMM heure_sortie = true ->
    timeToMinutes heure_entree = Some entree ->
    timeToMinutes heure_sortie = Some sortie ->
    (entree < sortie)%Z ->
    exists r,
      calculateHours heure_entree heure_sortie hol sun mf = Some r
      /\ (1 # 4) <= totalHours r /\ totalHours r <= 24
      /\ (hol = false -> sun = false ->
          (1 # 4) <= heures_normales r /\ heures_normales r <= 8
          /\ 0 <= heures_sup_15 r /\ heures_sup_15 r <= 2
          /\ 0 <= heures_sup_40 r /\ heures_sup_40 r <= 14).
Proof.
  intros he hs e s hol sun mf Vhe Vhs He Hs Hlt.
  destruct (timeToMinutes_HHMM _ Vhe) as (e' & He' & Be).
  destruct (timeToMinutes_HHMM _ Vhs) as (s' & Hs' & Bs).
  rewrite He in He'. injection He' as <-.
  rewrite Hs in Hs'. injection Hs' as <-.
  pose proof (quarters_bounds e s) as Hq.
  assert (Hk : (1 <= quarters e s <= 96)%Z) by lia.
  destruct (calculateHours_total _ _ _ _ He Hs hol sun mf)
    as (r & E & Et & _).
  exists r. split; [exact E | ].
  assert (Et' : totalHours r == quarter (quarters e s)).
  { rewrite Et. unfold Math_ceil. rewrite quarters_ceiling. reflexivity. }
  assert (Q1 : (1 # 4) == quarter 1) by (rewrite quarter_frac; reflexivity).
  split; [rewrite Et', Q1; apply quarter_le; lia | ].
  split; [rewrite Et', (quarter_of_Z 24); apply quarter_le; lia | ].
  intros -> ->.
  destruct (ordinary_in_quarters _ _ _ _ He Hs mf)
    as (r' & E' & _ & En & E15 & E40 & _).
  rewrite E in E'. injection E' as <-.
  rewrite En, E15, E40, Q1.
  rewrite (quarter_of_Z 8), (quarter_of_Z 2), (quarter_of_Z 0),
    (quarter_of_Z 14).
  repeat split; apply quarter_le; lia.
Qed.

Lemma calculateHours_bounds_witness :
  exists r,
    calculateHours "00:00" "23:59" false false 60 = Some r
    /\ (1 # 4) <= totalHours r /\ totalHours r <= 24
    /\ (false = false -> false = false ->
        (1 # 4) <= heures_normales r /\ heures_normales r <= 8
        /\ 0 <= heures_sup_15 r /\ heures_sup_15 r <= 2
        /\ 0 <= heures_sup_40 r /\ heures_sup_40 r <= 14).
Proof.
  apply (calculateHours_bounds "00:00" "23:59" 0%Z 1439%Z false false 60);
    [reflexivity | reflexivity | reflexivity | reflexivity | lia].
Defined.





(** ** Reading clock times *)

Section ReadingTimes.

Lemma split_nonempty sep s : JS.split sep s <> [].
Proof.
  destruct s as [|c s]; simpl; [discriminate | ].
  destruct (Ascii.eqb c sep); [discriminate | ].
  destruct (JS.split sep s); discriminate.
Qed.

(** Splitting what is left and right of a separator. *)
Lemma split_app_sep sep s r :
  JS.split sep (s ++ String sep r)%string = JS.split sep s ++ JS.split sep r.
Proof.
  induction s as [|c s IH]; simpl.
  - rewrite Ascii.eqb_refl. reflexivity.
  - destruct (Ascii.eqb c sep); [rewrite IH; reflexivity | ].
    rewrite IH. pose proof (split_nonempty sep s) as Hn.
    destruct (JS.split sep s) as [|w ws]; [contradiction | reflexivity].
Qed.

End ReadingTimes.



(** X6.  Whatever follows a second colon is ignored: a time read back
    with seconds, as a TIME column gives it ("08:30:00"), has the minute
    count of its HH:MM part. *)
Theorem timeToMinutes_ignores_seconds :
  forall time rest,
    is_HHMM time = true ->
    timeToMinutes (time ++ String ":" rest)%string = timeToMinutes time.
Proof.
  intros time rest. unfold is_HHMM, timeToMinutes.
  rewrite split_app_sep.
  destruct (JS.split ":" time) as [|h [|m [|x l]]]; try discriminate.
  intros _. cbn [app map]. reflexivity.
Qed.

Lemma timeToMinutes_ignores_seconds_witness :
  timeToMinutes ("08:30" ++ String ":" "00")%string = timeToMinutes "08:30".
Proof. apply (timeToMinutes_ignores_seconds "08:30" "00"). reflexivity. Defined.

(** ** The employee table and the history under any request *)

Section EmployeeRows.

Lemma handle_ids r db :
  map id (employees (snd (handle r db))) = map id (employees db)
  \/ map id (employees (snd (handle r db)))
     = map id (employees db) ++ [insertId id (employees db)].
Proof.
  destruct r as [today user body | today user e b | today user e];
    cbn [handle].
  - destruct (post_cases today user body db) as [[-> _] | ->]; [auto | ].
    right. cbn [snd employees]. rewrite map_app. reflexivity.
  - left.
    destruct (put_cases today user e b db)
      as [-> | (cur & Hs & Hf & [Hd | (Hd & m & Hm)])]; [reflexivity | | ].
    + rewrite (put_no_change today user e b db cur Hs Hf Hd).
      cbn [snd employees]. apply ids_update_where, apply_clauses_id.
    + rewrite (put_change today user e b db cur m Hs Hf Hd Hm).
      cbn [snd employees]. apply ids_update_where, apply_clauses_id.
  - left.
    destruct (delete_cases Employee.mysql2_FOUND_ROWS today user e db)
      as [-> | ->]; [reflexivity | ].
    cbn [snd employees]. rewrite !ids_update_where by apply assign_id.
    reflexivity.
Qed.

Lemma insertId_not_in (l : list Employee) : ~ In (insertId id l) (map id l).
Proof.
  intros H. apply in_map_iff in H. destruct H as (r & E & Hin).
  apply (insertId_fresh id) in Hin. lia.
Qed.

Lemma map_update_first {A B} (g : A -> B) (q : A -> bool) (f : A -> A) l :
  (forall a, g (f a) = g a) -> map g (update_first q f l) = map g l.
Proof.
  intros H. induction l as [|a l IH]; simpl; [reflexivity | ].
  destruct (q a); simpl; [rewrite H | rewrite IH]; reflexivity.
Qed.

Lemma map_update_where {A B} (g : A -> B) (q : A -> bool) (f : A -> A) l :
  (forall a, g (f a) = g a) -> map g (update_where q f l) = map g l.
Proof.
  intros H. unfold update_where. rewrite map_map. apply map_ext.
  intros a. destruct (q a); [apply H | reflexivity].
Qed.

Lemma nth_error_update_first {A} (q : A -> bool) (f : A -> A) l k a :
  nth_error l k = Some a -> q a = false ->
  nth_error (update_first q f l) k = Some a.
Proof.
  revert k. induction l as [|x l IH]; intros k; [destruct k; discriminate | ].
  destruct k as [|k]; simpl.
  - intros [= ->] Hq. rewrite Hq. reflexivity.
  - intros Hk Hq. destruct (q x); simpl; auto.
Qed.

Lemma nth_error_update_where {A} (q : A -> bool) (f : A -> A) l k a :
  nth_error l k = Some a -> q a = false ->
  nth_error (update_where q f l) k = Some a.
Proof.
  intros Hk Hq. unfold update_where.
  rewrite nth_error_map, Hk. cbn. rewrite Hq. reflexivity.
Qed.

Lemma closed_not_open_of e a : is_open a = false -> open_of e a = false.
Proof. intros H. unfold open_of. rewrite H. apply andb_false_r. Qed.

(** The affectation table after a request. *)
Lemma handle_affectations r db :
  exists added,
    map record_of (employee_affectations (snd (handle r db)))
    = map record_of (employee_affectations db) ++ added
    /\ (List.length added <= 1)%nat
    /\ forall k a,
         nth_error (employee_affectations db) k = Some a ->
         is_open a = false ->
         nth_error (employee_affectations (snd (handle r db))) k = Some a.
Proof.
  destruct r as [today user body | today user e b | today user e];
    cbn [handle].
  - destruct (post_cases today user body db) as [[-> _] | ->].
    + exists []. rewrite app_nil_r. repeat split; auto.
    + cbn [snd employee_affectations]. eexists [_].
      rewrite map_app. split; [reflexivity | ]. split; [simpl; lia | ].
      intros k a Hk _. rewrite nth_error_app1; [exact Hk | ].
      apply nth_error_Some. congruence.
  - destruct (put_cases today user e b db)
      as [-> | (cur & Hs & Hf & [Hd | (Hd & m & Hm)])].
    + exists []. rewrite app_nil_r. repeat split; auto.
    + rewrite (put_no_change today user e b db cur Hs Hf Hd).
      cbn [snd employee_affectations].
      exists []. rewrite app_nil_r. repeat split; auto.
    + rewrite (put_change today user e b db cur m Hs Hf Hd Hm).
      cbn [snd employee_affectations]. eexists [_].
      rewrite map_app. unfold Employee.update_latest_open.
      split; [ | split; [simpl; lia | ]].
      * destruct (Employee.latest_open_debut e (employee_affectations db));
          [ | reflexivity].
        rewrite map_update_first by reflexivity. reflexivity.
      * intros k a Hk Ha.
        assert (Hlen : (k < List.length (employee_affectations db))%nat)
          by (apply nth_error_Some; congruence).
        rewrite nth_error_app1.
        -- destruct (Employee.latest_open_debut e (employee_affectations db));
             [ | exact Hk].
           apply nth_error_update_first; [exact Hk | ].
           rewrite (closed_not_open_of e a Ha). reflexivity.
        -- destruct (Employee.latest_open_debut e (employee_affectations db));
             [ | exact Hlen].
           rewrite <- (length_map record_of),
             map_update_first, length_map by reflexivity.
           exact Hlen.
  - destruct (delete_cases Employee.mysql2_FOUND_ROWS today user e db)
      as [-> | ->].
    + exists []. rewrite app_nil_r. repeat split; auto.
    + cbn [snd employee_affectations]. exists [].
      rewrite app_nil_r, map_update_where by reflexivity.
      split; [reflexivity | ]. split; [simpl; lia | ].
      intros k a Hk Ha. apply nth_error_update_where; [exact Hk | ].
      now apply closed_not_open_of.
Qed.

End EmployeeRows.

(** X7.  Employees are never removed and never share an identifier:
    whatever hirings, updates and archivings are served, the identifiers
    of the table stay distinct and every employee of the table is still
    in it afterwards. *)
Theorem employees_kept_and_distinct :
  forall db rs,
    NoDup (map id (employees db)) ->
    NoDup (map id (employees (serve db rs)))
    /\ forall e, known db e -> known (serve db rs) e.
Proof.
  intros db rs Hnd. induction rs as [|r rs IH] using rev_ind; [auto | ].
  rewrite serve_snoc. destruct IH as [IH1 IH2].
  unfold known in *.
  destruct (handle_ids r (serve db rs)) as [-> | ->].
  - auto.
  - split.
    + apply NoDup_app; [exact IH1 | repeat constructor; intros [] | ].
      intros x Hx [<- | []]. now apply insertId_not_in in Hx.
    + intros e He. apply in_or_app. auto.
Qed.

Lemma employees_kept_and_distinct_witness :
  NoDup (map id (employees
                   (serve Demo.db1
                      [Hire 101 7 Demo.embauche; Archive 200 7 1;
                       Update 201 7 1 Demo.mutation])))
  /\ forall e, known Demo.db1 e ->
               known (serve Demo.db1
                        [Hire 101 7 Demo.embauche; Archive 200 7 1;
                         Update 201 7 1 Demo.mutation]) e.
Proof.
  apply (employees_kept_and_distinct Demo.db1
           [Hire 101 7 Demo.embauche; Archive 200 7 1;
            Update 201 7 1 Demo.mutation]).
  repeat constructor. intros [].
Defined.

(** X8.  The history is append-only.  Whatever requests are served, the
    employee, start date and two snapshots of the records already in the
    table stay as they are and in place, new records coming after them;
    and a record that has been closed is never modified again. *)
Theorem history_append_only :
  forall db rs,
    (exists added,
       map record_of (employee_affectations (serve db rs))
       = map record_of (employee_affectations db) ++ added)
    /\ (forall k a,
          nth_error (employee_affectations db) k = Some a ->
          is_open a = false ->
          nth_error (employee_affectations (serve db rs)) k = Some a).
Proof.
  intros db rs. induction rs as [|r rs IH] using rev_ind.
  - split; [exists []; now rewrite app_nil_r | auto].
  - rewrite serve_snoc. destruct IH as [[added IH1] IH2].
    destruct (handle_affectations r (serve db rs)) as (more & E & _ & Hc).
    split.
    + exists (added ++ more). rewrite E, IH1, app_assoc. reflexivity.
    + intros k a Hk Ha. apply Hc; [apply IH2; assumption | exact Ha].
Qed.

(** ** Updates that are not placement changes, or come after an archiving *)

Section OtherUpdates.

Lemma supplied_same {A} (o : option A) (d : A) :
  (forall x y : A, {x = y} + {x <> y}) ->
  ~ (exists v, o = Some v /\ v <> d) -> supplied o d = d.
Proof.
  intros dec H. destruct o as [v|]; [ | reflexivity]. simpl.
  destruct (dec v d) as [E | N]; [exact E | ].
  exfalso. apply H. exists v. auto.
Qed.

Lemma updated_placement_same b p :
  ~ placement_differs b p -> updated_placement b p = p.
Proof.
  intros H. unfold placement_differs in H. unfold updated_placement.
  rewrite !(supplied_same _ _ Z.eq_dec) by tauto.
  rewrite !(supplied_same _ _ string_dec) by tauto.
  destruct p; reflexivity.
Qed.

Lemma apply_clauses_statut b r :
  statut (apply_clauses (clauses_of b) r)
  = supplied (UpdateBody.statut b) (statut r).
Proof.
  destruct r as [i ma no pr pl st u pi].
  destruct b as [bma bno bpr bs bd bse bt bpo bfo bst bmo bco bu bau].
  unfold clauses_of, Employee.buildUpdateQuery. simpl.
  destruct bst; simpl;
    destruct bs, bd, bse, bt, bpo, bfo, bma, bno, bpr, bu; reflexivity.
Qed.

Lemma find_after_update db e b cur :
  find_employee db e = Some cur ->
  find (fun r => (id r =? e)%Z)
    (update_where (fun r => (id r =? e)%Z) (apply_clauses (clauses_of b))
       (employees db))
  = Some (apply_clauses (clauses_of b) cur).
Proof.
  intros Hf.
  rewrite find_update_where by (intros r; now rewrite apply_clauses_id).
  fold (find_employee db e). rewrite Hf. cbn [option_map].
  apply find_some in Hf. destruct Hf as [_ ->]. reflexivity.
Qed.

End OtherUpdates.

(** X9.  An update that passes the schema and supplies no placement field
    with a value other than the current one is not a placement change,
    with or without motif_changement: it is answered with 200, writes
    nothing in the history and leaves the placement of the employee as it
    was.  The reply carries affectationChanged = false when fonction is
    supplied; when it is not, isAffectationChange is undefined and the
    reply has no affectationChanged key, only the message and
    employeeId. *)
Theorem put_without_placement_change :
  forall today user e b db cur,
    Employee.employeeUpdateSchema b = true ->
    find_employee db e = Some cur ->
    ~ placement_differs b (placement cur) ->
    fst (Employee.put today user e b db)
    = (200%nat,
       match UpdateBody.fonction b with
       | Some _ => AffectationChanged e false
       | None => EmployeeId e
       end)
    /\ employee_affectations (snd (Employee.put today user e b db))
       = employee_affectations db
    /\ exists cur',
         find_employee (snd (Employee.put today user e b db)) e = Some cur'
         /\ placement cur' = placement cur.
Proof.
  intros today user e b db cur Hs Hf Hd.
  rewrite (put_no_change today user e b db cur Hs Hf Hd).
  cbn [fst snd employee_affectations].
  split; [reflexivity | ]. split; [reflexivity | ].
  exists (apply_clauses (clauses_of b) cur).
  unfold find_employee. cbn [employees].
  split; [now apply find_after_update | ].
  rewrite apply_clauses_placement. now apply updated_placement_same.
Qed.

Lemma put_without_placement_change_witness :
  fst (Employee.put 150 7 1
         (UpdateBody.mk None None None (Some 1%Z) None None None
            (Some "Chef de piste") None (Some "Maladie")
            (Some "Arrêt") None None false)
         Demo.db2)
  = (200%nat, EmployeeId 1)
  /\ employee_affectations
       (snd (Employee.put 150 7 1
               (UpdateBody.mk None None None (Some 1%Z) None None None
                  (Some "Chef de piste") None (Some "Maladie")
                  (Some "Arrêt") None None false)
               Demo.db2))
     = employee_affectations Demo.db2
  /\ exists cur',
       find_employee
         (snd (Employee.put 150 7 1
                 (UpdateBody.mk None None None (Some 1%Z) None None None
                    (Some "Chef de piste") None (Some "Maladie")
                    (Some "Arrêt") None None false)
                 Demo.db2)) 1
       = Some cur'
       /\ placement cur'
          = mkPlacement 1 1 1 1 "Chef de piste" "Exploitation".
Proof.
  apply (put_without_placement_change 150%Z 7%Z 1%Z
           (UpdateBody.mk None None None (Some 1%Z) None None None
              (Some "Chef de piste") None (Some "Maladie")
              (Some "Arrêt") None None false)
           Demo.db2
           (mkEmployee 1 "SG-001" "Diop" "Awa"
              (mkPlacement 1 1 1 1 "Chef de piste" "Exploitation")
              "Actif" (Some 12%Z) None)).
  - reflexivity.
  - reflexivity.
  - intros [(v & E & N) | [(v & E & N) | [(v & E & N) | [(v & E & N)
      | [(v & E & N) | (v & E & N)]]]]];
      simpl in E; try discriminate E; injection E as <-; apply N; reflexivity.
Defined.

(** X10.  The update route does not look at the status.  A placement
    change for an archived employee (status 'Licencié', no open record)
    is accepted: it opens a record again, and the status stays
    'Licencié' unless the body changes it. *)
Theorem put_reopens_archived_history :
  forall today user e b db cur,
    find_employee db e = Some cur ->
    statut cur = "Licencié" ->
    open_count db e = 0%nat ->
    placement_change db e b ->
    UpdateBody.statut b = None ->
    let db' := snd (Employee.put today user e b db) in
    fst (Employee.put today user e b db)
    = (200%nat, AffectationChanged e true)
    /\ open_count db' e = 1%nat
    /\ exists cur', find_employee db' e = Some cur'
                    /\ statut cur' = "Licencié".
Proof.
  intros today user e b db cur Hf Hst H0 (Hs & (cur' & Hf' & Hd) & (m & Hm))
         Hbs db'.
  subst db'. rewrite Hf in Hf'. injection Hf' as <-.
  rewrite (put_change today user e b db cur m Hs Hf Hd Hm).
  cbn [fst snd]. split; [reflexivity | ].
  split.
  - unfold open_count in *. cbn [employee_affectations].
    rewrite open_count_snoc, open_update_latest, open_of_nouvelle.
    rewrite Z.eqb_refl, H0. reflexivity.
  - exists (apply_clauses (clauses_of b) cur).
    unfold find_employee. cbn [employees].
    split; [now apply find_after_update | ].
    rewrite apply_clauses_statut, Hbs. exact Hst.
Qed.

Lemma put_reopens_archived_history_witness :
  let db := snd (Employee.delete Employee.mysql2_FOUND_ROWS 200 7 1 Demo.db2) in
  let db' := snd (Employee.put 230 7 1 Demo.mutation db) in
  fst (Employee.put 230 7 1 Demo.mutation db)
  = (200%nat, AffectationChanged 1 true)
  /\ open_count db' 1 = 1%nat
  /\ exists cur', find_employee db' 1 = Some cur'
                  /\ statut cur' = "Licencié".
Proof.
  apply (put_reopens_archived_history 230%Z 7%Z 1%Z Demo.mutation
           (snd (Employee.delete Employee.mysql2_FOUND_ROWS 200 7 1 Demo.db2))
           (mkEmployee 1 "SG-001" "Diop" "Awa"
              (mkPlacement 1 1 1 1 "Chef de piste" "Exploitation")
              "Licencié" None None)).
  - reflexivity.
  - reflexivity.
  - reflexivity.
  - split; [reflexivity | split].
    + eexists. split; [reflexivity | ].
      do 3 right. left. eexists. split; [reflexivity | discriminate].
    + eexists. reflexivity.
  - reflexivity.
Defined.

(** ** Dates along a history *)

Section HistoryDates.

(** The history of [e] after a placement change, from the history
    before. *)
Lemma put_history today user e b db closed last cur m :
  history db e = closed ++ [last] ->
  existsb (open_of e) closed = false ->
  open_of e last = true ->
  Employee.employeeUpdateSchema b = true ->
  find_employee db e = Some cur ->
  placement_differs b (placement cur) ->
  UpdateBody.motif_changement b = Some m ->
  history (snd (Employee.put today user e b db)) e
  = closed ++ [Employee.terminer today m user last;
               nouvelle_affectation today user e b m (placement cur)].
Proof.
  intros Hh Hcl Hlast Hs Hf Hd Hm.
  rewrite (put_change today user e b db cur m Hs Hf Hd Hm). cbn [snd].
  unfold history. cbn [employee_affectations].
  rewrite filter_app, history_update_latest by reflexivity.
  fold (history db e). rewrite Hh.
  rewrite (update_latest_open_only e _ closed last []) by auto.
  cbn [filter nouvelle_affectation employee_id]. rewrite Z.eqb_refl.
  rewrite <- app_assoc. reflexivity.
Qed.

(** The start dates of the history: the day of the hiring, then the days
    of the changes. *)
Lemma changes_on_dates e db days db' n d0 :
  tracked db e n -> map date_debut (history db e) = d0 ->
  changes_on e db days db' ->
  tracked db' e (List.length days + n)
  /\ map date_debut (history db' e) = d0 ++ days.
Proof.
  intros Ht Hd Hc. induction Hc as [|days db1 today user b Hc IH Hp].
  - rewrite app_nil_r. auto.
  - destruct IH as [IHt IHd]. split.
    + replace (List.length (days ++ [today]) + n)%nat
        with (S (List.length days + n))
        by (rewrite length_app; simpl; lia).
      now apply put_tracked.
    + destruct IHt as (closed & last & cur & Hh & Hcl & Hlast & _ & _ & Hf & _).
      destruct Hp as (Hs & (cur' & Hf' & Hdf) & (m & Hm)).
      rewrite Hf in Hf'. injection Hf' as <-.
      rewrite (put_history today user e b db1 closed last cur m
                 Hh Hcl Hlast Hs Hf Hdf Hm).
      rewrite Hh in IHd. rewrite app_assoc, <- IHd, !map_app.
      rewrite <- app_assoc. reflexivity.
Qed.

(** Along a chain whose start dates increase, every record followed by
    another one ends on or after the day it starts. *)
Lemma chain_ordered closed last :
  chain (closed ++ [last]) ->
  Sorted Z.lt (map date_debut (closed ++ [last])) ->
  forall a, In a closed ->
            exists f, date_fin a = Some f /\ (date_debut a <= f)%Z.
Proof.
  induction closed as [|x l IH]; intros Hc Hs a Hin; [destruct Hin | ].
  assert (Hx : exists b rest, l ++ [last] = b :: rest)
    by (destruct l; simpl; eauto).
  destruct Hx as (b & rest & E).
  change ((x :: l) ++ [last]) with (x :: (l ++ [last])) in Hc, Hs.
  rewrite E in Hc. cbn [map] in Hs. rewrite E in Hs.
  destruct Hc as [[_ Hfin] Hc].
  apply Sorted_inv in Hs. destruct Hs as [Hs Hhd].
  cbn [map] in Hhd. apply HdRel_inv in Hhd.
  destruct Hin as [<- | Hin].
  - exists (date_debut b - 1)%Z. split; [exact Hfin | lia].
  - rewrite <- E in Hc, Hs. now apply IH.
Qed.

End HistoryDates.

(** X11.  A placement change on the very day of the hiring closes the
    hiring record the day before it starts: the history is then the
    hiring record, with date_debut = that day and date_fin = the day
    before, followed by the open record of the change. *)
Theorem same_day_change_ends_before_start :
  forall today user body db0 e user' b,
    foreign_keys db0 ->
    fst (Employee.post today user body db0) = (201%nat, EmployeeId e) ->
    placement_change (snd (Employee.post today user body db0)) e b ->
    exists premier second,
      history
        (snd (Employee.put today user' e b
                (snd (Employee.post today user body db0)))) e
      = [premier; second]
      /\ date_debut premier = today
      /\ date_fin premier = Some (today - 1)%Z
      /\ date_debut second = today
      /\ date_fin second = None.
Proof.
  intros today user body db0 e user' b Hfk Hp Hc.
  pose proof (post_tracked today user body db0 e Hfk Hp) as Ht.
  destruct (post_cases today user body db0) as [[_ Hs] | E].
  { rewrite Hp in Hs. simpl in Hs. destruct Hs; discriminate. }
  assert (Hh : exists a, history (snd (Employee.post today user body db0)) e
                         = [a] /\ date_debut a = today
                         /\ open_of e a = true).
  { rewrite E in Hp |- *. cbn [fst] in Hp. injection Hp as <-.
    cbn [snd]. unfold history. cbn [employee_affectations].
    rewrite filter_app.
    fold (history db0 (insertId id (employees db0))).
    rewrite (history_unknown db0 _ Hfk (fresh_unknown db0)).
    cbn [filter employee_id app]. rewrite Z.eqb_refl.
    eexists. split; [reflexivity | ]. split; [reflexivity | ].
    unfold open_of, is_open. simpl. now rewrite Z.eqb_refl. }
  destruct Hh as (a & Hh & Hd & Ho).
  destruct Hc as (Hs & (cur & Hf & Hdf) & (m & Hm)).
  rewrite (put_history today user' e b _ [] a cur m Hh eq_refl Ho Hs Hf Hdf Hm).
  eexists. eexists. split; [reflexivity | ].
  cbn. rewrite Hd. repeat split.
Qed.

Lemma same_day_change_ends_before_start_witness :
  exists premier second,
    history
      (snd (Employee.put 100 7 1 Demo.promotion
              (snd (Employee.post 100 7 Demo.embauche Demo.db0)))) 1
    = [premier; second]
    /\ date_debut premier = 100%Z
    /\ date_fin premier = Some (100 - 1)%Z
    /\ date_debut second = 100%Z
    /\ date_fin second = None.
Proof.
  apply (same_day_change_ends_before_start 100%Z 7%Z Demo.embauche Demo.db0
           1%Z 7%Z Demo.promotion).
  - intros a [].
  - reflexivity.
  - split; [reflexivity | split].
    + eexists. split; [reflexivity | ].
      do 4 right. left. eexists. split; [reflexivity | discriminate].
    + eexists. reflexivity.
Defined.

(** X12.  After a hiring on day d0 and placement changes on the days
    d1, ..., dn, the records of the employee start on d0, d1, ..., dn in
    that order; when these days increase strictly, every closed record
    ends on or after the day it starts, and only the last record is
    open. *)
Theorem history_dates_in_order :
  forall d0 user body db0 e days dbn,
    foreign_keys db0 ->
    fst (Employee.post d0 user body db0) = (201%nat, EmployeeId e) ->
    changes_on e (snd (Employee.post d0 user body db0)) days dbn ->
    map date_debut (history dbn e) = d0 :: days
    /\ (Sorted Z.lt (d0 :: days) ->
        forall a, In a (history dbn e) ->
          match date_fin a with
          | Some f => (date_debut a <= f)%Z
          | None => last (history dbn e) a = a
          end).
Proof.
  intros d0 user body db0 e days dbn Hfk Hp Hc.
  pose proof (post_tracked d0 user body db0 e Hfk Hp) as Ht.
  assert (Hd : map date_debut (history (snd (Employee.post d0 user body db0)) e)
               = [d0]).
  { destruct (post_cases d0 user body db0) as [[_ Hs] | E].
    { rewrite Hp in Hs. simpl in Hs. destruct Hs; discriminate. }
    rewrite E in Hp |- *. cbn [fst] in Hp. injection Hp as <-.
    cbn [snd]. unfold history. cbn [employee_affectations].
    rewrite filter_app.
    fold (history db0 (insertId id (employees db0))).
    rewrite (history_unknown db0 _ Hfk (fresh_unknown db0)).
    cbn [filter employee_id app]. rewrite Z.eqb_refl. reflexivity. }
  destruct (changes_on_dates e _ days dbn 0 [d0] Ht Hd Hc) as [Htn Hdn].
  split; [exact Hdn | ].
  intros Hsorted a Hin.
  destruct Htn as (closed & lst & cur & Hh & Hcl & Hlast & _ & Hch & _ & _).
  rewrite Hh in Hdn, Hin |- *. rewrite last_last.
  change (d0 :: days) with ([d0] ++ days) in Hsorted. rewrite <- Hdn in Hsorted.
  apply in_app_or in Hin. destruct Hin as [Hin | [<- | []]].
  - destruct (chain_ordered closed lst Hch Hsorted a Hin) as (f & -> & Hle).
    exact Hle.
  - unfold open_of, is_open in Hlast. apply andb_true_iff in Hlast.
    destruct Hlast as [_ Hlast].
    destruct (date_fin lst); [discriminate | reflexivity].
Qed.

Lemma history_dates_in_order_witness :
  map date_debut
    (history (snd (Employee.put 160 7 1 Demo.mutation Demo.db2)) 1)
  = [100; 130; 160]%Z
  /\ (Sorted Z.lt [100; 130; 160]%Z ->
      forall a,
        In a (history (snd (Employee.put 160 7 1 Demo.mutation Demo.db2)) 1) ->
        match date_fin a with
        | Some f => (date_debut a <= f)%Z
        | None =>
            last (history (snd (Employee.put 160 7 1 Demo.mutation Demo.db2)) 1)
              a = a
        end).
Proof.
  apply (history_dates_in_order 100%Z 7%Z Demo.embauche Demo.db0 1%Z
           [130; 160]%Z).
  - intros a [].
  - reflexivity.
  - apply (changes_on_snoc 1 _ [130%Z] _ 160%Z 7%Z Demo.mutation).
    + apply (changes_on_snoc 1 _ [] _ 130%Z 7%Z Demo.promotion
               (changes_on_nil _ _)).
      split; [reflexivity | split].
      * eexists. split; [reflexivity | ].
        do 4 right. left. eexists. split; [reflexivity | discriminate].
      * eexists. reflexivity.
    + split; [reflexivity | split].
      * eexists. split; [reflexivity | ].
        do 3 right. left. eexists. split; [reflexivity | discriminate].
      * eexists. reflexivity.
Defined.

(** ** Uniqueness rules of the insert routes *)

Section InsertRules.

Lemma existsb_matricule m (l : list Employee) :
  existsb (fun e => String.eqb (matricule e) m) l = true
  <-> In m (map matricule l).
Proof.
  rewrite existsb_exists, in_map_iff. split.
  - intros (r & Hin & E). apply String.eqb_eq in E. eauto.
  - intros (r & <- & Hin). exists r. split; [exact Hin | apply String.eqb_refl].
Qed.

Lemma post_contracts_cases value db :
  snd (HR.post_contracts value db) = db
  \/ exists row,
       HR.post_contracts value db
       = ((201%nat, ContractId (insertId c_id (contracts db))),
          mkDb (sites db) (departments db) (services db) (teams db)
            (if negb (ContractBody.is_avenant value)
             then update_where
                    (fun r => (id r =? ContractBody.employee_id value)%Z)
                    (HR.set_position_id (ContractBody.position_id value))
                    (employees db)
             else employees db)
            (employee_affectations db) (contracts db ++ [row])
            (leave_requests db) (leave_validations db))
       /\ c_employee_id row = ContractBody.employee_id value
       /\ c_is_avenant row = ContractBody.is_avenant value
       /\ c_id row = insertId c_id (contracts db)
       /\ (ContractBody.is_avenant value = false ->
           HR.activeContracts db (ContractBody.employee_id value) = []).
Proof.
  unfold HR.post_contracts.
  destruct (HR.contractSchema value); cbn [negb]; [ | auto].
  destruct (HR.employe_actif db _); cbn [negb]; [ | auto].
  destruct (ContractBody.is_avenant value) eqn:Hav; cbn [negb andb].
  - right. eexists. split; [reflexivity | ]. repeat split. discriminate.
  - destruct (List.length _ =? 0)%nat eqn:E; cbn [negb]; [ | auto].
    right. eexists. split; [reflexivity | ]. repeat split.
    intros _. now apply length_zero_eqb.
Qed.

Lemma post_contracts_exclusive value db :
  exclusive db -> exclusive (snd (HR.post_contracts value db)).
Proof.
  intros Hx.
  destruct (post_contracts_cases value db)
    as [-> | (row & -> & He & Hav & _ & Hnone)]; [exact Hx | ].
  intros e. unfold HR.activeContracts. cbn [snd contracts].
  rewrite filter_app, length_app. fold (HR.activeContracts db e).
  cbn [filter]. rewrite He, Hav.
  destruct (ContractBody.is_avenant value) eqn:Ea.
  - rewrite andb_false_r. cbn. specialize (Hx e). lia.
  - destruct (Z.eqb_spec (ContractBody.employee_id value) e) as [<- | Hn].
    + rewrite (Hnone eq_refl).
      destruct (String.eqb (c_statut row) "Actif"); cbn; lia.
    + cbn. specialize (Hx e). lia.
Qed.

Lemma ForallOrdPairs_snoc {A} (R : A -> A -> Prop) l x :
  ForallOrdPairs R l -> Forall (fun a => R a x) l ->
  ForallOrdPairs R (l ++ [x]).
Proof.
  induction 1 as [|a l Ha Hl IH]; intros Hx; simpl.
  - constructor; constructor.
  - apply Forall_cons_iff in Hx. destruct Hx as [Hax Hx].
    constructor; [ | now apply IH].
    apply Forall_app. split; [exact Ha | constructor; [exact Hax | constructor]].
Qed.

Lemma post_leaves_cases now user value db :
  snd (Leaves.post_leaves now user value db) = db
  \/ exists row,
       Leaves.post_leaves now user value db
       = ((201%nat, RequestId (insertId l_id (leave_requests db))),
          mkDb (sites db) (departments db) (services db) (teams db)
            (employees db) (employee_affectations db) (contracts db)
            (leave_requests db ++ [row])
            (leave_validations db
             ++ [mkLeaveValidation (insertId l_id (leave_requests db)) user
                   "Soumission Employé" "En attente"
                   "Demande soumise par l'employé."]))
       /\ l_id row = insertId l_id (leave_requests db)
       /\ l_employee_id row = LeaveBody.employee_id value
       /\ l_date_debut row = LeaveBody.date_debut value
       /\ l_date_fin row = LeaveBody.date_fin value
       /\ Leaves.leaveRequestSchema now value = true
       /\ filter (Leaves.chevauche value) (leave_requests db) = [].
Proof.
  unfold Leaves.post_leaves.
  destruct (Leaves.leaveRequestSchema now value); cbn [negb]; [ | auto].
  destruct (HR.employe_actif db _); cbn [negb]; [ | auto].
  destruct (List.length _ =? 0)%nat eqn:E; cbn [negb]; [ | auto].
  right. eexists. split; [reflexivity | ]. repeat split.
  now apply length_zero_eqb.
Qed.

End InsertRules.

(** X13.  A hiring never gives two employees one matricule: a valid
    request whose matricule is already in the table is answered with 409
    and changes nothing, before the structure identifiers are looked at;
    and matricules that are distinct before a hiring request are distinct
    after it. *)
Theorem post_keeps_matricules_distinct :
  forall today user body db,
    NoDup (map matricule (employees db)) ->
    NoDup (map matricule (employees (snd (Employee.post today user body db))))
    /\ (Employee.employeeCreationSchema body = true ->
        In (CreateBody.matricule body) (map matricule (employees db)) ->
        Employee.post today user body db = ((409%nat, Message), db)).
Proof.
  intros today user body db Hnd. split.
  - destruct (existsb (fun e => String.eqb (matricule e)
                                  (CreateBody.matricule body)) (employees db))
      eqn:E.
    + assert (Hp : snd (Employee.post today user body db) = db).
      { unfold Employee.post. rewrite E.
        destruct (Employee.employeeCreationSchema body); reflexivity. }
      rewrite Hp. exact Hnd.
    + destruct (post_cases today user body db) as [[-> _] | ->];
        [exact Hnd | ].
      cbn [snd employees]. rewrite map_app. cbn [map matricule].
      apply NoDup_app; [exact Hnd | repeat constructor; intros [] | ].
      intros m Hm [<- | []]. apply existsb_matricule in Hm. congruence.
  - intros Hs Hin. apply existsb_matricule in Hin.
    unfold Employee.post. rewrite Hs, Hin. reflexivity.
Qed.

Lemma post_keeps_matricules_distinct_witness :
  NoDup (map matricule
           (employees (snd (Employee.post 101 7 Demo.embauche Demo.db1))))
  /\ (Employee.employeeCreationSchema Demo.embauche = true ->
      In (CreateBody.matricule Demo.embauche)
         (map matricule (employees Demo.db1)) ->
      Employee.post 101 7 Demo.embauche Demo.db1
      = ((409%nat, Message), Demo.db1)).
Proof.
  apply (post_keeps_matricules_distinct 101%Z 7%Z Demo.embauche Demo.db1).
  repeat constructor. intros [].
Defined.

(** X14.  The contract route keeps the exclusivity rule: when no employee
    has more than one active non-amendment contract, none has after any
    list of contract creation requests, accepted or refused. *)
Theorem contracts_stay_exclusive :
  forall values db, exclusive db -> exclusive (serve_contracts db values).
Proof.
  unfold serve_contracts.
  induction values as [|value values IH]; intros db Hx; [exact Hx | ].
  cbn [fold_left]. apply IH. now apply post_contracts_exclusive.
Qed.

Lemma contracts_stay_exclusive_witness :
  exclusive (serve_contracts Demo.db_actif [Demo.contrat; Demo.avenant]).
Proof.
  apply (contracts_stay_exclusive [Demo.contrat; Demo.avenant] Demo.db_actif).
  intros e. unfold HR.activeContracts. cbn -[Z.eqb].
  destruct (1 =? e)%Z; cbn; lia.
Defined.

(** X15.  The leave route keeps blocking requests apart: when no two
    requests of one employee in status Soumis, En attente or Approuvé
    have ranges that share a day, the same holds after a submission,
    accepted or refused. *)
Theorem leaves_stay_disjoint :
  forall now user value db,
    leaves_disjoint db ->
    leaves_disjoint (snd (Leaves.post_leaves now user value db)).
Proof.
  intros now user value db Hd.
  destruct (post_leaves_cases now user value db)
    as [-> | (row & -> & _ & He & Hdeb & Hfin & Hs & Hnone)]; [exact Hd | ].
  unfold leaves_disjoint. cbn [snd leave_requests].
  apply ForallOrdPairs_snoc; [exact Hd | ].
  apply Forall_forall. intros r Hin Hsame Hb _ [H1 H2].
  assert (Hc : Leaves.chevauche value r = true).
  { apply (chevauche_overlaps now value Hs).
    - split; [congruence | exact Hb].
    - unfold overlaps. rewrite <- Hdeb, <- Hfin. split; assumption. }
  assert (Hr : In r (filter (Leaves.chevauche value) (leave_requests db)))
    by (apply filter_In; auto).
  rewrite Hnone in Hr. destruct Hr.
Qed.

Lemma leaves_stay_disjoint_witness :
  leaves_disjoint (snd (Leaves.post_leaves 200 1 Demo.conge_apres Demo.db_actif)).
Proof.
  apply (leaves_stay_disjoint 200%Z 1%Z Demo.conge_apres Demo.db_actif).
  repeat constructor.
Defined.

(** X16.  Every leave request has exactly one initial validation step:
    when the validation steps refer, in order, to the requests of the
    table and these have distinct identifiers, the same holds after a
    submission, accepted or refused. *)
Theorem leave_steps_match_requests :
  forall now user value db,
    validations_match db -> NoDup (map l_id (leave_requests db)) ->
    validations_match (snd (Leaves.post_leaves now user value db))
    /\ NoDup (map l_id (leave_requests
                          (snd (Leaves.post_leaves now user value db)))).
Proof.
  intros now user value db Hm Hnd.
  destruct (post_leaves_cases now user value db)
    as [-> | (row & -> & Hid & _)]; [auto | ].
  unfold validations_match in *. cbn [snd leave_requests leave_validations].
  rewrite !map_app, Hm. cbn [map v_request_id]. rewrite Hid.
  split; [reflexivity | ].
  apply NoDup_app; [exact Hnd | repeat constructor; intros [] | ].
  intros x Hx [<- | []]. apply in_map_iff in Hx.
  destruct Hx as (r & E & Hin). apply (insertId_fresh l_id) in Hin. lia.
Qed.

Lemma leave_steps_match_requests_witness :
  validations_match
    (snd (Leaves.post_leaves 200 1 Demo.conge_apres Demo.db_actif))
  /\ NoDup (map l_id
              (leave_requests
                 (snd (Leaves.post_leaves 200 1 Demo.conge_apres
                         Demo.db_actif)))).
Proof.
  apply (leave_steps_match_requests 200%Z 1%Z Demo.conge_apres Demo.db_actif).
  - reflexivity.
  - repeat constructor. intros [].
Defined.

(** ** Check-in, checkout and holidays *)

Section AttendanceRoutes.

Import Attendance.

Lemma existsb_cle e d l :
  existsb (fun a => (a_employee_id a =? e)%Z && (a_date_pointage a =? d)%Z) l
  = true <-> In (e, d) (map cle l).
Proof.
  rewrite existsb_exists, in_map_iff. unfold cle. split.
  - intros (a & Hin & H). apply andb_true_iff in H. destruct H as [H1 H2].
    apply Z.eqb_eq in H1. apply Z.eqb_eq in H2. exists a. now subst.
  - intros (a & [= <- <-] & Hin). exists a.
    rewrite !Z.eqb_refl. auto.
Qed.

Lemma NoDup_map_injective {A B} (f : A -> B) l x y :
  NoDup (map f l) -> In x l -> In y l -> f x = f y -> x = y.
Proof.
  induction l as [|a l IH]; intros Hnd Hx Hy E; [destruct Hx | ].
  cbn [map] in Hnd. apply NoDup_cons_iff in Hnd. destruct Hnd as [Hn Hnd].
  destruct Hx as [<- | Hx], Hy as [<- | Hy]; auto.
  - exfalso. apply Hn. rewrite E. now apply in_map.
  - exfalso. apply Hn. rewrite <- E. now apply in_map.
Qed.

Lemma post_checkin_cases date_schema body db t :
  (snd (post_checkin date_schema body db t) = t
   /\ fst (fst (post_checkin date_schema body db t)) <> 201%nat)
  \/ (post_checkin date_schema body db t
      = ((201%nat, Some (insertId a_id (attendances t))),
         mkTables (jours_feries t)
           (attendances t
            ++ [mkPointage (insertId a_id (attendances t))
                  (CheckinBody.employee_id body)
                  (supplied (CheckinBody.date_pointage body) date_schema)
                  (CheckinBody.heure_entree body)
                  (supplied (CheckinBody.source body) "Manuel") None]))
      /\ checkinSchema body = true
      /\ HR.employe_actif db (CheckinBody.employee_id body) = true
      /\ ~ In (CheckinBody.employee_id body,
               supplied (CheckinBody.date_pointage body) date_schema)
              (map cle (attendances t))).
Proof.
  unfold post_checkin.
  destruct (checkinSchema body); cbn [negb];
    [ | left; split; [reflexivity | discriminate]].
  destruct (HR.employe_actif db _); cbn [negb];
    [ | left; split; [reflexivity | discriminate]].
  destruct (existsb _ (attendances t)) eqn:E;
    [left; split; [reflexivity | discriminate] | ].
  right. repeat split. intros Hin. apply existsb_cle in Hin. congruence.
Qed.

Lemma put_checkout_cases dateToday dayOfWeek e body t :
  (snd (put_checkout dateToday dayOfWeek e body t) = t
   /\ status_of_checkout_is_error
        (fst (fst (put_checkout dateToday dayOfWeek e body t))))
  \/ exists heure_sortie attendance rest h,
       body = Some heure_sortie
       /\ is_HHMM heure_sortie = true
       /\ filter (en_cours e dateToday) (attendances t) = attendance :: rest
       /\ calculateHours (a_heure_entree attendance) heure_sortie
            (isHoliday t dateToday) (dayOfWeek =? 0)%Z
            (majorationFeriee t dateToday) = Some h
       /\ put_checkout dateToday dayOfWeek e body t
          = ((200%nat, Some h),
             mkTables (jours_feries t)
               (update_where (fun a => (a_id a =? a_id attendance)%Z)
                  (set_sortie (stored heure_sortie h)) (attendances t))).
Proof.
  unfold put_checkout, status_of_checkout_is_error.
  destruct body as [hs|]; [ | left; cbn; auto].
  destruct (is_HHMM hs) eqn:Hv; cbn [negb]; [ | left; cbn; auto].
  destruct (filter _ (attendances t)) as [|a rest] eqn:Hf; [left; cbn; auto | ].
  destruct (calculateHours _ _ _ _ _) as [h|] eqn:Hc; [ | left; cbn; auto].
  right. exists hs, a, rest, h. auto.
Qed.

Lemma en_cours_In e d t a :
  In a (filter (en_cours e d) (attendances t)) ->
  In a (attendances t) /\ cle a = (e, d) /\ a_sortie a = None.
Proof.
  intros H. apply filter_In in H. destruct H as [Hin H].
  unfold en_cours in H. apply andb_true_iff in H. destruct H as [H H3].
  apply andb_true_iff in H. destruct H as [H1 H2].
  apply Z.eqb_eq in H1. apply Z.eqb_eq in H2.
  split; [exact Hin | ]. split; [unfold cle; now subst | ].
  destruct (a_sortie a); [discriminate | reflexivity].
Qed.

End AttendanceRoutes.

(** X17.  The attendance tables keep their keys: when no employee has two
    attendance rows for one day, no two holidays share a date and the
    attendance identifiers are distinct, the same holds after a check-in,
    after a checkout and after the addition of a holiday, accepted or
    refused. *)
Theorem attendance_keys_stay_unique :
  forall t,
    Attendance.one_per_day t -> Attendance.one_per_date t ->
    Attendance.distinct_ids t ->
    (forall date_schema body db,
       let t' := snd (Attendance.post_checkin date_schema body db t) in
       Attendance.one_per_day t' /\ Attendance.one_per_date t'
       /\ Attendance.distinct_ids t')
    /\ (forall dateToday dayOfWeek e body,
          let t' := snd (Attendance.put_checkout dateToday dayOfWeek e body t) in
          Attendance.one_per_day t' /\ Attendance.one_per_date t'
          /\ Attendance.distinct_ids t')
    /\ (forall body,
          let t' := snd (Attendance.post_feries body t) in
          Attendance.one_per_day t' /\ Attendance.one_per_date t'
          /\ Attendance.distinct_ids t').
Proof.
  intros t Hd Hf Hi. split; [ | split].
  - intros date_schema body db t'. subst t'.
    destruct (post_checkin_cases date_schema body db t)
      as [[-> _] | (-> & _ & _ & Hn)]; [auto | ].
    unfold Attendance.one_per_day, Attendance.one_per_date,
      Attendance.distinct_ids in *.
    cbn [snd Attendance.attendances Attendance.jours_feries].
    rewrite !map_app. cbn [map Attendance.a_employee_id
      Attendance.a_date_pointage Attendance.a_id].
    split; [ | split; [exact Hf | ]].
    + apply NoDup_app; [exact Hd | repeat constructor; intros [] | ].
      intros k Hk [<- | []]. now apply Hn.
    + apply NoDup_app; [exact Hi | repeat constructor; intros [] | ].
      intros k Hk [<- | []]. apply in_map_iff in Hk.
      destruct Hk as (a & E & Hin).
      apply (insertId_fresh Attendance.a_id) in Hin. lia.
  - intros dateToday dayOfWeek e body t'. subst t'.
    destruct (put_checkout_cases dateToday dayOfWeek e body t)
      as [[-> _] | (hs & a & rest & h & _ & _ & _ & _ & ->)]; [auto | ].
    unfold Attendance.one_per_day, Attendance.one_per_date,
      Attendance.distinct_ids in *.
    cbn [snd Attendance.attendances Attendance.jours_feries].
    rewrite !map_update_where by reflexivity. auto.
  - intros body t'. subst t'. unfold Attendance.post_feries.
    destruct (Attendance.ferieSchema body); cbn [negb]; [ | auto].
    destruct (existsb _ (Attendance.jours_feries t)) eqn:E; [auto | ].
    unfold Attendance.one_per_day, Attendance.one_per_date,
      Attendance.distinct_ids in *.
    cbn [snd Attendance.attendances Attendance.jours_feries].
    split; [exact Hd | split; [ | exact Hi]].
    rewrite map_app. cbn [map Attendance.f_date_feriee].
    apply NoDup_app; [exact Hf | repeat constructor; intros [] | ].
    intros d Hin [<- | []]. apply in_map_iff in Hin.
    destruct Hin as (f & Ef & Hin).
    assert (Hex : existsb
              (fun f => (Attendance.f_date_feriee f
                         =? FerieBody.date_feriee body)%Z)
              (Attendance.jours_feries t) = true).
    { apply existsb_exists. exists f. split; [exact Hin | ].
      now apply Z.eqb_eq. }
    congruence.
Qed.

Lemma attendance_keys_stay_unique_witness :
  let t' := snd (Attendance.post_checkin 499 DemoTemps.pointage
                   Demo.db_actif DemoTemps.t0) in
  Attendance.one_per_day t' /\ Attendance.one_per_date t'
  /\ Attendance.distinct_ids t'.
Proof.
  apply (proj1 (attendance_keys_stay_unique DemoTemps.t0
                  (NoDup_nil _) (NoDup_nil _) (NoDup_nil _))
           499%Z DemoTemps.pointage Demo.db_actif).
Defined.

(** X18.  A day is checked out once: when no employee has two attendance
    rows for one day, after an accepted checkout a further checkout of the
    same employee on the same day finds no open row and is answered with
    404, the tables staying as they are. *)
Theorem checkout_only_once :
  forall dateToday dayOfWeek e heure_sortie t dayOfWeek' heure_sortie',
    Attendance.one_per_day t ->
    fst (fst (Attendance.put_checkout dateToday dayOfWeek e
                (Some heure_sortie) t)) = 200%nat ->
    is_HHMM heure_sortie' = true ->
    let t' := snd (Attendance.put_checkout dateToday dayOfWeek e
                     (Some heure_sortie) t) in
    Attendance.put_checkout dateToday dayOfWeek' e (Some heure_sortie') t'
    = ((404%nat, None), t').
Proof.
  intros d w e hs t w' hs' Hd Hok Hv t'. subst t'.
  destruct (put_checkout_cases d w e (Some hs) t)
    as [[_ Herr] | (hs0 & a & rest & h & _ & _ & Hf & _ & E)].
  { rewrite Hok in Herr. destruct Herr as [H | [H | H]]; discriminate. }
  rewrite E. cbn [snd].
  unfold Attendance.put_checkout at 1. rewrite Hv. cbn [negb].
  cbn [Attendance.attendances].
  assert (Ha : In a (filter (Attendance.en_cours e d) (Attendance.attendances t)))
    by (rewrite Hf; left; reflexivity).
  apply en_cours_In in Ha. destruct Ha as (Hin & Hk & _).
  rewrite existsb_false_filter; [reflexivity | ].
  destruct (existsb _ _) eqn:Ex; [ | reflexivity]. exfalso.
  apply existsb_exists in Ex. destruct Ex as (x' & Hx' & Hopen).
  apply In_update_where in Hx'. destruct Hx' as (x & Hx & ->).
  destruct (Attendance.a_id x =? Attendance.a_id a)%Z eqn:Eid.
  - unfold Attendance.en_cours in Hopen. cbn in Hopen.
    rewrite andb_false_r in Hopen. discriminate.
  - assert (Hox : In x (filter (Attendance.en_cours e d)
                          (Attendance.attendances t)))
      by (apply filter_In; auto).
    apply en_cours_In in Hox. destruct Hox as (_ & Hkx & _).
    assert (x = a).
    { apply (NoDup_map_injective cle (Attendance.attendances t)); auto.
      congruence. }
    subst x. rewrite Z.eqb_refl in Eid. discriminate.
Qed.

Lemma checkout_only_once_witness :
  let t' := snd (Attendance.put_checkout 500 3 1 (Some "17:30") DemoTemps.t1) in
  Attendance.put_checkout 500 3 1 (Some "18:00") t' = ((404%nat, None), t').
Proof.
  apply (checkout_only_once 500%Z 3%Z 1%Z "17:30" DemoTemps.t1 3%Z "18:00").
  - repeat constructor. intros [].
  - reflexivity.
  - reflexivity.
Defined.

(** X19.  A checkout writes the exit columns of the open row and nothing
    else: identifiers, employees, days, entry times and sources of all
    rows stay as they are, so does the holiday table, and (identifiers
    being distinct) a row that was already checked out keeps its
    figures. *)
Theorem checkout_keeps_other_columns :
  forall dateToday dayOfWeek e body t,
    Attendance.distinct_ids t ->
    let t' := snd (Attendance.put_checkout dateToday dayOfWeek e body t) in
    map (fun a => (Attendance.a_id a, cle a, Attendance.a_heure_entree a,
                   Attendance.a_source a)) (Attendance.attendances t')
    = map (fun a => (Attendance.a_id a, cle a, Attendance.a_heure_entree a,
                     Attendance.a_source a)) (Attendance.attendances t)
    /\ Attendance.jours_feries t' = Attendance.jours_feries t
    /\ forall k a s,
         nth_error (Attendance.attendances t) k = Some a ->
         Attendance.a_sortie a = Some s ->
         nth_error (Attendance.attendances t') k = Some a.
Proof.
  intros d w e body t Hi t'. subst t'.
  destruct (put_checkout_cases d w e body t)
    as [[-> _] | (hs & a & rest & h & _ & _ & Hf & _ & ->)]; [auto | ].
  cbn [snd Attendance.attendances Attendance.jours_feries].
  split; [apply map_update_where; reflexivity | ].
  split; [reflexivity | ].
  intros k x s Hk Hs. apply nth_error_update_where; [exact Hk | ].
  apply Z.eqb_neq. intros Eid.
  assert (Ha : In a (filter (Attendance.en_cours e d) (Attendance.attendances t)))
    by (rewrite Hf; left; reflexivity).
  apply en_cours_In in Ha. destruct Ha as (Hin & _ & Hnone).
  assert (x = a).
  { apply (NoDup_map_injective Attendance.a_id (Attendance.attendances t));
      auto. eapply nth_error_In. exact Hk. }
  subst x. congruence.
Qed.

Lemma checkout_keeps_other_columns_witness :
  let t' := snd (Attendance.put_checkout 500 3 1 (Some "17:30") DemoTemps.t1) in
  map (fun a => (Attendance.a_id a, cle a, Attendance.a_heure_entree a,
                 Attendance.a_source a)) (Attendance.attendances t')
  = map (fun a => (Attendance.a_id a, cle a, Attendance.a_heure_entree a,
                   Attendance.a_source a))
      (Attendance.attendances DemoTemps.t1)
  /\ Attendance.jours_feries t' = Attendance.jours_feries DemoTemps.t1
  /\ forall k a s,
       nth_error (Attendance.attendances DemoTemps.t1) k = Some a ->
       Attendance.a_sortie a = Some s ->
       nth_error (Attendance.attendances t') k = Some a.
Proof.
  apply (checkout_keeps_other_columns 500%Z 3%Z 1%Z (Some "17:30")
           DemoTemps.t1).
  repeat constructor. intros [].
Defined.

(** X20.  The checkout has no guard on the order of the two times either:
    for an open row with a valid entry time and a valid exit time that is
    not later, it is answered with 200, the total it reports is nonpositive
    and so are the normal hours it stores on an ordinary day. *)
Theorem checkout_accepts_exit_before_entry :
  forall dateToday dayOfWeek e heure_sortie t attendance rest entree sortie,
    is_HHMM heure_sortie = true ->
    filter (Attendance.en_cours e dateToday) (Attendance.attendances t)
    = attendance :: rest ->
    timeToMinutes (Attendance.a_heure_entree attendance) = Some entree ->
    timeToMinutes heure_sortie = Some sortie ->
    (sortie <= entree)%Z ->
    exists h,
      Attendance.put_checkout dateToday dayOfWeek e (Some heure_sortie) t
      = ((200%nat, Some h),
         Attendance.mkTables (Attendance.jours_feries t)
           (update_where
              (fun a => (Attendance.a_id a =? Attendance.a_id attendance)%Z)
              (Attendance.set_sortie (Attendance.stored heure_sortie h))
              (Attendance.attendances t)))
      /\ totalHours h <= 0
      /\ (Attendance.isHoliday t dateToday = false -> dayOfWeek <> 0%Z ->
          Attendance.p_heures_normales (Attendance.stored heure_sortie h)
          <= 0).
Proof.
  intros d w e hs t a rest en so Hv Hf He Hs Hle.
  pose proof (total_nonpositive en so Hle) as Hneg.
  unfold Attendance.put_checkout. rewrite Hv, Hf. cbn [negb].
  destruct (Attendance.isHoliday t d || (w =? 0)%Z) eqn:Hd.
  - rewrite (calculateHours_special _ _ _ _ He Hs _ _ _ Hd).
    eexists. split; [reflexivity | ]. cbn [totalHours].
    split; [exact Hneg | ].
    intros Hh Hw. rewrite Hh in Hd. cbn [orb] in Hd.
    apply Z.eqb_eq in Hd. contradiction.
  - apply orb_false_iff in Hd. destruct Hd as [-> ->].
    rewrite (calculateHours_ordinary _ _ _ _ He Hs).
    eexists. split; [reflexivity | ]. cbn [totalHours].
    split; [exact Hneg | ]. intros _ _.
    cbn [Attendance.stored Attendance.p_heures_normales heures_normales].
    set (total := Math_ceil (rawHours en so * 4) / 4) in *.
    assert (Ht : is_quarter total) by (unfold total; auto with quarters).
    assert (H8 : is_quarter 8) by apply (is_quarter_Z 8).
    rewrite toFixed2_exact by auto with quarters.
    apply Qle_trans with total; [apply Q.le_min_l | exact Hneg].
Qed.

Lemma checkout_accepts_exit_before_entry_witness :
  exists h,
    Attendance.put_checkout 500 3 1 (Some "07:10") DemoTemps.t1
    = ((200%nat, Some h),
       Attendance.mkTables (Attendance.jours_feries DemoTemps.t1)
         (update_where (fun a => (Attendance.a_id a =? 1)%Z)
            (Attendance.set_sortie (Attendance.stored "07:10" h))
            (Attendance.attendances DemoTemps.t1)))
    /\ totalHours h <= 0
    /\ (Attendance.isHoliday DemoTemps.t1 500 = false -> 3%Z <> 0%Z ->
        Attendance.p_heures_normales (Attendance.stored "07:10" h) <= 0).
Proof.
  apply (checkout_accepts_exit_before_entry 500%Z 3%Z 1%Z "07:10" DemoTemps.t1
           (Attendance.mkPointage 1 1 500 "08:00" "Manuel" None) []
           480%Z 430%Z);
    [reflexivity | reflexivity | reflexivity | reflexivity | lia].
Defined.

Section CheckinCheckout.

Import Attendance.

Lemma filter_en_cours_absent e d l :
  ~ In (e, d) (map cle l) -> filter (en_cours e d) l = [].
Proof.
  intros Hn. apply existsb_false_filter.
  destruct (existsb (en_cours e d) l) eqn:E; [ | reflexivity].
  exfalso. apply Hn. apply existsb_exists in E. destruct E as (a & Hin & Ha).
  unfold en_cours in Ha. apply andb_true_iff in Ha. destruct Ha as [Ha _].
  apply existsb_cle. apply existsb_exists. exists a. auto.
Qed.

End CheckinCheckout.

(** X21.  Check-in, then checkout.  After an accepted check-in the row is
    dated with the date_pointage of the body or, when the body has none,
    with the date at which the schema was built.  A checkout of that
    employee on that date, with a valid exit time, is answered with 200
    and the figures of calculateHours for the entry time of the check-in,
    the exit time, the holiday calendar and the day of the week; a
    checkout on another date, for which the employee has no row, is
    answered with 404 and changes nothing. *)
Theorem checkin_then_checkout :
  forall date_schema body db t dateToday dayOfWeek heure_sortie,
    fst (fst (Attendance.post_checkin date_schema body db t)) = 201%nat ->
    is_HHMM heure_sortie = true ->
    let t1 := snd (Attendance.post_checkin date_schema body db t) in
    let jour := supplied (CheckinBody.date_pointage body) date_schema in
    (dateToday = jour ->
     exists h,
       calculateHours (CheckinBody.heure_entree body) heure_sortie
         (Attendance.isHoliday t dateToday) (dayOfWeek =? 0)%Z
         (Attendance.majorationFeriee t dateToday) = Some h
       /\ fst (Attendance.put_checkout dateToday dayOfWeek
                 (CheckinBody.employee_id body) (Some heure_sortie) t1)
          = (200%nat, Some h))
    /\ (dateToday <> jour ->
        ~ In (CheckinBody.employee_id body, dateToday)
             (map cle (Attendance.attendances t)) ->
        Attendance.put_checkout dateToday dayOfWeek
          (CheckinBody.employee_id body) (Some heure_sortie) t1
        = ((404%nat, None), t1)).
Proof.
  intros ds body db t d w hs Hok Hv t1 jour. subst t1 jour.
  destruct (post_checkin_cases ds body db t) as [[_ Hno] | (E & Hs & _ & Hn)];
    [contradiction | ].
  rewrite E. cbn [snd].
  assert (Hve : is_HHMM (CheckinBody.heure_entree body) = true).
  { unfold Attendance.checkinSchema in Hs.
    repeat (apply andb_true_iff in Hs; destruct Hs as [Hs ?]). assumption. }
  split.
  - intros ->.
    destruct (timeToMinutes_HHMM _ Hve) as (en & Hen & _).
    destruct (timeToMinutes_HHMM _ Hv) as (so & Hso & _).
    destruct (calculateHours_total _ _ _ _ Hen Hso
                (Attendance.isHoliday t
                   (supplied (CheckinBody.date_pointage body) ds))
                (w =? 0)%Z
                (Attendance.majorationFeriee t
                   (supplied (CheckinBody.date_pointage body) ds)))
      as (h & Hh & _).
    exists h. split; [exact Hh | ].
    unfold Attendance.put_checkout. rewrite Hv. cbn [negb].
    cbn [Attendance.attendances]. rewrite filter_app.
    rewrite (filter_en_cours_absent _ _ _ Hn).
    cbn [app filter]. unfold Attendance.en_cours at 1.
    cbn [Attendance.a_employee_id Attendance.a_date_pointage
         Attendance.a_sortie Attendance.a_heure_entree].
    rewrite !Z.eqb_refl. cbn [andb].
    match goal with
    | |- context [calculateHours _ _ ?a _ ?c] =>
        change a with (Attendance.isHoliday t
                         (supplied (CheckinBody.date_pointage body) ds));
        change c with (Attendance.majorationFeriee t
                         (supplied (CheckinBody.date_pointage body) ds))
    end.
    cbn [Attendance.a_heure_entree]. rewrite Hh. reflexivity.
  - intros Hne Hnd.
    unfold Attendance.put_checkout. rewrite Hv. cbn [negb].
    cbn [Attendance.attendances]. rewrite filter_app.
    rewrite (filter_en_cours_absent _ _ _ Hnd).
    cbn [app filter]. unfold Attendance.en_cours.
    cbn [Attendance.a_employee_id Attendance.a_date_pointage
         Attendance.a_sortie].
    destruct (Z.eqb_spec (supplied (CheckinBody.date_pointage body) ds) d)
      as [Heq | _]; [congruence | ].
    rewrite andb_false_r. reflexivity.
Qed.

Lemma checkin_then_checkout_witness :
  let t1 := snd (Attendance.post_checkin 499 DemoTemps.pointage_sans_date
                   Demo.db_actif DemoTemps.t0) in
  (500%Z = 499%Z ->
   exists h,
     calculateHours "08:00" "17:30" (Attendance.isHoliday DemoTemps.t0 500)
       (3 =? 0)%Z (Attendance.majorationFeriee DemoTemps.t0 500) = Some h
     /\ fst (Attendance.put_checkout 500 3 1 (Some "17:30") t1)
        = (200%nat, Some h))
  /\ (500%Z <> 499%Z ->
      ~ In (1%Z, 500%Z) (map cle (Attendance.attendances DemoTemps.t0)) ->
      Attendance.put_checkout 500 3 1 (Some "17:30") t1
      = ((404%nat, None), t1)).
Proof.
  apply (checkin_then_checkout 499%Z DemoTemps.pointage_sans_date
           Demo.db_actif DemoTemps.t0 500%Z 3%Z "17:30");
    reflexivity.
Defined.

(* ------------------------------------------------------------------ *)
(** ** The organisational structure *)

Section StructureRoutes.

Import Structure.

Lemma insertId_new {A} (key : A -> Id) (l : list A) :
  ~ In (insertId key l) (map key l).
Proof.
  intros H. apply in_map_iff in H. destruct H as (r & E & Hin).
  apply (insertId_fresh key) in Hin. lia.
Qed.

Lemma existsb_code {A} (code : A -> string) c (l : list A) :
  existsb (fun a => String.eqb (code a) c) l = false -> ~ In c (map code l).
Proof.
  intros E H. apply in_map_iff in H. destruct H as (a & Ea & Hin).
  assert (X : existsb (fun a => String.eqb (code a) c) l = true).
  { apply existsb_exists. exists a. split; [exact Hin | ].
    apply String.eqb_eq. exact Ea. }
  congruence.
Qed.

Lemma filter_id_found {A} (key : A -> Id) i (l : list A) :
  (List.length (filter (fun a => (key a =? i)%Z) l) =? 0)%nat = false ->
  In i (map key l).
Proof.
  intros E. destruct (filter (fun a => (key a =? i)%Z) l) as [ | a f] eqn:F.
  - discriminate E.
  - assert (Hin : In a (filter (fun a => (key a =? i)%Z) l))
      by (rewrite F; left; reflexivity).
    apply filter_In in Hin. destruct Hin as [Hin K].
    apply Z.eqb_eq in K. apply in_map_iff. exists a. split; assumption.
Qed.

Lemma NoDup_snoc {A} (l : list A) x : NoDup l -> ~ In x l -> NoDup (l ++ [x]).
Proof.
  intros N H. apply NoDup_rev in N. rewrite <- (rev_involutive (l ++ [x])).
  apply NoDup_rev. rewrite rev_app_distr. cbn [rev app].
  constructor; [ | exact N].
  intros Hin. apply H. apply in_rev. exact Hin.
Qed.

(** What one request does: nothing, or one row at the end of one table. *)
Lemma handle_cases r t :
  (fst (fst (handle r t)) <> 201%nat /\ snd (handle r t) = t)
  \/ (fst (fst (handle r t)) = 201%nat
      /\ match r with
         | NewSite value =>
             ~ In (SiteBody.code_site value) (map s_code_site (sites t))
             /\ exists s,
                 s_id s = insertId s_id (sites t)
                 /\ s_code_site s = SiteBody.code_site value
                 /\ snd (handle r t)
                    = mkTables (sites t ++ [s]) (departments t) (services t)
                        (teams t)
         | NewDepartment value =>
             ~ In (DepartmentBody.code_interne value)
                 (map d_code_interne (departments t))
             /\ In (DepartmentBody.site_id value) (map s_id (sites t))
             /\ exists d,
                 d_id d = insertId d_id (departments t)
                 /\ d_code_interne d = DepartmentBody.code_interne value
                 /\ d_site_id d = DepartmentBody.site_id value
                 /\ snd (handle r t)
                    = mkTables (sites t) (departments t ++ [d]) (services t)
                        (teams t)
         | NewService value =>
             ~ In (ServiceBody.code_metier value)
                 (map v_code_metier (services t))
             /\ In (ServiceBody.department_id value)
                  (map d_id (departments t))
             /\ exists v,
                 v_id v = insertId v_id (services t)
                 /\ v_code_metier v = ServiceBody.code_metier value
                 /\ v_department_id v = ServiceBody.department_id value
                 /\ snd (handle r t)
                    = mkTables (sites t) (departments t) (services t ++ [v])
                        (teams t)
         | NewTeam value =>
             In (TeamBody.service_id value) (map v_id (services t))
             /\ exists m,
                 t_id m = insertId t_id (teams t)
                 /\ t_service_id m = TeamBody.service_id value
                 /\ snd (handle r t)
                    = mkTables (sites t) (departments t) (services t)
                        (teams t ++ [m])
         end).
Proof.
  destruct r as [value | value | value | value]; cbn [handle].
  - unfold post_sites.
    destruct (negb (siteSchema value));
      [left; split; [discriminate | reflexivity] | ].
    destruct (existsb _ (sites t)) eqn:C;
      [left; split; [discriminate | reflexivity] | ].
    right. split; [reflexivity | ]. split.
    + apply (existsb_code s_code_site). exact C.
    + eexists. cbn [fst snd]. repeat split; reflexivity.
  - unfold post_departments.
    destruct (negb (departmentSchema value));
      [left; split; [discriminate | reflexivity] | ].
    destruct (List.length _ =? 0)%nat eqn:F;
      [left; split; [discriminate | reflexivity] | ].
    destruct (existsb _ (departments t)) eqn:C;
      [left; split; [discriminate | reflexivity] | ].
    right. split; [reflexivity | ]. split; [ | split].
    + apply (existsb_code d_code_interne). exact C.
    + apply (filter_id_found s_id). exact F.
    + eexists. cbn [fst snd]. repeat split; reflexivity.
  - unfold post_services.
    destruct (negb (serviceSchema value));
      [left; split; [discriminate | reflexivity] | ].
    destruct (List.length _ =? 0)%nat eqn:F;
      [left; split; [discriminate | reflexivity] | ].
    destruct (existsb _ (services t)) eqn:C;
      [left; split; [discriminate | reflexivity] | ].
    right. split; [reflexivity | ]. split; [ | split].
    + apply (existsb_code v_code_metier). exact C.
    + apply (filter_id_found d_id). exact F.
    + eexists. cbn [fst snd]. repeat split; reflexivity.
  - unfold post_teams.
    destruct (negb (teamSchema value));
      [left; split; [discriminate | reflexivity] | ].
    destruct (List.length _ =? 0)%nat eqn:F;
      [left; split; [discriminate | reflexivity] | ].
    right. split; [reflexivity | ]. split.
    + apply (filter_id_found v_id). exact F.
    + eexists. cbn [fst snd]. repeat split; reflexivity.
Qed.

Lemma structure_serve_snoc t rs r :
  serve t (rs ++ [r]) = snd (handle r (serve t rs)).
Proof. unfold serve. rewrite fold_left_app. reflexivity. Qed.

Lemma handle_rooted r t : rooted t -> rooted (snd (handle r t)).
Proof.
  intros (Rd & Rv & Rm).
  destruct (handle_cases r t) as [[_ ->] | [_ H]]; [repeat split; assumption | ].
  destruct r as [value | value | value | value].
  - destruct H as (_ & s & _ & _ & ->). repeat split; cbn; try assumption.
    intros d Hd. rewrite map_app. apply in_or_app. left. apply Rd. exact Hd.
  - destruct H as (_ & Hs & d & _ & _ & Es & ->).
    repeat split; cbn; try assumption.
    + intros d' Hd. apply in_app_or in Hd. destruct Hd as [Hd | [<- | []]].
      * apply Rd. exact Hd.
      * rewrite Es. exact Hs.
    + intros v Hv. rewrite map_app. apply in_or_app. left. apply Rv. exact Hv.
  - destruct H as (_ & Hd & v & _ & _ & Ed & ->).
    repeat split; cbn; try assumption.
    + intros v' Hv. apply in_app_or in Hv. destruct Hv as [Hv | [<- | []]].
      * apply Rv. exact Hv.
      * rewrite Ed. exact Hd.
    + intros m Hm. rewrite map_app. apply in_or_app. left. apply Rm. exact Hm.
  - destruct H as (Hv & m & _ & Ev & ->).
    repeat split; cbn; try assumption.
    intros m' Hm. apply in_app_or in Hm. destruct Hm as [Hm | [<- | []]].
    + apply Rm. exact Hm.
    + rewrite Ev. exact Hv.
Qed.

Lemma serve_rooted t rs : rooted t -> rooted (serve t rs).
Proof.
  intros R. induction rs as [ | r rs IH] using rev_ind; [exact R | ].
  rewrite structure_serve_snoc. apply handle_rooted. exact IH.
Qed.

Lemma rooted_line t m : rooted t -> In m (teams t) -> line_of t m.
Proof.
  intros (Rd & Rv & Rm) Hm.
  apply Rm in Hm. apply in_map_iff in Hm. destruct Hm as (v & Ev & Hv).
  pose proof (Rv v Hv) as Hd. apply in_map_iff in Hd.
  destruct Hd as (d & Ed & Hd).
  pose proof (Rd d Hd) as Hs. apply in_map_iff in Hs.
  destruct Hs as (s & Es & Hs).
  exists v, d, s. repeat split; try assumption; symmetry; assumption.
Qed.

Lemma handle_distinct r t : distinct t -> distinct (snd (handle r t)).
Proof.
  intros D.
  destruct (handle_cases r t) as [[_ ->] | [_ H]]; [exact D | ].
  destruct D as (D1 & D2 & D3 & D4 & D5 & D6 & D7).
  destruct r as [value | value | value | value].
  - destruct H as (Hc & s & Ei & Ec & ->).
    repeat split; cbn; try assumption; rewrite map_app; cbn [map];
      apply NoDup_snoc; try assumption.
    + rewrite Ec. exact Hc.
    + rewrite Ei. apply insertId_new.
  - destruct H as (Hc & _ & d & Ei & Ec & _ & ->).
    repeat split; cbn; try assumption; rewrite map_app; cbn [map];
      apply NoDup_snoc; try assumption.
    + rewrite Ec. exact Hc.
    + rewrite Ei. apply insertId_new.
  - destruct H as (Hc & _ & v & Ei & Ec & _ & ->).
    repeat split; cbn; try assumption; rewrite map_app; cbn [map];
      apply NoDup_snoc; try assumption.
    + rewrite Ec. exact Hc.
    + rewrite Ei. apply insertId_new.
  - destruct H as (_ & m & Ei & _ & ->).
    repeat split; cbn; try assumption; rewrite map_app; cbn [map];
      apply NoDup_snoc; try assumption.
    rewrite Ei. apply insertId_new.
Qed.

Lemma extends_refl t : extends t t.
Proof. repeat split; exists []; rewrite app_nil_r; reflexivity. Qed.

Lemma extends_trans t t' t'' : extends t t' -> extends t' t'' -> extends t t''.
Proof.
  intros ([a Ea] & [b Eb] & [c Ec] & [d Ed])
         ([a' Ea'] & [b' Eb'] & [c' Ec'] & [d' Ed']).
  repeat split.
  - exists (a ++ a'). rewrite Ea', Ea, app_assoc. reflexivity.
  - exists (b ++ b'). rewrite Eb', Eb, app_assoc. reflexivity.
  - exists (c ++ c'). rewrite Ec', Ec, app_assoc. reflexivity.
  - exists (d ++ d'). rewrite Ed', Ed, app_assoc. reflexivity.
Qed.

Lemma handle_extends r t : extends t (snd (handle r t)).
Proof.
  destruct (handle_cases r t) as [[_ ->] | [_ H]]; [apply extends_refl | ].
  destruct r as [value | value | value | value].
  - destruct H as (_ & s & _ & _ & ->).
    repeat split; cbn; try (exists []; rewrite app_nil_r; reflexivity).
    exists [s]. reflexivity.
  - destruct H as (_ & _ & d & _ & _ & _ & ->).
    repeat split; cbn; try (exists []; rewrite app_nil_r; reflexivity).
    exists [d]. reflexivity.
  - destruct H as (_ & _ & v & _ & _ & _ & ->).
    repeat split; cbn; try (exists []; rewrite app_nil_r; reflexivity).
    exists [v]. reflexivity.
  - destruct H as (_ & m & _ & _ & ->).
    repeat split; cbn; try (exists []; rewrite app_nil_r; reflexivity).
    exists [m]. reflexivity.
Qed.

End StructureRoutes.

(** X22.  POST /sites, /departments, /services and /teams keep the
    structure rooted: when every department has its site, every service
    its department and every team its service, the same holds after any
    list of creation requests, and every team then has a service, a
    department and a site above it. *)
Theorem structure_stays_rooted :
  forall t rs,
    Structure.rooted t ->
    Structure.rooted (Structure.serve t rs)
    /\ forall m, In m (Structure.teams (Structure.serve t rs)) ->
                 line_of (Structure.serve t rs) m.
Proof.
  intros t rs R. pose proof (serve_rooted t rs R) as R'.
  split; [exact R' | ].
  intros m Hm. apply rooted_line; assumption.
Qed.

Lemma structure_stays_rooted_witness :
  Structure.rooted Structure.empty
  /\ Structure.rooted DemoStructure.t4
  /\ line_of DemoStructure.t4
       (Structure.mkTeam 1%Z "Equipe A"%string None 1%Z).
Proof.
  assert (R : Structure.rooted Structure.empty)
    by (repeat split; intros x []).
  split; [exact R | ].
  destruct (structure_stays_rooted Structure.empty DemoStructure.requests R)
    as [R' L].
  split; [exact R' | ]. apply L. left. reflexivity.
Defined.

(** X23.  The creation routes keep site codes, department codes and
    service codes distinct, and identifiers distinct in each of the four
    tables, over any list of requests. *)
Theorem structure_codes_stay_distinct :
  forall t rs, Structure.distinct t -> Structure.distinct (Structure.serve t rs).
Proof.
  intros t rs D. induction rs as [ | r rs IH] using rev_ind; [exact D | ].
  rewrite structure_serve_snoc. apply handle_distinct. exact IH.
Qed.

Lemma structure_codes_stay_distinct_witness :
  Structure.distinct Structure.empty /\ Structure.distinct DemoStructure.t4.
Proof.
  assert (D : Structure.distinct Structure.empty)
    by (repeat split; constructor).
  split; [exact D | ].
  exact (structure_codes_stay_distinct Structure.empty
           DemoStructure.requests D).
Defined.

(** X24.  The creation routes only add rows: after any list of requests
    each table starts with the rows it had, unchanged and in place; and a
    request that is not answered 201 leaves the four tables as they
    were. *)
Theorem structure_only_grows :
  forall t rs,
    extends t (Structure.serve t rs)
    /\ forall r, fst (fst (Structure.handle r t)) <> 201%nat ->
                 snd (Structure.handle r t) = t.
Proof.
  intros t rs. split.
  - induction rs as [ | r rs IH] using rev_ind; [apply extends_refl | ].
    rewrite structure_serve_snoc. eapply extends_trans; [exact IH | ].
    apply handle_extends.
  - intros r H. destruct (handle_cases r t) as [[_ E] | [E _]];
      [exact E | contradiction].
Qed.

Lemma structure_only_grows_witness :
  extends Structure.empty DemoStructure.t4
  /\ snd (Structure.handle (Structure.NewDepartment DemoStructure.finances)
            Structure.empty)
     = Structure.empty.
Proof.
  destruct (structure_only_grows Structure.empty DemoStructure.requests)
    as [E H].
  split; [exact E | ]. apply H. vm_compute. discriminate.
Defined.

(* ------------------------------------------------------------------ *)
(** ** Employees who are no longer active *)

Section InactiveEmployee.

Lemma licencie_inactif db e :
  (forall r, In r (employees db) -> id r = e -> statut r = "Licencié"%string) ->
  HR.employe_actif db e = false.
Proof.
  intros H. unfold HR.employe_actif. apply not_true_is_false. intros X.
  apply existsb_exists in X. destruct X as (r & Hin & C).
  apply andb_true_iff in C. destruct C as [Ci Cs].
  apply Z.eqb_eq in Ci. apply String.eqb_eq in Cs.
  rewrite (H r Hin Ci) in Cs. discriminate Cs.
Qed.

Lemma inactif_turned_away db e :
  HR.employe_actif db e = false -> turned_away db e.
Proof.
  intros H. repeat split.
  - intros value S <-. unfold HR.post_contracts. rewrite S, H. reflexivity.
  - intros now user value S <-. unfold Leaves.post_leaves.
    rewrite S, H. reflexivity.
  - intros date_schema body t S <-. unfold Attendance.post_checkin.
    rewrite S, H. reflexivity.
Qed.

Lemma found_known db e :
  known db e ->
  (List.length (filter (fun r => (id r =? e)%Z) (employees db)) =? 0)%nat
  = false.
Proof.
  unfold known. intros K. apply in_map_iff in K. destruct K as (r & E & Hin).
  assert (X : In r (filter (fun r => (id r =? e)%Z) (employees db))).
  { apply filter_In. split; [exact Hin | ]. apply Z.eqb_eq. exact E. }
  destruct (filter _ (employees db)); [contradiction | reflexivity].
Qed.

(** An accepted update rewrites the rows of the employee with the
    clauses of the body. *)
Lemma put_accepted today user e b db :
  status (fst (Employee.put today user e b db)) = 200%nat ->
  exists cur,
    find_employee db e = Some cur
    /\ employees (snd (Employee.put today user e b db))
       = update_where (fun r => (id r =? e)%Z)
           (apply_clauses (clauses_of b)) (employees db).
Proof.
  intros H.
  assert (R : snd (Employee.put today user e b db) = db
              /\ (status (fst (Employee.put today user e b db)) = 400%nat
                  \/ status (fst (Employee.put today user e b db)) = 404%nat)
              -> False).
  { intros [_ [E | E]]; rewrite E in H; discriminate H. }
  destruct (Employee.employeeUpdateSchema b) eqn:Hs;
    [ | exfalso; apply R, (put_refused today user e b db); left; exact Hs].
  destruct (find_employee db e) as [cur | ] eqn:Hf;
    [ | exfalso; apply R, (put_refused today user e b db); right; left;
        exact Hf].
  exists cur. split; [reflexivity | ].
  destruct (Employee.isAffectationChange b (placement cur)) eqn:E.
  - apply (isAffectationChange_valid _ _ Hs) in E.
    destruct (UpdateBody.motif_changement b) as [m | ] eqn:Hm.
    + rewrite (put_change today user e b db cur m Hs Hf E Hm). reflexivity.
    + exfalso. apply R, (put_refused today user e b db). right. right.
      exists cur. auto.
  - rewrite (put_no_change today user e b db cur Hs Hf); [reflexivity | ].
    intros Hd. apply (isAffectationChange_valid _ _ Hs) in Hd. congruence.
Qed.

(** The rows of a known employee stay 'Licencié' through a request that
    is not an update of that employee with a status. *)
Lemma licencie_kept e r db :
  known db e ->
  (forall x, In x (employees db) -> id x = e -> statut x = "Licencié"%string) ->
  sets_statut e r = false ->
  known (snd (handle r db)) e
  /\ forall x, In x (employees (snd (handle r db))) -> id x = e ->
               statut x = "Licencié"%string.
Proof.
  intros Hk HL Hr. split.
  { unfold known in *. destruct (handle_ids r db) as [-> | ->];
      [exact Hk | apply in_or_app; left; exact Hk]. }
  destruct r as [today user body | today user e0 b | today user e0];
    cbn [handle].
  - destruct (post_cases today user body db) as [[-> _] | ->];
      [exact HL | ].
    cbn [snd employees]. intros x Hin Hid.
    apply in_app_or in Hin. destruct Hin as [Hin | [<- | []]];
      [now apply HL | ].
    cbn [id] in Hid. exfalso. apply (fresh_unknown db). rewrite Hid.
    exact Hk.
  - intros x Hin Hid.
    destruct (Nat.eq_dec (status (fst (Employee.put today user e0 b db))) 200)
      as [H200 | Hn].
    + destruct (put_accepted today user e0 b db H200) as (cur & _ & E).
      rewrite E in Hin. apply In_update_where in Hin.
      destruct Hin as (x0 & Hin & ->).
      destruct (id x0 =? e0)%Z eqn:E0.
      * rewrite apply_clauses_id in Hid.
        rewrite apply_clauses_statut.
        apply Z.eqb_eq in E0. cbn [sets_statut] in Hr.
        assert (Ee : (e0 =? e)%Z = true)
          by (apply Z.eqb_eq; congruence).
        rewrite Ee in Hr. cbn [andb] in Hr.
        destruct (UpdateBody.statut b); [discriminate Hr | ].
        cbn [supplied]. now apply HL.
      * now apply HL.
    + destruct (put_cases today user e0 b db)
        as [E | (cur & Hs & Hf & [Hd | (Hd & m & Hm)])].
      * rewrite E in Hin. now apply HL.
      * exfalso. apply Hn.
        rewrite (put_no_change today user e0 b db cur Hs Hf Hd).
        reflexivity.
      * exfalso. apply Hn.
        rewrite (put_change today user e0 b db cur m Hs Hf Hd Hm).
        reflexivity.
  - destruct (delete_cases Employee.mysql2_FOUND_ROWS today user e0 db)
      as [-> | ->]; [exact HL | ].
    cbn [snd employees]. intros x Hin Hid.
    apply In_update_where in Hin. destruct Hin as (x1 & Hin & ->).
    apply In_update_where in Hin. destruct Hin as (x0 & Hin & ->).
    destruct (id x0 =? e0)%Z eqn:E0.
    + assert (E1 : (id (Employee.assign (Employee.SetStatut "Licencié") x0)
                    =? e0)%Z = true) by (rewrite assign_id; exact E0).
      rewrite E1. reflexivity.
    + rewrite E0 in Hid |- *. now apply HL.
Qed.

Lemma licencie_lasts e db rs :
  known db e ->
  (forall x, In x (employees db) -> id x = e -> statut x = "Licencié"%string) ->
  forallb (fun r => negb (sets_statut e r)) rs = true ->
  turned_away (serve db rs) e.
Proof.
  intros Hk HL Hrs. apply inactif_turned_away, licencie_inactif.
  assert (G : known (serve db rs) e
              /\ forall x, In x (employees (serve db rs)) -> id x = e ->
                           statut x = "Licencié"%string);
    [ | exact (proj2 G)].
  induction rs as [ | r rs IH] using rev_ind; [split; assumption | ].
  rewrite forallb_app, andb_true_iff in Hrs. destruct Hrs as [Hrs Hr].
  cbn [forallb] in Hr. rewrite andb_true_r, negb_true_iff in Hr.
  destruct (IH Hrs) as [Hk' HL']. rewrite serve_snoc.
  now apply licencie_kept.
Qed.

Lemma actif_let_through db e : HR.employe_actif db e = true -> let_through db e.
Proof.
  intros H. repeat split.
  - intros value S <-. unfold HR.post_contracts. rewrite S, H. cbn [negb].
    destruct (_ && _); cbn; discriminate.
  - intros now user value S <-. unfold Leaves.post_leaves.
    rewrite S, H. cbn [negb].
    destruct (negb _); cbn; discriminate.
  - intros date_schema body t S <-. unfold Attendance.post_checkin.
    rewrite S, H. cbn [negb].
    destruct (existsb _ _); cbn; discriminate.
Qed.

End InactiveEmployee.

(** X25.  In the tables that DELETE /api/employee/:id leaves when it
    answers 200, the routes that ask for an active employee turn the
    employee away: a valid contract, leave request or check-in for the
    employee is answered 404 and nothing is written.  This lasts over any
    further hirings, updates and archivings among which no update of
    that employee supplies a statut. *)
Theorem archived_employee_is_turned_away :
  forall found_rows today user e db rs,
    status (fst (Employee.delete found_rows today user e db)) = 200%nat ->
    forallb (fun r => negb (sets_statut e r)) rs = true ->
    turned_away (serve (snd (Employee.delete found_rows today user e db)) rs) e.
Proof.
  intros found_rows today user e db rs H Hrs.
  destruct (known_dec db e) as [Hk | Hn].
  - destruct (delete_cases found_rows today user e db) as [E | E];
      rewrite E in H |- *; [discriminate H | ].
    cbn [snd]. apply licencie_lasts; [ | | exact Hrs].
    + unfold known. cbn [employees].
      rewrite !ids_update_where by apply assign_id. exact Hk.
    + cbn [employees]. intros r Hin Hid.
      exact (proj1 (archived_rows e db r Hin Hid)).
  - exfalso. unfold Employee.delete in H.
    rewrite (affectedRows_unknown e db found_rows Hn) in H.
    discriminate H.
Qed.

Lemma archived_employee_is_turned_away_witness :
  turned_away
    (serve (snd (Employee.delete true 200%Z 7%Z 1%Z Demo.db_actif))
       [Update 210%Z 7%Z 1%Z Demo.promotion; Archive 220%Z 7%Z 1%Z]) 1%Z.
Proof.
  apply (archived_employee_is_turned_away true 200%Z 7%Z 1%Z Demo.db_actif
           [Update 210%Z 7%Z 1%Z Demo.promotion; Archive 220%Z 7%Z 1%Z]);
    reflexivity.
Defined.

(** X30.  The update route can undo an archiving or a dismissal: an
    update answered 200 whose body supplies statut 'Actif' leaves the
    employee active whatever the status was, 'Licencié' included, and a
    valid contract, leave request or check-in for the employee is then
    no longer answered 404. *)
Theorem update_reactivates_employee :
  forall today user e b db,
    status (fst (Employee.put today user e b db)) = 200%nat ->
    UpdateBody.statut b = Some "Actif"%string ->
    HR.employe_actif (snd (Employee.put today user e b db)) e = true
    /\ let_through (snd (Employee.put today user e b db)) e.
Proof.
  intros today user e b db H Hb.
  assert (A : HR.employe_actif (snd (Employee.put today user e b db)) e
              = true).
  { destruct (put_accepted today user e b db H) as (cur & Hf & E).
    unfold HR.employe_actif. rewrite E. apply existsb_exists.
    exists (apply_clauses (clauses_of b) cur).
    apply find_some in Hf. destruct Hf as [Hin Hid]. split.
    - unfold update_where. apply in_map_iff. exists cur.
      rewrite Hid. auto.
    - rewrite apply_clauses_id, Hid, apply_clauses_statut, Hb.
      reflexivity. }
  split; [exact A | now apply actif_let_through].
Qed.

Lemma update_reactivates_employee_witness :
  HR.employe_actif (snd (Employee.delete true 200%Z 7%Z 1%Z Demo.db_actif)) 1%Z
  = false
  /\ HR.employe_actif
       (snd (Employee.put 210%Z 7%Z 1%Z
               (UpdateBody.mk None None None None None None None None None
                  (Some "Actif"%string) None None None false)
               (snd (Employee.delete true 200%Z 7%Z 1%Z Demo.db_actif))))
       1%Z
     = true.
Proof.
  split; [reflexivity | ].
  apply (update_reactivates_employee 210%Z 7%Z 1%Z
           (UpdateBody.mk None None None None None None None None None
              (Some "Actif"%string) None None None false)
           (snd (Employee.delete true 200%Z 7%Z 1%Z Demo.db_actif)));
    reflexivity.
Defined.

(* ------------------------------------------------------------------ *)
(** ** Disciplinary sanctions *)

(** X26.  POST /api/hr/sanctions with a valid 'Licenciement' for a known
    employee is answered 201; the employee's rows get the status
    'Licencié' and the end-of-contract date of the sanction's effect; the
    assignment history is left as it was, so an open record stays open,
    and the link to a user account is kept; in the tables that the
    request leaves, contracts, leave requests and check-ins for the
    employee are answered 404, and they stay so over any further
    hirings, updates and archivings among which no update of that
    employee supplies a statut. *)
Theorem dismissal_by_sanction :
  forall user value db t,
    Sanctions.sanctionSchema value = true ->
    SanctionBody.type_sanction value = "Licenciement"%string ->
    known db (SanctionBody.employee_id value) ->
    let e := SanctionBody.employee_id value in
    let db' := fst (snd (Sanctions.post_sanctions user value db t)) in
    let t' := snd (snd (Sanctions.post_sanctions user value db t)) in
    fst (fst (Sanctions.post_sanctions user value db t)) = 201%nat
    /\ (forall r, In r (employees db') -> id r = e ->
                  statut r = "Licencié"%string)
    /\ Sanctions.date_fin_contrat_of t' e = Some (SanctionBody.date_effet value)
    /\ employee_affectations db' = employee_affectations db
    /\ (forall e', open_count db' e' = open_count db e')
    /\ map user_id (employees db') = map user_id (employees db)
    /\ (forall rs,
          forallb (fun r => negb (sets_statut e r)) rs = true ->
          turned_away (serve db' rs) e).
Proof.
  intros user value db t S T K e db' t'.
  assert (E : Sanctions.post_sanctions user value db t
              = ((201%nat, Some (insertId Sanctions.n_id (Sanctions.sanctions t))),
                 (mkDb (sites db) (departments db) (services db) (teams db)
                    (update_where (fun r => (id r =? e)%Z)
                       (Employee.assign (Employee.SetStatut "Licencié"))
                       (employees db))
                    (employee_affectations db) (contracts db)
                    (leave_requests db) (leave_validations db),
                  Sanctions.mkTables
                    (Sanctions.sanctions t
                     ++ [Sanctions.mkSanction
                           (insertId Sanctions.n_id (Sanctions.sanctions t))
                           e (SanctionBody.type_sanction value)
                           (SanctionBody.date_constatation value)
                           (SanctionBody.date_effet value)
                           (supplied (SanctionBody.jours_mise_a_pied value) 0%Z)
                           user])
                    ((e, SanctionBody.date_effet value)
                     :: Sanctions.date_fin_contrat t)))).
  { unfold Sanctions.post_sanctions. rewrite S. cbn [negb].
    rewrite (found_known db _ K). rewrite T. reflexivity. }
  subst db' t'. rewrite E. cbn [fst snd employees employee_affectations].
  assert (L : forall r,
             In r (update_where (fun r => (id r =? e)%Z)
                     (Employee.assign (Employee.SetStatut "Licencié"))
                     (employees db)) ->
             id r = e -> statut r = "Licencié"%string).
  { intros r Hin Hid. apply In_update_where in Hin.
    destruct Hin as (r0 & _ & ->).
    destruct (id r0 =? e)%Z eqn:E0; [reflexivity | ].
    apply Z.eqb_neq in E0. contradiction. }
  split; [reflexivity | ]. split; [exact L | ]. split.
  { unfold Sanctions.date_fin_contrat_of. cbn [Sanctions.date_fin_contrat find fst].
    rewrite Z.eqb_refl. reflexivity. }
  split; [reflexivity | ]. split; [reflexivity | ]. split.
  { apply map_update_where. intros a. reflexivity. }
  intros rs Hrs. apply licencie_lasts; [ | exact L | exact Hrs].
  unfold known. cbn [employees].
  rewrite ids_update_where by apply assign_id. exact K.
Qed.

Lemma dismissal_by_sanction_witness :
  fst (fst (Sanctions.post_sanctions 7%Z DemoSanctions.licenciement
              Demo.db_actif DemoSanctions.t0)) = 201%nat
  /\ turned_away
       (fst (snd (Sanctions.post_sanctions 7%Z DemoSanctions.licenciement
                    Demo.db_actif DemoSanctions.t0))) 1%Z.
Proof.
  assert (K : known Demo.db_actif
                (SanctionBody.employee_id DemoSanctions.licenciement))
    by (left; reflexivity).
  pose proof (dismissal_by_sanction 7%Z DemoSanctions.licenciement
                Demo.db_actif DemoSanctions.t0 eq_refl eq_refl K) as H.
  cbv zeta in H. destruct H as (H1 & _ & _ & _ & _ & _ & H7).
  split; [exact H1 | exact (H7 [] eq_refl)].
Defined.

(** X27.  A sanction of any type other than 'Licenciement', whatever the
    answer, leaves the employees, their assignment history and their
    end-of-contract dates as they were: a suspension or a demotion is
    recorded and has no other effect. *)
Theorem sanction_without_dismissal :
  forall user value db t,
    SanctionBody.type_sanction value <> "Licenciement"%string ->
    fst (snd (Sanctions.post_sanctions user value db t)) = db
    /\ Sanctions.date_fin_contrat
         (snd (snd (Sanctions.post_sanctions user value db t)))
       = Sanctions.date_fin_contrat t.
Proof.
  intros user value db t T. unfold Sanctions.post_sanctions.
  destruct (negb (Sanctions.sanctionSchema value)); [split; reflexivity | ].
  destruct (List.length _ =? 0)%nat; [split; reflexivity | ].
  destruct (String.eqb_spec (SanctionBody.type_sanction value) "Licenciement")
    as [X | _]; [contradiction | split; reflexivity].
Qed.

Lemma sanction_without_dismissal_witness :
  fst (snd (Sanctions.post_sanctions 7%Z DemoSanctions.blame Demo.db_actif
              DemoSanctions.t0)) = Demo.db_actif
  /\ Sanctions.date_fin_contrat
       (snd (snd (Sanctions.post_sanctions 7%Z DemoSanctions.blame
                    Demo.db_actif DemoSanctions.t0)))
     = Sanctions.date_fin_contrat DemoSanctions.t0.
Proof.
  apply (sanction_without_dismissal 7%Z DemoSanctions.blame Demo.db_actif
           DemoSanctions.t0).
  discriminate.
Defined.

(* ------------------------------------------------------------------ *)
(** ** The authorization header *)

Section AuthHeader.

Lemma split_without sep s : without sep s -> JS.split sep s = [s].
Proof.
  unfold without. induction s as [ | c s IH]; intros H; simpl;
    [reflexivity | ].
  simpl in H. destruct (Ascii.eqb c sep) eqn:E.
  - apply Ascii.eqb_eq in E. exfalso. apply H. left. exact E.
  - rewrite IH; [reflexivity | ]. intros X. apply H. right. exact X.
Qed.

Lemma split_with sep s :
  In sep (list_ascii_of_string s) -> exists a b l, JS.split sep s = a :: b :: l.
Proof.
  induction s as [ | c s IH]; simpl; intros H; [contradiction | ].
  destruct (Ascii.eqb c sep) eqn:E.
  - pose proof (split_nonempty sep s) as N.
    destruct (JS.split sep s) as [ | w ws]; [contradiction | ]. eauto.
  - destruct H as [H | H]; [apply Ascii.eqb_neq in E; contradiction | ].
    destruct (IH H) as (x & y & l & ->). eauto.
Qed.

Lemma token_of_second_word scheme x :
  without " " scheme ->
  Auth.token_of (Some (scheme ++ String " " x)%string)
  = nth_error (JS.split " " x) 0.
Proof.
  intros H. unfold Auth.token_of.
  assert (N : String.eqb (scheme ++ String " " x) EmptyString = false)
    by (destruct scheme; reflexivity).
  rewrite N, split_app_sep, (split_without _ _ H). reflexivity.
Qed.

End AuthHeader.

(** X28.  The middleware answers 401 exactly when the request has no
    Authorization header, or has one that is not empty and holds no
    space; the token is then never verified. *)
Theorem authMiddleware_missing_token :
  forall (Claims : Type) (jwt_verify : string -> option Claims) authHeader,
    Auth.authMiddleware jwt_verify authHeader = Auth.Refused 401%nat
    <-> (authHeader = None
         \/ exists h, authHeader = Some h /\ h <> EmptyString
                      /\ without " " h).
Proof.
  intros Claims jwt_verify authHeader. unfold Auth.authMiddleware. split.
  - destruct authHeader as [h | ]; [ | left; reflexivity].
    intros H. right. exists h. split; [reflexivity | ].
    unfold Auth.token_of in H.
    destruct (String.eqb_spec h EmptyString) as [E | E].
    + destruct (jwt_verify h); discriminate H.
    + split; [exact E | ].
      intros X. destruct (split_with " " h X) as (a & b & l & S).
      rewrite S in H. cbn [nth_error] in H.
      destruct (jwt_verify b); discriminate H.
  - intros [-> | (h & -> & N & W)]; [reflexivity | ].
    unfold Auth.token_of.
    destruct (String.eqb_spec h EmptyString) as [E | _]; [contradiction | ].
    rewrite (split_without _ _ W). reflexivity.
Qed.

Lemma authMiddleware_missing_token_witness :
  Auth.authMiddleware (fun token : string => Some token) (Some "Bearer"%string)
  = Auth.Refused 401%nat.
Proof.
  apply (authMiddleware_missing_token string (fun token => Some token)
           (Some "Bearer"%string)).
  right. exists "Bearer"%string. split; [reflexivity | ].
  split; [discriminate | ].
  unfold without. simpl. intuition discriminate.
Defined.

(** X29.  With a header made of a first word, a space and a second word,
    the middleware verifies the second word and nothing else: the first
    word is not compared with 'Bearer', and what follows a second space
    is dropped.  The request goes on when the token is verified and is
    answered 403 when it is not. *)
Theorem authMiddleware_reads_second_word :
  forall (Claims : Type) (jwt_verify : string -> option Claims)
         scheme token rest,
    without " " scheme ->
    without " " token ->
    let outcome :=
      match jwt_verify token with
      | Some decodedToken => Auth.Next decodedToken
      | None => Auth.Refused 403%nat
      end in
    Auth.authMiddleware jwt_verify (Some (scheme ++ String " " token)%string)
    = outcome
    /\ Auth.authMiddleware jwt_verify
         (Some (scheme ++ String " " (token ++ String " " rest))%string)
       = outcome.
Proof.
  intros Claims jwt_verify scheme token rest Hs Ht outcome.
  unfold Auth.authMiddleware.
  rewrite !(token_of_second_word _ _ Hs), split_app_sep,
    (split_without _ _ Ht).
  split; reflexivity.
Qed.

Lemma authMiddleware_reads_second_word_witness :
  Auth.authMiddleware
    (fun token : string => if String.eqb token "abc" then Some 1%Z else None)
    (Some "Basic abc"%string)
  = Auth.Next 1%Z.
Proof.
  assert (Hs : without " " "Basic"%string)
    by (unfold without; simpl; intuition discriminate).
  assert (Ht : without " " "abc"%string)
    by (unfold without; simpl; intuition discriminate).
  exact (proj1 (authMiddleware_reads_second_word Z
                  (fun token : string =>
                     if String.eqb token "abc" then Some 1%Z else None)
                  "Basic"%string "abc"%string EmptyString Hs Ht)).
Defined.
